(** * dual_flir: session-authenticated camera command dispatch

    A shallow embedding of the Python sources

      - [src/constants.py]                  (command registry, override parameters)
      - [src/script/camera_control.py]      (coercion, query builder, host probe, [main])
      - [src/classes/CameraControl.py]      (subprocess backend, retry loops)
      - [src/classes/CameraControlAPI.py]   (HTTP backend, [execute] and its wrappers)

    followed by the properties of the dispatch layer that the specification
    states about them, and by further properties of the same code.

    Conventions of the embedding.
      - Python [str] is [string]; the model covers ASCII text (code points
        below 128), which is what the registry and the wire protocol use.
      - Python [int] is [Z]; Python [float] is an IEEE-754 binary64 value
        ([PyFloat.t]) with correctly rounded parsing and printing.
      - The interpreter is CPython 3.11 or later with its default settings:
        [int(s)] and [str(n)] raise [ValueError] beyond 4300 digits
        ([PyStr.MAX_STR_DIGITS], [py_int], [str_of]).  Port numbers, HTTP
        status codes and attempt counts, which the code formats into
        texts, are taken to be within that limit.
      - [float(s)] and [int(s)] skip TAB..CR and space around an ASCII
        text ([PyStr.c_strip]); [str.strip] also strips FS..US
        ([PyStr.strip]).
      - A [dict] is an insertion-ordered association list with unique keys.
      - Wall-clock time, subprocesses and HTTP exchanges are answered by an
        external [Platform]; every interaction is appended to a trace.
        [print] calls are not part of the trace.
      - Connection attempts and sleeps of [wait_for_host] are answered by an
        external [Network] and recorded as a list of probes. *)

From Stdlib Require Import String Ascii List ZArith QArith Bool Lia Lqa.
From Stdlib Require Decimal DecimalString DecimalPos DecimalZ.
Import ListNotations.

Local Open Scope string_scope.
Local Open Scope Z_scope.
Set Warnings "-register-all".

(* ================================================================== *)
(** * Python strings *)
(* ================================================================== *)

Module PyStr.

Definition code (c : ascii) : N := N_of_ascii c.

Definition is_upper (c : ascii) : bool := ((65 <=? code c) && (code c <=? 90))%N.

Definition is_digit (c : ascii) : bool := ((48 <=? code c) && (code c <=? 57))%N.

(** [str.isspace] on code points below 128: TAB..CR, FS..US and space. *)
Definition is_space (c : ascii) : bool :=
  (((9 <=? code c) && (code c <=? 13)) || ((28 <=? code c) && (code c <=? 32)))%N.

Definition lower_char (c : ascii) : ascii :=
  if is_upper c then ascii_of_N (code c + 32) else c.

(** [s.lower()] *)
Fixpoint lower (s : string) : string :=
  match s with
  | EmptyString => EmptyString
  | String c r => String (lower_char c) (lower r)
  end.

(** [s.lstrip()] *)
Fixpoint lstrip (s : string) : string :=
  match s with
  | EmptyString => EmptyString
  | String c r => if is_space c then lstrip r else s
  end.

(** [s.rstrip()] *)
Fixpoint rstrip (s : string) : string :=
  match s with
  | EmptyString => EmptyString
  | String c r =>
      match rstrip r with
      | EmptyString => if is_space c then EmptyString else String c EmptyString
      | r' => String c r'
      end
  end.

(** [s.strip()] *)
Definition strip (s : string) : string := rstrip (lstrip s).

(** White space as [float(s)] and [int(s)] skip it around an ASCII text:
    TAB..CR and space.  Unlike [str.strip], they do not skip FS..US. *)
Definition is_c_space (c : ascii) : bool :=
  (((9 <=? code c) && (code c <=? 13)) || (code c =? 32))%N.

Fixpoint c_lstrip (s : string) : string :=
  match s with
  | EmptyString => EmptyString
  | String c r => if is_c_space c then c_lstrip r else s
  end.

Fixpoint c_rstrip (s : string) : string :=
  match s with
  | EmptyString => EmptyString
  | String c r =>
      match c_rstrip r with
      | EmptyString => if is_c_space c then EmptyString else String c EmptyString
      | r' => String c r'
      end
  end.

(** The text between the leading and the trailing white space that the
    numeric parsers skip. *)
Definition c_strip (s : string) : string := c_rstrip (c_lstrip s).

(** [s.find(c)] for a one-character needle: [None] stands for [-1]. *)
Fixpoint find_char (c : ascii) (s : string) : option nat :=
  match s with
  | EmptyString => None
  | String d r =>
      if Ascii.eqb c d then Some O
      else match find_char c r with Some i => Some (S i) | None => None end
  end.

(** [s[i:]] for [0 <= i]. *)
Fixpoint drop (i : nat) (s : string) : string :=
  match i, s with
  | O, _ => s
  | S _, EmptyString => EmptyString
  | S j, String _ r => drop j r
  end.

(** [s.split(c, 1)] when [c in s]: the text before and after the first [c]. *)
Fixpoint split_once (c : ascii) (s : string) : option (string * string) :=
  match s with
  | EmptyString => None
  | String d r =>
      if Ascii.eqb c d then Some (EmptyString, r)
      else match split_once c r with
           | Some (a, b) => Some (String d a, b)
           | None => None
           end
  end.

(** [sep.join(parts)] *)
Definition join (sep : string) (parts : list string) : string := String.concat sep parts.

(** [x in xs] for a collection of strings. *)
Definition mem (x : string) (xs : list string) : bool := existsb (String.eqb x) xs.

Fixpoint insert_sorted (x : string) (xs : list string) : list string :=
  match xs with
  | [] => [x]
  | y :: r => if String.leb x y then x :: xs else y :: insert_sorted x r
  end.

(** [sorted(xs)]: code-point order. *)
Definition sorted (xs : list string) : list string := fold_right insert_sorted [] xs.

(** The decimal text of an [int]: [str(n)] when [str] returns. *)
Definition of_Z (n : Z) : string := DecimalString.NilZero.string_of_int (Z.to_int n).

(** [sys.int_info.default_max_str_digits]: the interpreter converts between
    [int] and decimal text up to this number of digits, and raises
    [ValueError] beyond it. *)
Definition MAX_STR_DIGITS : Z := 4300.

(** [digits] is a run of decimal digits, sign and underscores left out. *)
Definition exceeds_max_str_digits (digits : string) : bool :=
  MAX_STR_DIGITS <? Z.of_nat (String.length digits).

Definition digit_val (c : ascii) : Z := Z.of_N (code c) - 48.

(** Value of a run of decimal digits, most significant first. *)
Fixpoint digits_val (acc : Z) (s : string) : Z :=
  match s with
  | EmptyString => acc
  | String c r => digits_val (10 * acc + digit_val c) r
  end.

(** The digit part of a numeric literal: digits with single underscores
    between them ([1_000]).  Returns the digits without the underscores.
    [prev] tells whether the previous character was a digit. *)
Fixpoint digitpart (prev : bool) (s : string) : option string :=
  match s with
  | EmptyString => if prev then Some EmptyString else None
  | String c r =>
      if is_digit c then
        match digitpart true r with
        | Some ds => Some (String c ds)
        | None => None
        end
      else if Ascii.eqb c "_" then
        if prev then
          match r with
          | String d _ => if is_digit d then digitpart false r else None
          | EmptyString => None
          end
        else None
      else None
  end.

Definition has_char (c : ascii) (s : string) : bool :=
  match find_char c s with Some _ => true | None => false end.

Definition dquote : ascii := ascii_of_N 34.
Definition squote : ascii := ascii_of_N 39.
Definition backslash : ascii := ascii_of_N 92.

Definition hex_digit (n : N) : ascii :=
  if (n <? 10)%N then ascii_of_N (48 + n) else ascii_of_N (87 + n).

Fixpoint escape (q : ascii) (s : string) : string :=
  match s with
  | EmptyString => EmptyString
  | String c r =>
      let rest := escape q r in
      if Ascii.eqb c backslash then String backslash (String backslash rest)
      else if Ascii.eqb c q then String backslash (String c rest)
      else if (code c =? 9)%N then String backslash (String "t" rest)
      else if (code c =? 10)%N then String backslash (String "n" rest)
      else if (code c =? 13)%N then String backslash (String "r" rest)
      else if ((code c <? 32) || (code c =? 127))%N then
        String backslash (String "x" (String (hex_digit (code c / 16))
                                        (String (hex_digit (code c mod 16)) rest)))
      else String c rest
  end.

(** [repr(s)] of a [str]: single quotes unless the text has a single quote
    and no double quote; backslash, the chosen quote and control characters
    are escaped. *)
Definition repr (s : string) : string :=
  let q := if has_char squote s && negb (has_char dquote s) then dquote else squote in
  String q (escape q s ++ String q EmptyString).

End PyStr.

(* ================================================================== *)
(** * Python floats: IEEE-754 binary64 *)
(* ================================================================== *)

Module PyFloat.

(** A finite value is [(-1)^neg * m * 2^e] with [0 <= m < 2^53]; values
    produced by [round] are canonical: [2^52 <= m] and [-1074 <= e <= 971],
    or [m < 2^52] and [e = -1074] (zero and the subnormals). *)
Inductive t : Type :=
| Nan
| Inf (neg : bool)
| Fin (neg : bool) (m : Z) (e : Z).

Definition eqb (x y : t) : bool :=
  match x, y with
  | Nan, Nan => true
  | Inf a, Inf b => Bool.eqb a b
  | Fin a m e, Fin b n f => Bool.eqb a b && (m =? n) && (e =? f)
  | _, _ => false
  end.

(** Nearest integer to [n / d] ([0 <= n], [0 < d]), ties to even. *)
Definition div_half_even (n d : Z) : Z :=
  let q := n / d in
  let r := n mod d in
  match (2 * r) ?= d with
  | Lt => q
  | Gt => q + 1
  | Eq => if Z.even q then q else q + 1
  end.

(** [n / d] scaled by [b^k], as a fraction. *)
Definition scale (b : Z) (n d k : Z) : Z * Z :=
  if 0 <=? k then (n * b ^ k, d) else (n, d * b ^ (- k)).

(** [floor (log_b (n / d))] for [0 < n], [0 < d], given [lg] with
    [b^(lg x) <= x < b^(lg x + 1)]. *)
Definition floor_log (b : Z) (lg : Z -> Z) (n d : Z) : Z :=
  let k := lg n - lg d in
  let '(n', d') := scale b n d (- k) in
  if d' <=? n' then k else k - 1.

(** Number of decimal digits of [n > 0], minus one. *)
Definition log10 (n : Z) : Z :=
  Z.of_nat (Decimal.nb_digits (Pos.to_uint (Z.to_pos n))) - 1.

(** The binary64 value nearest to [(-1)^neg * n / d], ties to even;
    overflow gives an infinity. *)
Definition round (neg : bool) (n d : Z) : t :=
  if n =? 0 then Fin neg 0 (-1074)
  else
    let l := floor_log 2 Z.log2 n d in
    let e := Z.max (l - 52) (-1074) in
    let '(n', d') := scale 2 n d (- e) in
    let m := div_half_even n' d' in
    let '(m, e) := if m =? 2 ^ 53 then (2 ^ 52, e + 1) else (m, e) in
    if 971 <? e then Inf neg else Fin neg m e.

Definition of_Z (z : Z) : t := round (z <? 0) (Z.abs z) 1.

(** ** Decimal digits of a finite non-zero value *)

(** [k] significant digits of [m * 2^e], correctly rounded (ties to even):
    the digits as an integer in [[10^(k-1), 10^k)] and the decimal
    exponent [x] of the first digit. *)
Definition digits_of (k : Z) (m e : Z) : Z * Z :=
  let '(n, d) := scale 2 m 1 e in
  let x := floor_log 10 log10 n d in
  let '(n', d') := scale 10 n d (k - 1 - x) in
  let ds := div_half_even n' d' in
  if ds =? 10 ^ k then (10 ^ (k - 1), x + 1) else (ds, x).

(** The last [k] decimal digits of [d], most significant first; for
    [10^(k-1) <= d < 10^k] this is [str(d)]. *)
Fixpoint digits_k (k : nat) (d : Z) : string :=
  match k with
  | O => EmptyString
  | S k' => digits_k k' (d / 10) ++ String (ascii_of_N (48 + Z.to_N (d mod 10))) EmptyString
  end.

Fixpoint strip_zeros_rev (s : list ascii) : list ascii :=
  match s with
  | "0"%char :: r => strip_zeros_rev r
  | _ => s
  end.

(** The digit string without its trailing zeros. *)
Definition strip_zeros (s : string) : string :=
  string_of_list_ascii (List.rev (strip_zeros_rev (List.rev (list_ascii_of_string s)))).

Fixpoint zeros (n : nat) : string :=
  match n with O => EmptyString | S k => String "0" (zeros k) end.

(** Fixed notation: digits [ds] (no trailing zeros) with the first digit at
    decimal exponent [x]. *)
Definition fixed (ds : string) (x : Z) : string * string :=
  if x <? 0 then ("0", zeros (Z.to_nat (- x - 1)) ++ ds)
  else
    let i := Z.to_nat (x + 1) in
    let len := String.length ds in
    if Nat.leb len i then (ds ++ zeros (i - len), EmptyString)
    else (String.substring 0 i ds, PyStr.drop i ds).

Definition exponent (x : Z) : string :=
  let a := PyStr.of_Z (Z.abs x) in
  let sg : ascii := if x <? 0 then "-"%char else "+"%char in
  String "e" (String sg (if Z.abs x <? 10 then String "0" a else a)).

Definition scientific (ds : string) (x : Z) : string :=
  match ds with
  | EmptyString => EmptyString
  | String c EmptyString => String c (exponent x)
  | String c r => String c (String "." r) ++ exponent x
  end.

Definition sign (neg : bool) : string := if neg then "-" else "".

(** ** [format(x, ".10g")] *)
Definition precision : Z := 10.

Definition format_10g (x : t) : string :=
  match x with
  | Nan => "nan"
  | Inf neg => sign neg ++ "inf"
  | Fin neg m e =>
      if m =? 0 then sign neg ++ "0"
      else
        let '(d, x) := digits_of precision m e in
        let ds := strip_zeros (digits_k (Z.to_nat precision) d) in
        if (x <? -4) || (precision <=? x) then sign neg ++ scientific ds x
        else
          let '(ip, fp) := fixed ds x in
          match fp with
          | EmptyString => sign neg ++ ip
          | _ => sign neg ++ ip ++ "." ++ fp
          end
  end.

(** ** [format(x, ".2f")] *)
Definition format_2f (x : t) : string :=
  match x with
  | Nan => "nan"
  | Inf neg => sign neg ++ "inf"
  | Fin neg m e =>
      let '(n, d) := scale 2 m 1 e in
      let c := div_half_even (n * 100) d in
      let fp := PyStr.of_Z (c mod 100) in
      sign neg ++ PyStr.of_Z (c / 100) ++ "."
        ++ (if c mod 100 <? 10 then String "0" fp else fp)
  end.

(** ** [float(s)] for a [str] *)

Definition parse_exponent (s : string) : option Z :=
  match s with
  | String "+" r =>
      match PyStr.digitpart false r with Some ds => Some (PyStr.digits_val 0 ds) | None => None end
  | String "-" r =>
      match PyStr.digitpart false r with Some ds => Some (- PyStr.digits_val 0 ds) | None => None end
  | _ =>
      match PyStr.digitpart false s with Some ds => Some (PyStr.digits_val 0 ds) | None => None end
  end.

(** Splits at the first [e] or [E]. *)
Fixpoint split_exp (s : string) : string * option string :=
  match s with
  | EmptyString => (EmptyString, None)
  | String c r =>
      if Ascii.eqb c "e" || Ascii.eqb c "E" then (EmptyString, Some r)
      else let '(a, b) := split_exp r in (String c a, b)
  end.

Definition opt_digitpart (s : string) : option string :=
  match s with
  | EmptyString => Some EmptyString
  | _ => PyStr.digitpart false s
  end.

(** Mantissa [int . frac]: at least one digit overall. *)
Definition parse_mantissa (s : string) : option (string * string) :=
  match PyStr.split_once "." s with
  | None =>
      match PyStr.digitpart false s with Some i => Some (i, EmptyString) | None => None end
  | Some (i, f) =>
      match opt_digitpart i, opt_digitpart f with
      | Some i', Some f' =>
          match i', f' with
          | EmptyString, EmptyString => None
          | _, _ => Some (i', f')
          end
      | _, _ => None
      end
  end.

Definition parse_unsigned (neg : bool) (s : string) : option t :=
  let l := PyStr.lower s in
  if String.eqb l "inf" || String.eqb l "infinity" then Some (Inf neg)
  else if String.eqb l "nan" then Some Nan
  else
    let '(ms, es) := split_exp s in
    match parse_mantissa ms, match es with None => Some 0 | Some e => parse_exponent e end with
    | Some (i, f), Some x =>
        let n := PyStr.digits_val 0 (i ++ f) in
        let '(n', d') := scale 10 n 1 (x - Z.of_nat (String.length f)) in
        Some (round neg n' d')
    | _, _ => None
    end.

(** [float(s)]: [None] stands for [ValueError]. *)
Definition of_string (s : string) : option t :=
  match PyStr.c_strip s with
  | String "+" r => parse_unsigned false r
  | String "-" r => parse_unsigned true r
  | r => parse_unsigned false r
  end.

(** ** [repr(x)]: the shortest digit string that reads back as [x] *)

Definition reads_back (neg : bool) (m e : Z) (ds x k : Z) : bool :=
  let '(n, d) := scale 10 ds 1 (x - (k - 1)) in
  eqb (round neg n d) (Fin neg m e).

(** The candidate with [k] digits, if one reads back: the floor and the
    ceiling of the scaled value are tried, the nearer one first. *)
Definition candidate (neg : bool) (m e : Z) (k : Z) : option (Z * Z) :=
  let '(n, d) := scale 2 m 1 e in
  let x := floor_log 10 log10 n d in
  let '(n', d') := scale 10 n d (k - 1 - x) in
  let lo := n' / d' in
  let hi := lo + 1 in
  let norm v := if v =? 10 ^ k then (10 ^ (k - 1), x + 1) else (v, x) in
  let ok v := let '(ds, x') := norm v in reads_back neg m e ds x' k in
  let first := div_half_even n' d' in
  let second := if first =? lo then hi else lo in
  if (10 ^ (k - 1) <=? first) && ok first then Some (norm first)
  else if (10 ^ (k - 1) <=? second) && ok second then Some (norm second)
  else None.

Fixpoint shortest (neg : bool) (m e : Z) (k : Z) (fuel : nat) : Z * Z :=
  match fuel with
  | O => digits_of 17 m e
  | S f =>
      match candidate neg m e k with
      | Some r => r
      | None => shortest neg m e (k + 1) f
      end
  end.

Definition repr (x : t) : string :=
  match x with
  | Nan => "nan"
  | Inf neg => sign neg ++ "inf"
  | Fin neg m e =>
      if m =? 0 then sign neg ++ "0.0"
      else
        let '(d, x) := shortest neg m e 1 16 in
        let ds := strip_zeros (PyStr.of_Z d) in
        if (x <? -4) || (16 <=? x) then sign neg ++ scientific ds x
        else
          let '(ip, fp) := fixed ds x in
          match fp with
          | EmptyString => sign neg ++ ip ++ ".0"
          | _ => sign neg ++ ip ++ "." ++ fp
          end
  end.

End PyFloat.

(* ================================================================== *)
(** * Python values, dictionaries and exceptions *)
(* ================================================================== *)

(** Values that travel through the dispatch layer: caller parameters,
    defaults, query values and decoded JSON. *)
Inductive pyval : Type :=
| PNone
| PBool (b : bool)
| PInt (n : Z)
| PFloat (x : PyFloat.t)
| PStr (s : string)
| PList (xs : list pyval)
| PDict (kvs : list (string * pyval)).

(** [repr(v)] *)
Fixpoint py_repr (v : pyval) : string :=
  match v with
  | PNone => "None"
  | PBool true => "True"
  | PBool false => "False"
  | PInt n => PyStr.of_Z n
  | PFloat x => PyFloat.repr x
  | PStr s => PyStr.repr s
  | PList xs => "[" ++ PyStr.join ", " (map py_repr xs) ++ "]"
  | PDict kvs =>
      "{" ++ PyStr.join ", "
               (map (fun kv => PyStr.repr (fst kv) ++ ": " ++ py_repr (snd kv)) kvs) ++ "}"
  end.

(** The text of [str(v)], when [str] returns: see [str_of] below. *)
Definition py_str (v : pyval) : string :=
  match v with
  | PStr s => s
  | _ => py_repr v
  end.

(** [str(v)] and [repr(v)] raise [ValueError] when an [int] in [v] has more
    digits than the interpreter converts. *)
Fixpoint exceeds_str_limit (v : pyval) : bool :=
  match v with
  | PInt n => PyStr.exceeds_max_str_digits (PyStr.of_Z (Z.abs n))
  | PList xs => existsb exceeds_str_limit xs
  | PDict kvs => existsb (fun kv => exceeds_str_limit (snd kv)) kvs
  | _ => false
  end.

(** Truth value of [v], as tested by [if v] and [not v]. *)
Definition truthy (v : pyval) : bool :=
  match v with
  | PNone => false
  | PBool b => b
  | PInt n => negb (n =? 0)
  | PFloat (PyFloat.Fin _ m _) => negb (m =? 0)
  | PFloat _ => true
  | PStr s => negb (String.eqb s "")
  | PList xs => match xs with [] => false | _ => true end
  | PDict kvs => match kvs with [] => false | _ => true end
  end.

Arguments truthy : simpl never.

(** ** Insertion-ordered dictionaries *)

Definition dict (V : Type) : Type := list (string * V).

Section Dict.
Context {V : Type}.

(** [d.get(k)] *)
Fixpoint dict_get (k : string) (d : dict V) : option V :=
  match d with
  | [] => None
  | (k', v) :: r => if String.eqb k k' then Some v else dict_get k r
  end.

(** [k in d] *)
Definition dict_mem (k : string) (d : dict V) : bool :=
  match dict_get k d with Some _ => true | None => false end.

(** [d[k] = v]: an existing key keeps its place, a new key goes last. *)
Fixpoint dict_set (k : string) (v : V) (d : dict V) : dict V :=
  match d with
  | [] => [(k, v)]
  | (k', v') :: r =>
      if String.eqb k k' then (k, v) :: r else (k', v') :: dict_set k v r
  end.

(** [d.update(other)] *)
Definition dict_update (d other : dict V) : dict V :=
  fold_left (fun acc kv => dict_set (fst kv) (snd kv) acc) other d.

(** [d.pop(k)] for a key that is present: the dictionary without [k]. *)
Fixpoint dict_remove (k : string) (d : dict V) : dict V :=
  match d with
  | [] => []
  | (k', v') :: r => if String.eqb k k' then r else (k', v') :: dict_remove k r
  end.

(** [list(d.keys())] *)
Definition dict_keys (d : dict V) : list string := map fst d.

End Dict.

(** ** Exceptions *)

Inductive pyclass : Type :=
| ValueError | RuntimeError | AttributeError | JSONDecodeError | SystemExit | OtherException.

Inductive invalid_detail : Type :=
| ExpectsBoolean (supported : list string)
| CannotConvert (value typename : string).

(** The failures of the dispatch layer, one constructor per raise site. *)
Inductive error : Type :=
| UnknownCommand (command_name : string) (available : list string)
| UnknownCamera (alias : string) (available : list string)
| BadParameterPair (raw : string) (empty_key : bool)
| MissingParameter (name command_name : string)
| UnexpectedParameter (command_name : string) (extras : list string)
| InvalidParameterValue (name : string) (detail : invalid_detail)
| AuthenticationFailed
| HTTPErrorFromCamera (code : Z) (reason : string)
| FailedToReachCamera (reason : string)
| ParserError (reported : error)
| Uncaught (cls : pyclass) (detail : string).

Definition class_of (e : error) : pyclass :=
  match e with
  | UnknownCommand _ _ | UnknownCamera _ _ | BadParameterPair _ _
  | MissingParameter _ _ | UnexpectedParameter _ _ | InvalidParameterValue _ _ => ValueError
  | AuthenticationFailed | HTTPErrorFromCamera _ _ | FailedToReachCamera _ => RuntimeError
  | ParserError _ => SystemExit
  | Uncaught c _ => c
  end.

(** The text of the exception. *)
Fixpoint message (e : error) : string :=
  match e with
  | UnknownCommand c av =>
      "Unknown command '" ++ c ++ "'. Available: " ++ PyStr.join ", " av
  | UnknownCamera a av =>
      "Unknown camera alias '" ++ a ++ "'. Known aliases: " ++ PyStr.join ", " av
  | BadParameterPair raw false => "Parameter '" ++ raw ++ "' must be in key=value format."
  | BadParameterPair raw true => "Invalid parameter '" ++ raw ++ "' (empty key)."
  | MissingParameter n c =>
      "Missing required parameter '" ++ n ++ "' for command '" ++ c ++ "'."
  | UnexpectedParameter c ex =>
      "Unexpected parameter(s) for '" ++ c ++ "': " ++ PyStr.join ", " ex ++ "."
  | InvalidParameterValue n (ExpectsBoolean sup) =>
      "Parameter '" ++ n ++ "' expects a boolean value. Supported inputs: "
        ++ py_repr (PList (map PStr sup))
  | InvalidParameterValue n (CannotConvert v ty) =>
      "Unable to convert '" ++ n ++ "'='" ++ v ++ "' to " ++ ty
  | AuthenticationFailed => "Unable to authenticate before executing command."
  | HTTPErrorFromCamera c r => "HTTP error " ++ PyStr.of_Z c ++ " from camera: " ++ r
  | FailedToReachCamera r => "Failed to reach camera: " ++ r
  | ParserError (UnexpectedParameter c ex) =>
      "Unexpected parameters for '" ++ c ++ "': " ++ PyStr.join ", " ex
        ++ ". Check constants.CAMERA_COMMANDS for supported names."
  | ParserError r => message r
  | Uncaught _ d => d
  end.

Inductive result (A : Type) : Type :=
| Ok (a : A)
| Raise (e : error).
Arguments Ok {A} a.
Arguments Raise {A} e.

Definition rbind {A B : Type} (r : result A) (k : A -> result B) : result B :=
  match r with
  | Ok a => k a
  | Raise e => Raise e
  end.

Declare Scope result_scope.
Delimit Scope result_scope with result.
Notation "x <- r ;; k" := (rbind r (fun x => k))
  (at level 61, r at next level, right associativity) : result_scope.

(** The [ValueError] of a conversion between [int] and text beyond the
    digit limit. *)
Definition digit_limit_error : error :=
  Uncaught ValueError
    ("Exceeds the limit (4300 digits) for integer string conversion; "
       ++ "use sys.set_int_max_str_digits() to increase the limit").

(** [str(v)] as a call. *)
Definition str_of (v : pyval) : result string :=
  if exceeds_str_limit v then Raise digit_limit_error else Ok (py_str v).

(* ================================================================== *)
(** * The outside world *)
(* ================================================================== *)

(** [subprocess.Popen(...)] followed by [communicate(timeout=15)]. *)
Inductive popen_outcome : Type :=
| PopenExit (returncode : Z) (stdout stderr : string)
| PopenRaises (detail : string).

(** [subprocess.run(..., check=True)]. *)
Inductive run_outcome : Type :=
| RunCompleted (stdout : string)
| RunCalledProcessError (returncode : Z) (stderr : string)
| RunRaises (detail : string).

(** [urlopen(request, timeout=...)] and [response.read().decode("utf-8")]. *)
Inductive urlopen_outcome : Type :=
| UrlPayload (payload : string)
| UrlHTTPError (code : Z) (reason : string)
| UrlURLError (reason : string)
| UrlRaises (cls : pyclass) (detail : string).

(** One interaction with the outside world. *)
Inductive event : Type :=
| Time (t : Q)
| Popen (argv : list string) (outcome : popen_outcome)
| Run (argv : list string) (outcome : run_outcome)
| Urlopen (url : string) (timeout : Q) (outcome : urlopen_outcome).

(** What the program does not define itself: the clock, the scripts, the
    camera's HTTP server, and the library functions [json.loads] and
    [urlencode].  An answer may depend on everything that happened before.
    Clock readings are rationals and their subtraction is exact. *)
Class Platform : Type := {
  clock : list event -> Q;
  popen : list event -> list string -> popen_outcome;
  run : list event -> list string -> run_outcome;
  urlopen : list event -> string -> Q -> urlopen_outcome;
  json_loads : string -> option pyval;
  urlencode : dict pyval -> string
}.

(** ** State and trace *)

Record Sys (O : Type) : Type := mkSys {
  self : O;
  trace : list event
}.
Arguments mkSys {O} self trace.
Arguments self {O} s.
Arguments trace {O} s.

Definition M (O A : Type) : Type := Sys O -> A * Sys O.

Definition ret {O A : Type} (a : A) : M O A := fun s => (a, s).

Definition bind {O A B : Type} (m : M O A) (k : A -> M O B) : M O B :=
  fun s => let '(a, s') := m s in k a s'.

Declare Scope sys_scope.
Delimit Scope sys_scope with sys.
Notation "x <- m ;; k" := (bind m (fun x => k))
  (at level 61, m at next level, right associativity) : sys_scope.
Notation "m ;;; k" := (bind m (fun _ => k))
  (at level 61, right associativity) : sys_scope.

Definition get_self {O : Type} : M O O := fun s => (self s, s).

Definition update {O : Type} (f : O -> O) : M O unit :=
  fun s => (tt, mkSys (f (self s)) (trace s)).

Section Primitives.
Context {P : Platform} {O : Type}.

(** [time.time()] *)
Definition time_time : M O Q :=
  fun s => let t := clock (trace s) in (t, mkSys (self s) (trace s ++ [Time t])).

Definition subprocess_popen (argv : list string) : M O popen_outcome :=
  fun s => let r := popen (trace s) argv in
           (r, mkSys (self s) (trace s ++ [Popen argv r])).

Definition subprocess_run (argv : list string) : M O run_outcome :=
  fun s => let r := run (trace s) argv in
           (r, mkSys (self s) (trace s ++ [Run argv r])).

Definition url_open (url : string) (timeout : Q) : M O urlopen_outcome :=
  fun s => let r := urlopen (trace s) url timeout in
           (r, mkSys (self s) (trace s ++ [Urlopen url timeout r])).

End Primitives.

(** [v.get(k, default)]: [None] stands for the [AttributeError] of a value
    that is not a [dict]. *)
Definition py_get (v : pyval) (k : string) (default : pyval) : option pyval :=
  match v with
  | PDict kvs => Some (match dict_get k kvs with Some x => x | None => default end)
  | _ => None
  end.

(** [v.get(k1, {}).get(k2)] *)
Definition py_get2 (v : pyval) (k1 k2 : string) : option pyval :=
  match py_get v k1 (PDict []) with
  | Some inner => py_get inner k2 PNone
  | None => None
  end.

(** [float(v)]: [None] stands for the exception raised for a value that
    has no [float] ([TypeError], [ValueError], [OverflowError]). *)
Definition py_float (v : pyval) : option PyFloat.t :=
  match v with
  | PFloat x => Some x
  | PInt n =>
      match PyFloat.of_Z n with
      | PyFloat.Inf _ => None
      | x => Some x
      end
  | PBool b => Some (PyFloat.of_Z (if b then 1 else 0))
  | PStr s => PyFloat.of_string s
  | _ => None
  end.

(** [f"{v:.2f}"]: [None] stands for the exception raised for a value that
    is not a number. *)
Definition format_2f (v : pyval) : option string :=
  match v with
  | PFloat x => Some (PyFloat.format_2f x)
  | PInt n =>
      match PyFloat.of_Z n with
      | PyFloat.Inf _ => None
      | x => Some (PyFloat.format_2f x)
      end
  | PBool b => Some (PyFloat.format_2f (PyFloat.of_Z (if b then 1 else 0)))
  | _ => None
  end.

(** [type(v).__name__] *)
Definition type_name (v : pyval) : string :=
  match v with
  | PNone => "NoneType"
  | PBool _ => "bool"
  | PInt _ => "int"
  | PFloat _ => "float"
  | PStr _ => "str"
  | PList _ => "list"
  | PDict _ => "dict"
  end.

(** Counting interactions in a trace. *)
Definition is_run (ev : event) : bool :=
  match ev with Run _ _ => true | _ => false end.
Definition is_popen (ev : event) : bool :=
  match ev with Popen _ _ => true | _ => false end.
Definition is_urlopen (ev : event) : bool :=
  match ev with Urlopen _ _ _ => true | _ => false end.

Definition count (p : event -> bool) (tr : list event) : nat :=
  List.length (filter p tr).

(* ================================================================== *)
(** * [src/constants.py] *)
(* ================================================================== *)

Definition FLIR1_IP : string := "169.254.80.109".
Definition FLIR2_IP : string := "169.254.50.183".

Definition DEFAULT_CAMERA : string := "FLIR2".

Definition CAMERA_HOSTS : dict string :=
  [ ("FLIR1", FLIR1_IP); ("FLIR2", FLIR2_IP) ].

Definition NEXUS_DEFAULT_PORT : Z := 80.
Definition NEXUS_CGI_PATH : string := "/Nexus.cgi".

Definition TOKEN_OVERRIDE_PARAMS : dict pyval :=
  [ ("tokenoverride", PStr "1"); ("_", PStr "0") ].

(** The type objects used as converters in a parameter spec. *)
Inductive ptype : Type := TFloat | TInt | TStr | TBool.

(** A parameter spec is a [dict]; an absent key is [None] here. *)
Record ParameterSpec : Type := {
  p_name : string;
  p_type : option ptype;
  p_required : option bool;
  p_default : option pyval;
  p_help : option string
}.

Record CommandSpec : Type := {
  c_action : string;
  c_description : option string;
  c_static_params : option (dict pyval);
  c_params : option (list ParameterSpec)
}.

Definition param (name : string) (ty : ptype) (help : string) : ParameterSpec :=
  {| p_name := name; p_type := Some ty; p_required := None;
     p_default := None; p_help := Some help |}.

Definition CAMERA_COMMANDS : dict CommandSpec :=
  [ ("get_zoom",
      {| c_action := "DLTVFOVMagnificationGet";
         c_description := Some "Return the current zoom magnification.";
         c_static_params := None;
         c_params := Some [] |});
    ("get_zoom_fov",
      {| c_action := "DLTVZoomDegreesGet";
         c_description := Some "Return the current zoom field-of-view in degrees.";
         c_static_params := None;
         c_params := Some [] |});
    ("set_zoom",
      {| c_action := "DLTVFOVMagnificationSet";
         c_description := Some "Set zoom magnification to a specific value.";
         c_static_params := None;
         c_params := Some [ param "Magnification" TFloat "Target zoom magnification." ] |});
    ("auto_focus",
      {| c_action := "DLTVAutoFocusPush";
         c_description := Some "Trigger an autofocus operation.";
         c_static_params := None;
         c_params := Some [] |});
    ("get_speed",
      {| c_action := "PTSpeedGet";
         c_description := Some "Fetch the current azimuth/elevation speed configuration.";
         c_static_params := None;
         c_params := Some [] |});
    ("set_speed",
      {| c_action := "PTSpeedModeSet";
         c_description := Some "Update azimuth and elevation speed settings.";
         c_static_params := None;
         c_params := Some [ param "Azimuth_Speed" TInt "Desired azimuth speed setting.";
                            param "Elevation_Speed" TInt "Desired elevation speed setting." ] |});
    ("get_position",
      {| c_action := "PTAzimuthElevationGet";
         c_description := Some "Retrieve the current azimuth/elevation angles.";
         c_static_params := None;
         c_params := Some [] |});
    ("center",
      {| c_action := "PTAzimuthElevationOnScreenSet";
         c_description := Some "Center the camera on a screen coordinate (X/Y).";
         c_static_params :=
           Some [ ("Active_cam", PStr "0"); ("Cam_type", PStr "4"); ("Cam_id", PStr "0") ];
         c_params := Some [ param "ScreenX" TFloat "Horizontal screen coordinate.";
                            param "ScreenY" TFloat "Vertical screen coordinate." ] |}) ].

(* ================================================================== *)
(** * [src/script/camera_control.py] *)
(* ================================================================== *)

Local Open Scope result_scope.

Module ParsedCommand.
Record t : Type := {
  name : string;
  action : string;
  description : string;
  static_params : dict pyval;
  param_specs : list ParameterSpec
}.
End ParsedCommand.

(** An [Optional[str]] used as a condition: [None] and the empty string
    are false. *)
Definition given (o : option string) : option string :=
  match o with
  | Some s => if truthy (PStr s) then Some s else None
  | None => None
  end.

Definition resolve_host (host camera_alias : option string) : result string :=
  match given host with
  | Some h => Ok h
  | None =>
      let alias := match given camera_alias with Some a => a | None => DEFAULT_CAMERA end in
      match dict_get alias CAMERA_HOSTS with
      | Some ip => Ok ip
      | None => Raise (UnknownCamera alias (PyStr.sorted (dict_keys CAMERA_HOSTS)))
      end
  end.

Definition load_command_from (registry : dict CommandSpec) (command_name : string)
  : result ParsedCommand.t :=
  match dict_get command_name registry with
  | None => Raise (UnknownCommand command_name (PyStr.sorted (dict_keys registry)))
  | Some spec =>
      Ok {| ParsedCommand.name := command_name;
            ParsedCommand.action := c_action spec;
            ParsedCommand.description :=
              match c_description spec with Some d => d | None => "" end;
            ParsedCommand.static_params :=
              match c_static_params spec with Some d => d | None => [] end;
            ParsedCommand.param_specs :=
              match c_params spec with Some l => l | None => [] end |}
  end.

Definition load_command (command_name : string) : result ParsedCommand.t :=
  load_command_from CAMERA_COMMANDS command_name.

Fixpoint parse_param_pairs_loop (pairs : list string) (parsed : dict string)
  : result (dict string) :=
  match pairs with
  | [] => Ok parsed
  | raw :: rest =>
      match PyStr.split_once "=" raw with
      | None => Raise (BadParameterPair raw false)
      | Some (key, value) =>
          let key := PyStr.strip key in
          if String.eqb key "" then Raise (BadParameterPair raw true)
          else parse_param_pairs_loop rest (dict_set key value parsed)
      end
  end.

Definition parse_param_pairs (pairs : list string) : result (dict string) :=
  parse_param_pairs_loop pairs [].

(** The value of the digits of an [int] literal, sign apart: digits with
    single underscores between them, no more digits than the interpreter
    converts (leading zeros count, underscores do not). *)
Definition int_digits (r : string) : option Z :=
  match PyStr.digitpart false r with
  | Some ds => if PyStr.exceeds_max_str_digits ds then None else Some (PyStr.digits_val 0 ds)
  | None => None
  end.

(** [int(value)] for a [str]: [None] stands for [ValueError]. *)
Definition py_int (value : string) : option Z :=
  match PyStr.c_strip value with
  | String "+" r => int_digits r
  | String "-" r => option_map Z.opp (int_digits r)
  | r => int_digits r
  end.

(** [converter(value)] for a [str] value. *)
Definition convert (converter : ptype) (value : string) : option pyval :=
  match converter with
  | TFloat => option_map PFloat (PyFloat.of_string value)
  | TInt => option_map PInt (py_int value)
  | TStr => Some (PStr value)
  | TBool => Some (PBool (truthy (PStr value)))
  end.

(** [converter.__name__] *)
Definition typename (converter : ptype) : string :=
  match converter with
  | TFloat => "float"
  | TInt => "int"
  | TStr => "str"
  | TBool => "bool"
  end.

Definition truthy_inputs : list string := ["1"; "true"; "t"; "yes"; "y"; "on"].
Definition falsy_inputs : list string := ["0"; "false"; "f"; "no"; "n"; "off"].

Definition coerce_param_value (name value : string) (spec : ParameterSpec) : result string :=
  let converter := match p_type spec with Some t => t | None => TStr end in
  match converter with
  | TBool =>
      let lower_val := PyStr.lower value in
      if PyStr.mem lower_val truthy_inputs then Ok "1"
      else if PyStr.mem lower_val falsy_inputs then Ok "0"
      else Raise (InvalidParameterValue name
                    (ExpectsBoolean (PyStr.sorted (truthy_inputs ++ falsy_inputs))))
  | _ =>
      match convert converter value with
      | None => Raise (InvalidParameterValue name (CannotConvert value (typename converter)))
      | Some converted =>
          match converted with
          | PFloat x => Ok (PyFloat.format_10g x)
          | _ => Ok (py_str converted)
          end
      end
  end.

Definition build_query (command : ParsedCommand.t) (session : pyval)
    (dynamic_params : dict pyval) (include_token_params : bool) : dict pyval :=
  let query := [ ("session", session); ("action", PStr (ParsedCommand.action command)) ] in
  let query := dict_update query (ParsedCommand.static_params command) in
  let query := dict_update query dynamic_params in
  if include_token_params then dict_update query TOKEN_OVERRIDE_PARAMS else query.

(** The parameter loop of [main] (lines 258-282): [provided_params] is
    consumed by [pop] as the declared parameters are met. *)
Fixpoint main_resolve_loop (command : ParsedCommand.t) (specs : list ParameterSpec)
    (provided_params : dict string) (coerced_params : dict pyval)
  : result (dict string * dict pyval) :=
  match specs with
  | [] => Ok (provided_params, coerced_params)
  | spec :: rest =>
      let name := p_name spec in
      let required := match p_required spec with Some b => b | None => true end in
      match dict_get name provided_params with
      | None =>
          if required && (match p_default spec with None => true | Some _ => false end)
          then Raise (ParserError (MissingParameter name (ParsedCommand.name command)))
          else
            match p_default spec with
            | Some d =>
                text <- str_of d ;;
                main_resolve_loop command rest provided_params
                  (dict_set name (PStr text) coerced_params)
            | None => main_resolve_loop command rest provided_params coerced_params
            end
      | Some value =>
          let provided_params := dict_remove name provided_params in
          v <- coerce_param_value name value spec ;;
          main_resolve_loop command rest provided_params
            (dict_set name (PStr v) coerced_params)
      end
  end.

Definition main_resolve_params (command : ParsedCommand.t) (params : list string)
  : result (dict pyval) :=
  provided_params <- parse_param_pairs params ;;
  r <- main_resolve_loop command (ParsedCommand.param_specs command) provided_params [] ;;
  let '(provided_params, coerced_params) := r in
  match provided_params with
  | [] => Ok coerced_params
  | _ => Raise (ParserError (UnexpectedParameter (ParsedCommand.name command)
                               (dict_keys provided_params)))
  end.

Section IssueRequest.
Context {P : Platform} {O : Type}.
Local Open Scope sys_scope.

Definition issue_request (url_base : string) (query_params : dict pyval) (timeout : Q)
  : M O (result pyval) :=
  let encoded_query := urlencode query_params in
  let full_url := url_base ++ "?" ++ encoded_query in
  r <- url_open full_url timeout ;;
  match r with
  | UrlHTTPError code reason => ret (Raise (HTTPErrorFromCamera code reason))
  | UrlURLError reason => ret (Raise (FailedToReachCamera reason))
  | UrlRaises cls detail => ret (Raise (Uncaught cls detail))
  | UrlPayload payload =>
      match json_loads payload with
      | Some data => ret (Ok data)
      | None => ret (Ok (PDict [("raw", PStr payload)]))
      end
  end.

End IssueRequest.

(** ** [wait_for_host] and the socket it probes with *)

(** One pass of the [with socket.socket(...)] block: [connect_ex] returns
    an error code ([0] for a connection), or raises [OSError], which the
    loop swallows; anything else raised in the block ([socket.socket] or
    [settimeout] failing, an exception of [connect_ex] that is not an
    [OSError]) leaves the function. *)
Inductive connect_outcome : Type :=
| ConnectReturns (code : Z)
| ConnectOSError (detail : string)
| ConnectRaises (cls : pyclass) (detail : string).

(** [time.sleep(delay)] *)
Inductive sleep_outcome : Type :=
| Slept
| SleepRaises (cls : pyclass) (detail : string).

Inductive probe : Type :=
| Connect (host : string) (port : Z) (timeout : Q) (outcome : connect_outcome)
| Sleep (delay : Q) (outcome : sleep_outcome).

(** The network as [wait_for_host] meets it; an answer may depend on the
    probes made before. *)
Class Network : Type := {
  connect_ex : list probe -> string -> Z -> Q -> connect_outcome;
  sleep : list probe -> Q -> sleep_outcome
}.

(** The probes made so far are the state that [wait_for_host], and [main]
    around it, carry along. *)
Definition Probes : Type := list probe.

Section WaitForHost.
Context {N : Network}.
Local Open Scope sys_scope.

Definition socket_connect_ex (host : string) (port : Z) (timeout : Q)
  : M Probes connect_outcome :=
  fun s => let r := connect_ex (self s) host port timeout in
           (r, mkSys (self s ++ [Connect host port timeout r])%list (trace s)).

Definition time_sleep (delay : Q) : M Probes sleep_outcome :=
  fun s => let r := sleep (self s) delay in
           (r, mkSys (self s ++ [Sleep delay r])%list (trace s)).

(** The body of [for attempt in range(1, retries + 1)], for the attempts
    still to come: [Ok true] when the function returns from inside the
    loop, [Ok false] when the loop runs out. *)
Fixpoint wait_for_host_loop (host : string) (port : Z) (delay : Q) (attempts : nat)
  : M Probes (result bool) :=
  match attempts with
  | O => ret (Ok false)
  | S rest =>
      c <- socket_connect_ex host port delay ;;
      match c with
      | ConnectRaises cls detail => ret (Raise (Uncaught cls detail))
      | ConnectReturns 0 => ret (Ok true)
      | ConnectReturns _ | ConnectOSError _ =>
          z <- time_sleep delay ;;
          match z with
          | SleepRaises cls detail => ret (Raise (Uncaught cls detail))
          | Slept => wait_for_host_loop host port delay rest
          end
      end
  end.

Definition wait_for_host (host : string) (port : Z) (retries : Z) (delay : Q)
  : M Probes (result unit) :=
  if retries <=? 0 then ret (Ok tt)
  else
    r <- wait_for_host_loop host port delay (Z.to_nat retries) ;;
    match r with
    | Raise e => ret (Raise e)
    | Ok true => ret (Ok tt)
    | Ok false =>
        ret (Raise (Uncaught RuntimeError
                      ("Camera at " ++ host ++ ":" ++ PyStr.of_Z port
                         ++ " not reachable after " ++ PyStr.of_Z retries ++ " attempts.")))
    end.

End WaitForHost.

(** ** [main], from the parsed arguments on (lines 250-311) *)

(** The [argparse.Namespace] that [parser.parse_args] returns. *)
Record Namespace : Type := {
  args_command : string;
  args_session : string;
  args_camera : option string;
  args_host : option string;
  args_port : Z;
  args_path : string;
  args_timeout : Q;
  args_retries : Z;
  args_retry_delay : Q;
  args_no_token_override : bool;
  args_print_url : bool;
  args_raw : bool;
  args_params : list string
}.

(** [try: ... except ValueError as exc: parser.error(str(exc))] *)
Definition or_parser_error {A : Type} (r : result A) : result A :=
  match r with
  | Ok a => Ok a
  | Raise e =>
      match class_of e with
      | ValueError | JSONDecodeError => Raise (ParserError e)
      | _ => Raise e
      end
  end.

(** ["raw" in response]: [None] stands for the [TypeError] of a value that
    is not a container.  [main] below carries it as an exception of a class
    that nothing in the code catches, with the message that CPython gives
    it up to version 3.13. *)
Definition has_raw (response : pyval) : option bool :=
  match response with
  | PDict kvs => Some (dict_mem "raw" kvs)
  | PList xs =>
      Some (existsb (fun x => match x with PStr s => String.eqb s "raw" | _ => false end) xs)
  | PStr s =>
      Some (match index 0 "raw" s with Some _ => true | None => false end)
  | PNone | PBool _ | PInt _ | PFloat _ => None
  end.

Section Main.
Context {P : Platform} {N : Network}.
Local Open Scope sys_scope.

(** The value is the exit status that [main] returns; what it prints is
    left out. *)
Definition main (args : Namespace) : M Probes (result Z) :=
  match or_parser_error (load_command (args_command args)) with
  | Raise e => ret (Raise e)
  | Ok command =>
  match or_parser_error (resolve_host (args_host args) (args_camera args)) with
  | Raise e => ret (Raise e)
  | Ok host =>
  match main_resolve_params command (args_params args) with
  | Raise e => ret (Raise e)
  | Ok coerced_params =>
      let base_url := "http://" ++ host ++ ":" ++ PyStr.of_Z (args_port args)
                        ++ args_path args in
      let query_params :=
        build_query command (PStr (args_session args)) coerced_params
          (negb (args_no_token_override args)) in
      waited <- (if 0 <? args_retries args
                 then wait_for_host host (args_port args) (args_retries args)
                        (args_retry_delay args)
                 else ret (Ok tt)) ;;
      match waited with
      | Raise e => ret (Raise e)
      | Ok _ =>
          r <- issue_request base_url query_params (args_timeout args) ;;
          match r with
          | Raise e =>
              match class_of e with
              | RuntimeError => ret (Ok 1)
              | _ => ret (Raise e)
              end
          | Ok response =>
              if args_raw args then ret (Ok 0)
              else
                match has_raw response with
                | Some _ => ret (Ok 0)
                | None =>
                    ret (Raise (Uncaught OtherException
                                  ("argument of type '" ++ type_name response
                                     ++ "' is not iterable")))
                end
          end
      end
  end end end.

End Main.

(* ================================================================== *)
(** * [src/classes/CameraControl.py]: the subprocess backend *)
(* ================================================================== *)

Module CameraControl.

Local Open Scope sys_scope.

Record t : Type := {
  AUTHENTICATE_SCRIPT : string;
  GET_DEGREE : string;
  GET_ZOOM : string;
  SET_ZOOM : string;
  MOVE_SCRIPT : string;
  GET_SPEED : string;
  camera_ip : string;
  session_id : option string;
  last_auth_time : Q;
  SESSION_TIMEOUT : Q
}.

Definition set_session_id (v : option string) (o : t) : t :=
  {| AUTHENTICATE_SCRIPT := AUTHENTICATE_SCRIPT o; GET_DEGREE := GET_DEGREE o;
     GET_ZOOM := GET_ZOOM o; SET_ZOOM := SET_ZOOM o; MOVE_SCRIPT := MOVE_SCRIPT o;
     GET_SPEED := GET_SPEED o; camera_ip := camera_ip o;
     session_id := v;
     last_auth_time := last_auth_time o; SESSION_TIMEOUT := SESSION_TIMEOUT o |}.

Definition set_last_auth_time (v : Q) (o : t) : t :=
  {| AUTHENTICATE_SCRIPT := AUTHENTICATE_SCRIPT o; GET_DEGREE := GET_DEGREE o;
     GET_ZOOM := GET_ZOOM o; SET_ZOOM := SET_ZOOM o; MOVE_SCRIPT := MOVE_SCRIPT o;
     GET_SPEED := GET_SPEED o; camera_ip := camera_ip o;
     session_id := session_id o;
     last_auth_time := v; SESSION_TIMEOUT := SESSION_TIMEOUT o |}.

(** [__init__], with the script paths already resolved. *)
Definition init (auth_script get_degree_script get_zoom_script get_speed_script
                 move_script set_zoom_script : string) (camera_ip : option string) : t :=
  {| AUTHENTICATE_SCRIPT := auth_script; GET_DEGREE := get_degree_script;
     GET_ZOOM := get_zoom_script; SET_ZOOM := set_zoom_script;
     MOVE_SCRIPT := move_script; GET_SPEED := get_speed_script;
     camera_ip := match given camera_ip with Some ip => ip | None => FLIR2_IP end;
     session_id := None;
     last_auth_time := 0;
     SESSION_TIMEOUT := 120 |}.

Definition set_camera_ip_field (v : string) (o : t) : t :=
  {| AUTHENTICATE_SCRIPT := AUTHENTICATE_SCRIPT o; GET_DEGREE := GET_DEGREE o;
     GET_ZOOM := GET_ZOOM o; SET_ZOOM := SET_ZOOM o; MOVE_SCRIPT := MOVE_SCRIPT o;
     GET_SPEED := GET_SPEED o; camera_ip := v;
     session_id := session_id o;
     last_auth_time := last_auth_time o; SESSION_TIMEOUT := SESSION_TIMEOUT o |}.

Definition set_camera_ip (ip_address : string) : M t (result unit) :=
  if negb (truthy (PStr ip_address)) then
    ret (Raise (Uncaught ValueError "Camera IP address cannot be empty."))
  else
    self <- get_self ;;
    if negb (String.eqb ip_address (camera_ip self)) then
      update (set_camera_ip_field ip_address) ;;;
      update (set_session_id None) ;;;
      update (set_last_auth_time 0) ;;;
      ret (Ok tt)
    else ret (Ok tt).

Section Methods.
Context {P : Platform}.

Definition _is_session_expired : M t bool :=
  now <- time_time ;;
  self <- get_self ;;
  ret (negb (Qle_bool (now - last_auth_time self) (SESSION_TIMEOUT self))).

(** The guard [not force_auth and self.session_id and not
    self._is_session_expired()], evaluated left to right. *)
Definition session_usable (force_auth : bool) : M t bool :=
  if force_auth then ret false
  else
    self <- get_self ;;
    match given (session_id self) with
    | None => ret false
    | Some _ =>
        expired <- _is_session_expired ;;
        ret (negb expired)
    end.

(** The [try] block of [authenticate] (lines 79-105): the authentication
    script is run and its output becomes the session. *)
Definition run_auth_script : M t bool :=
  self <- get_self ;;
  r <- subprocess_popen [AUTHENTICATE_SCRIPT self; camera_ip self] ;;
  match r with
  | PopenExit returncode stdout stderr =>
      if negb (returncode =? 0) then
        update (set_session_id None) ;;;
        ret false
      else
        update (set_session_id (Some (PyStr.strip stdout))) ;;;
        if negb (truthy (PStr (PyStr.strip stdout))) then ret false
        else
          now <- time_time ;;
          update (set_last_auth_time now) ;;;
          ret true
  | PopenRaises _ =>
      update (set_session_id None) ;;;
      ret false
  end.

Definition authenticate (force_auth : bool) : M t bool :=
  usable <- session_usable force_auth ;;
  if usable then ret true
  else run_auth_script.

(** What [get_degree_pos] returns: a pair, or the bare [None] of a
    function body that ends without [return]. *)
Inductive position : Type :=
| Position (azimuth elevation : pyval)
| NoValue.

(** One pass of the body of [for attempt in range(2)]; [rest] are the
    attempts still to come. *)
Fixpoint get_degree_pos_loop (attempts : list nat) : M t position :=
  match attempts with
  | [] => ret NoValue
  | attempt :: rest =>
      self <- get_self ;;
      match session_id self with
      | None => ret (Position PNone PNone)
      | Some sid =>
          json_output <- subprocess_run [GET_DEGREE self; camera_ip self; sid] ;;
          match json_output with
          | RunCompleted output_str =>
              match PyStr.find_char "{" output_str with
              | None => get_degree_pos_loop rest
              | Some json_start_index =>
                  match json_loads (PyStr.drop json_start_index output_str) with
                  | None => ret (Position PNone PNone)
                  | Some data =>
                      match py_get2 data "PTAzimuthElevationGet" "Azimuth",
                            py_get2 data "PTAzimuthElevationGet" "Elevation" with
                      | Some azimuth, Some elevation => ret (Position azimuth elevation)
                      | _, _ => ret (Position PNone PNone)
                      end
                  end
              end
          | RunCalledProcessError _ _ =>
              if Nat.eqb attempt 0 then
                ok <- authenticate true ;;
                if negb ok then ret (Position PNone PNone)
                else get_degree_pos_loop rest
              else ret (Position PNone PNone)
          | RunRaises _ => ret (Position PNone PNone)
          end
      end
  end.

Definition get_degree_pos : M t position :=
  ok <- authenticate false ;;
  if negb ok then ret (Position PNone PNone)
  else get_degree_pos_loop (seq 0 2).

(** What [move_camera_to_absolute_pos] returns: a [bool], or the bare
    [None] of a function body that ends without [return]. *)
Fixpoint move_loop (target_az target_el speed_az speed_el : pyval)
    (attempts : list nat) : M t (option bool) :=
  match attempts with
  | [] => ret None
  | attempt :: rest =>
      self <- get_self ;;
      match format_2f target_az, format_2f target_el,
            format_2f speed_az, format_2f speed_el, session_id self with
      | Some az, Some el, Some saz, Some sel, Some sid =>
          r <- subprocess_run [MOVE_SCRIPT self; camera_ip self; sid; az; el; saz; sel] ;;
          match r with
          | RunCompleted _ => ret (Some true)
          | RunCalledProcessError _ _ =>
              if Nat.eqb attempt 0 then
                ok <- authenticate true ;;
                if negb ok then ret (Some false)
                else move_loop target_az target_el speed_az speed_el rest
              else ret (Some false)
          | RunRaises _ => ret (Some false)
          end
      | _, _, _, _, _ => ret (Some false)
      end
  end.

Definition move_camera_to_absolute_pos (target_az target_el speed_az speed_el : pyval)
  : M t (option bool) :=
  ok <- authenticate false ;;
  if negb ok then ret (Some false)
  else move_loop target_az target_el speed_az speed_el (seq 0 2).

(** [get_zoom] returns a [float] or [None]. *)
Fixpoint get_zoom_loop (attempts : list nat) : M t (option PyFloat.t) :=
  match attempts with
  | [] => ret None
  | attempt :: rest =>
      self <- get_self ;;
      match session_id self with
      | None => ret None
      | Some sid =>
          process_result <- subprocess_run [GET_ZOOM self; camera_ip self; sid] ;;
          match process_result with
          | RunCompleted output_str =>
              match PyStr.find_char "{" output_str with
              | None => get_zoom_loop rest
              | Some json_start_index =>
                  match json_loads (PyStr.drop json_start_index output_str) with
                  | None => ret None
                  | Some data =>
                      match py_get2 data "DLTVFOVMagnificationGet" "Magnification" with
                      | None => ret None
                      | Some PNone => ret None
                      | Some current_zoom => ret (py_float current_zoom)
                      end
                  end
              end
          | RunCalledProcessError _ _ =>
              if Nat.eqb attempt 0 then
                ok <- authenticate true ;;
                if negb ok then ret None
                else get_zoom_loop rest
              else ret None
          | RunRaises _ => ret None
          end
      end
  end.

Definition get_zoom : M t (option PyFloat.t) :=
  ok <- authenticate false ;;
  if negb ok then ret None
  else get_zoom_loop (seq 0 2).

(** [set_zoom] returns a [bool], or the bare [None] of a function body
    that ends without [return]. *)
Fixpoint set_zoom_loop (zoom : pyval) (attempts : list nat) : M t (option bool) :=
  match attempts with
  | [] => ret None
  | attempt :: rest =>
      self <- get_self ;;
      match session_id self, py_float zoom with
      | Some sid, Some z =>
          r <- subprocess_run [SET_ZOOM self; camera_ip self; sid; PyFloat.format_2f z] ;;
          match r with
          | RunCompleted _ => ret (Some true)
          | RunCalledProcessError _ _ =>
              if Nat.eqb attempt 0 then
                ok <- authenticate true ;;
                if negb ok then ret (Some false)
                else set_zoom_loop zoom rest
              else ret (Some false)
          | RunRaises _ => ret (Some false)
          end
      | _, _ => ret (Some false)
      end
  end.

Definition set_zoom (zoom : pyval) : M t (option bool) :=
  ok <- authenticate false ;;
  if negb ok then ret (Some false)
  else set_zoom_loop zoom (seq 0 2).

(** [get_speed] returns a pair of [float]s or [None]. *)
Fixpoint get_speed_loop (attempts : list nat) : M t (option (PyFloat.t * PyFloat.t)) :=
  match attempts with
  | [] => ret None
  | attempt :: rest =>
      self <- get_self ;;
      match session_id self with
      | None => ret None
      | Some sid =>
          process_result <- subprocess_run [GET_SPEED self; camera_ip self; sid] ;;
          match process_result with
          | RunCompleted output_str =>
              match PyStr.find_char "{" output_str with
              | None => get_speed_loop rest
              | Some json_start_index =>
                  match json_loads (PyStr.drop json_start_index output_str) with
                  | None => ret None
                  | Some data =>
                      match py_get2 data "PTSpeedGet" "Azimuth_Speed",
                            py_get2 data "PTSpeedGet" "Elevation_Speed" with
                      | Some current_az_speed, Some current_el_speed =>
                          match current_az_speed, current_el_speed with
                          | PNone, _ | _, PNone => ret None
                          | _, _ =>
                              match py_float current_az_speed, py_float current_el_speed with
                              | Some az, Some el => ret (Some (az, el))
                              | _, _ => ret None
                              end
                          end
                      | _, _ => ret None
                      end
                  end
              end
          | RunCalledProcessError _ _ =>
              if Nat.eqb attempt 0 then
                ok <- authenticate true ;;
                if negb ok then ret None
                else get_speed_loop rest
              else ret None
          | RunRaises _ => ret None
          end
      end
  end.

Definition get_speed : M t (option (PyFloat.t * PyFloat.t)) :=
  ok <- authenticate false ;;
  if negb ok then ret None
  else get_speed_loop (seq 0 2).

End Methods.

End CameraControl.

(* ================================================================== *)
(** * [src/classes/CameraControlAPI.py]: the HTTP backend *)
(* ================================================================== *)

Module CameraControlAPI.

Local Open Scope sys_scope.

Record t : Type := {
  camera_alias : string;
  port : Z;
  _host_override : option string;
  session_timeout : Q;
  request_timeout : Q;
  session_id : pyval;
  _last_auth : Q
}.

Definition set_session (sid : pyval) (at_ : Q) (o : t) : t :=
  {| camera_alias := camera_alias o; port := port o;
     _host_override := _host_override o;
     session_timeout := session_timeout o; request_timeout := request_timeout o;
     session_id := sid;
     _last_auth := at_ |}.

(** [__init__] *)
Definition init (camera_alias : string) (host : option string) (port : Z)
    (session_timeout request_timeout : Q) : t :=
  {| camera_alias := camera_alias; port := port; _host_override := host;
     session_timeout := session_timeout; request_timeout := request_timeout;
     session_id := PNone;
     _last_auth := 0 |}.

(** The [host] property. *)
Definition host (self : t) : result string :=
  match given (_host_override self) with
  | Some h => Ok h
  | None =>
      match dict_get (camera_alias self) CAMERA_HOSTS with
      | None => Raise (UnknownCamera (camera_alias self)
                         (PyStr.sorted (dict_keys CAMERA_HOSTS)))
      | Some ip => Ok ip
      end
  end.

Definition _base_url (self : t) : result string :=
  match host self with
  | Ok h => Ok ("http://" ++ h ++ ":" ++ PyStr.of_Z (port self) ++ NEXUS_CGI_PATH)
  | Raise e => Raise e
  end.

(** The parameter loop of [execute] (lines 108-120): [params] is only
    read. *)
Fixpoint resolve_loop (command_name : string) (specs : list ParameterSpec)
    (params : dict pyval) (coerced : dict pyval) : result (dict pyval) :=
  match specs with
  | [] => Ok coerced
  | spec :: rest =>
      let name := p_name spec in
      let required := match p_required spec with Some b => b | None => true end in
      match dict_get name params with
      | None =>
          if required && (match p_default spec with None => true | Some _ => false end)
          then Raise (MissingParameter name command_name)
          else
            match p_default spec with
            | Some d =>
                match str_of d with
                | Raise e => Raise e
                | Ok text => resolve_loop command_name rest params
                               (dict_set name (PStr text) coerced)
                end
            | None => resolve_loop command_name rest params coerced
            end
      | Some value =>
          match str_of value with
          | Raise e => Raise e
          | Ok text =>
              match coerce_param_value name text spec with
              | Raise e => Raise e
              | Ok v => resolve_loop command_name rest params (dict_set name (PStr v) coerced)
              end
          end
      end
  end.

(** Lines 105-127 of [execute]: the declared parameters, then the extras. *)
Definition resolve_params (parsed_command : ParsedCommand.t) (command_name : string)
    (params : dict pyval) : result (dict pyval) :=
  let expected := map p_name (ParsedCommand.param_specs parsed_command) in
  match resolve_loop command_name (ParsedCommand.param_specs parsed_command) params [] with
  | Raise e => Raise e
  | Ok coerced =>
      let extras := filter (fun k => negb (PyStr.mem k expected)) (dict_keys params) in
      match extras with
      | [] => Ok coerced
      | _ => Raise (UnexpectedParameter command_name (PyStr.sorted extras))
      end
  end.

Section Methods.
Context {P : Platform}.

Definition invalidate_session : M t unit :=
  update (set_session PNone 0).

Definition _session_expired : M t bool :=
  now <- time_time ;;
  self <- get_self ;;
  ret (negb (Qle_bool (now - _last_auth self) (session_timeout self))).

(** The guard [not force and self.session_id and not
    self._session_expired()], evaluated left to right. *)
Definition session_usable (force : bool) : M t bool :=
  if force then ret false
  else
    self <- get_self ;;
    if truthy (session_id self) then
      expired <- _session_expired ;;
      ret (negb expired)
    else ret false.

(** Lines 71-96 of [authenticate]: the [SERVERWhoAmI] exchange. *)
Definition who_am_i : M t (result bool) :=
  self <- get_self ;;
  match _base_url self with
  | Raise e => ret (Raise e)
  | Ok base =>
      let auth_url := base ++ "?action=SERVERWhoAmI" in
      r <- url_open auth_url (request_timeout self) ;;
      match r with
      | UrlHTTPError _ _ | UrlURLError _ =>
          invalidate_session ;;;
          ret (Ok false)
      | UrlRaises cls detail => ret (Raise (Uncaught cls detail))
      | UrlPayload payload =>
          match json_loads payload with
          | None =>
              invalidate_session ;;;
              ret (Ok false)
          | Some data =>
              match py_get2 data "SERVERWhoAmI" "Id" with
              | None => ret (Raise (Uncaught AttributeError "object has no attribute 'get'"))
              | Some session =>
                  if negb (truthy session) then
                    invalidate_session ;;;
                    ret (Ok false)
                  else
                    now <- time_time ;;
                    update (set_session session now) ;;;
                    ret (Ok true)
              end
          end
      end
  end.

Definition authenticate (force : bool) : M t (result bool) :=
  usable <- session_usable force ;;
  if usable then ret (Ok true)
  else who_am_i.

Definition execute (command_name : string) (params : dict pyval) : M t (result pyval) :=
  auth <- authenticate false ;;
  match auth with
  | Raise e => ret (Raise e)
  | Ok false => ret (Raise AuthenticationFailed)
  | Ok true =>
      match load_command command_name with
      | Raise e => ret (Raise e)
      | Ok parsed_command =>
          match resolve_params parsed_command command_name params with
          | Raise e => ret (Raise e)
          | Ok coerced =>
              self <- get_self ;;
              let query := build_query parsed_command (session_id self) coerced true in
              match _base_url self with
              | Raise e => ret (Raise e)
              | Ok base => issue_request base query (request_timeout self)
              end
          end
      end
  end.

Definition set_camera_alias (v : string) (o : t) : t :=
  {| camera_alias := v; port := port o;
     _host_override := _host_override o;
     session_timeout := session_timeout o; request_timeout := request_timeout o;
     session_id := session_id o;
     _last_auth := _last_auth o |}.

Definition set_host_override (v : option string) (o : t) : t :=
  {| camera_alias := camera_alias o; port := port o;
     _host_override := v;
     session_timeout := session_timeout o; request_timeout := request_timeout o;
     session_id := session_id o;
     _last_auth := _last_auth o |}.

Definition set_camera (camera_alias host : option string) : M t unit :=
  match camera_alias with
  | Some a => update (set_camera_alias a)
  | None => ret tt
  end ;;;
  match host with
  | Some h => update (set_host_override (Some h))
  | None => ret tt
  end ;;;
  invalidate_session.

(** *** The convenience wrappers *)

(** [except (RuntimeError, ValueError)], and the two clauses of [get_zoom]:
    the exception is an instance of [RuntimeError] or of [ValueError]
    ([json.JSONDecodeError] is a subclass of [ValueError]).
    [OtherException] stands for a class that is neither, nor a subclass of
    either. *)
Definition handled (e : error) : bool :=
  match class_of e with
  | RuntimeError | ValueError | JSONDecodeError => true
  | AttributeError | SystemExit | OtherException => false
  end.

(** [v.get(k)], with the [AttributeError] of a value that is not a [dict]. *)
Definition get_or_raise (v : pyval) (k : string) : result pyval :=
  match py_get v k PNone with
  | Some x => Ok x
  | None =>
      Raise (Uncaught AttributeError
               ("'" ++ type_name v ++ "' object has no attribute 'get'"))
  end.

(** [float(v)], with its exception: [ValueError] for a text that is not a
    number, [OverflowError] for an [int] out of range and [TypeError] for
    the other values (the last two are [OtherException] here). *)
Definition float_or_raise (v : pyval) : result PyFloat.t :=
  match py_float v with
  | Some x => Ok x
  | None =>
      Raise match v with
            | PStr s =>
                Uncaught ValueError ("could not convert string to float: " ++ PyStr.repr s)
            | PInt _ => Uncaught OtherException "int too large to convert to float"
            | _ =>
                Uncaught OtherException
                  ("float() argument must be a string or a real number, not '"
                     ++ type_name v ++ "'")
            end
  end.

Definition get_zoom : M t (result (option PyFloat.t)) :=
  r <- execute "get_zoom" [] ;;
  match r with
  | Raise e => if handled e then ret (Ok None) else ret (Raise e)
  | Ok result =>
      ret (payload <- get_or_raise result "DLTVFOVMagnificationGet" ;;
           if negb (truthy payload) then Ok None
           else
             magnification <- get_or_raise payload "Magnification" ;;
             match magnification with
             | PNone => Ok None
             | _ => x <- float_or_raise magnification ;; Ok (Some x)
             end)%result
  end.

Definition set_zoom (magnification : pyval) : M t (result bool) :=
  r <- execute "set_zoom" [("Magnification", magnification)] ;;
  match r with
  | Ok _ => ret (Ok true)
  | Raise e => if handled e then ret (Ok false) else ret (Raise e)
  end.

Definition get_speed : M t (result (option (PyFloat.t * PyFloat.t))) :=
  r <- execute "get_speed" [] ;;
  match r with
  | Raise e => if handled e then ret (Ok None) else ret (Raise e)
  | Ok result =>
      ret (payload <- get_or_raise result "PTSpeedGet" ;;
           if negb (truthy payload) then Ok None
           else
             az_speed <- get_or_raise payload "Azimuth_Speed" ;;
             el_speed <- get_or_raise payload "Elevation_Speed" ;;
             match az_speed, el_speed with
             | PNone, _ | _, PNone => Ok None
             | _, _ =>
                 az <- float_or_raise az_speed ;;
                 el <- float_or_raise el_speed ;;
                 Ok (Some (az, el))
             end)%result
  end.

Definition set_speed (azimuth_speed elevation_speed : pyval) : M t (result bool) :=
  r <- execute "set_speed"
         [("Azimuth_Speed", azimuth_speed); ("Elevation_Speed", elevation_speed)] ;;
  match r with
  | Ok _ => ret (Ok true)
  | Raise e => if handled e then ret (Ok false) else ret (Raise e)
  end.

Definition get_position : M t (result (option (PyFloat.t * PyFloat.t))) :=
  r <- execute "get_position" [] ;;
  match r with
  | Raise e => if handled e then ret (Ok None) else ret (Raise e)
  | Ok result =>
      ret (payload <- get_or_raise result "PTAzimuthElevationGet" ;;
           if negb (truthy payload) then Ok None
           else
             azimuth <- get_or_raise payload "Azimuth" ;;
             elevation <- get_or_raise payload "Elevation" ;;
             match azimuth, elevation with
             | PNone, _ | _, PNone => Ok None
             | _, _ =>
                 az <- float_or_raise azimuth ;;
                 el <- float_or_raise elevation ;;
                 Ok (Some (az, el))
             end)%result
  end.

Definition center (screen_x screen_y : pyval) : M t (result bool) :=
  r <- execute "center" [("ScreenX", screen_x); ("ScreenY", screen_y)] ;;
  match r with
  | Ok _ => ret (Ok true)
  | Raise e => if handled e then ret (Ok false) else ret (Raise e)
  end.

Definition auto_focus : M t (result bool) :=
  r <- execute "auto_focus" [] ;;
  match r with
  | Ok _ => ret (Ok true)
  | Raise e => if handled e then ret (Ok false) else ret (Raise e)
  end.

End Methods.

End CameraControlAPI.

(* ================================================================== *)
(** * Vocabulary of the statements *)
(* ================================================================== *)

(** How one declared parameter fares in the parameter loop, for the
    supplied [params]: it is a required parameter without default that is
    absent, or it is supplied with a value that [str] or the coercion
    rejects, or it is absent with a default that [str] rejects, or it
    passes. *)
Definition missing_required (params : dict pyval) (spec : ParameterSpec) : bool :=
  match dict_get (p_name spec) params with
  | Some _ => false
  | None =>
      (match p_required spec with Some b => b | None => true end)
      && (match p_default spec with None => true | Some _ => false end)
  end.

Definition invalid_value (params : dict pyval) (spec : ParameterSpec) : bool :=
  match dict_get (p_name spec) params with
  | Some value =>
      match str_of value with
      | Raise _ => true
      | Ok text =>
          match coerce_param_value (p_name spec) text spec with
          | Ok _ => false
          | Raise _ => true
          end
      end
  | None => false
  end.

Definition unrendered_default (params : dict pyval) (spec : ParameterSpec) : bool :=
  match dict_get (p_name spec) params with
  | Some _ => false
  | None =>
      match p_default spec with
      | Some d => match str_of d with Ok _ => false | Raise _ => true end
      | None => false
      end
  end.

Definition passes (params : dict pyval) (spec : ParameterSpec) : bool :=
  negb (missing_required params spec) && negb (invalid_value params spec)
  && negb (unrendered_default params spec).

(** The supplied keys that the command does not declare. *)
Definition undeclared (specs : list ParameterSpec) (params : dict pyval) : list string :=
  filter (fun k => negb (PyStr.mem k (map p_name specs))) (dict_keys params).

(** The [key=value] parameters of the command line, seen as the keyword
    arguments that [execute] receives. *)
Definition as_values (provided : dict string) : dict pyval :=
  map (fun kv => (fst kv, PStr (snd kv))) provided.

(** [main] reports a missing parameter through [parser.error]; the errors
    of [coerce_param_value] are raised as they are. *)
Definition reported_by_parser (e : error) : error :=
  match e with
  | MissingParameter n c => ParserError (MissingParameter n c)
  | _ => e
  end.




Fixpoint all_digits (s : string) : bool :=
  match s with
  | EmptyString => true
  | String c r => PyStr.is_digit c && all_digits r
  end.

(** The five methods of the subprocess backend repeat one loop.  Here it
    is written once, over what differs between them: the argument list of
    the script ([None] when building it raises), what is made of the
    script's output ([None] for [continue]), the value returned when giving
    up, and the value of a function body that ends without [return]. *)
Section Retry.
Context {P : Platform} {A : Type}.
Variable command : CameraControl.t -> option (list string).
Variable on_output : string -> option A.
Variables failure fell_through : A.

Fixpoint retry_loop (attempts : list nat) : M CameraControl.t A :=
  match attempts with
  | [] => ret fell_through
  | attempt :: rest =>
      bind get_self (fun self =>
      match command self with
      | None => ret failure
      | Some argv =>
          bind (subprocess_run argv) (fun r =>
          match r with
          | RunCompleted output_str =>
              match on_output output_str with
              | Some v => ret v
              | None => retry_loop rest
              end
          | RunCalledProcessError _ _ =>
              if Nat.eqb attempt 0 then
                bind (CameraControl.authenticate true) (fun ok =>
                if negb ok then ret failure else retry_loop rest)
              else ret failure
          | RunRaises _ => ret failure
          end)
      end)
  end.

Definition with_retry : M CameraControl.t A :=
  bind (CameraControl.authenticate false) (fun ok =>
  if negb ok then ret failure else retry_loop (seq 0 2)).

End Retry.

Definition degree_command (o : CameraControl.t) : option (list string) :=
  match CameraControl.session_id o with
  | Some sid => Some [CameraControl.GET_DEGREE o; CameraControl.camera_ip o; sid]
  | None => None
  end.

Definition degree_output {P : Platform} (output_str : string)
  : option CameraControl.position :=
  match PyStr.find_char "{" output_str with
  | None => None
  | Some i =>
      Some match json_loads (PyStr.drop i output_str) with
           | None => CameraControl.Position PNone PNone
           | Some data =>
               match py_get2 data "PTAzimuthElevationGet" "Azimuth",
                     py_get2 data "PTAzimuthElevationGet" "Elevation" with
               | Some azimuth, Some elevation => CameraControl.Position azimuth elevation
               | _, _ => CameraControl.Position PNone PNone
               end
           end
  end.

Definition move_command (target_az target_el speed_az speed_el : pyval)
    (o : CameraControl.t) : option (list string) :=
  match format_2f target_az, format_2f target_el,
        format_2f speed_az, format_2f speed_el, CameraControl.session_id o with
  | Some az, Some el, Some saz, Some sel, Some sid =>
      Some [CameraControl.MOVE_SCRIPT o; CameraControl.camera_ip o; sid; az; el; saz; sel]
  | _, _, _, _, _ => None
  end.

(** A script whose completion is all that is asked. *)
Definition completed (output_str : string) : option (option bool) := Some (Some true).

Definition zoom_command (o : CameraControl.t) : option (list string) :=
  match CameraControl.session_id o with
  | Some sid => Some [CameraControl.GET_ZOOM o; CameraControl.camera_ip o; sid]
  | None => None
  end.

Definition zoom_output {P : Platform} (output_str : string)
  : option (option PyFloat.t) :=
  match PyStr.find_char "{" output_str with
  | None => None
  | Some i =>
      Some match json_loads (PyStr.drop i output_str) with
           | None => None
           | Some data =>
               match py_get2 data "DLTVFOVMagnificationGet" "Magnification" with
               | None => None
               | Some PNone => None
               | Some current_zoom => py_float current_zoom
               end
           end
  end.

Definition set_zoom_command (zoom : pyval) (o : CameraControl.t) : option (list string) :=
  match CameraControl.session_id o, py_float zoom with
  | Some sid, Some z =>
      Some [CameraControl.SET_ZOOM o; CameraControl.camera_ip o; sid; PyFloat.format_2f z]
  | _, _ => None
  end.

Definition speed_command (o : CameraControl.t) : option (list string) :=
  match CameraControl.session_id o with
  | Some sid => Some [CameraControl.GET_SPEED o; CameraControl.camera_ip o; sid]
  | None => None
  end.

Definition speed_output {P : Platform} (output_str : string)
  : option (option (PyFloat.t * PyFloat.t)) :=
  match PyStr.find_char "{" output_str with
  | None => None
  | Some i =>
      Some match json_loads (PyStr.drop i output_str) with
           | None => None
           | Some data =>
               match py_get2 data "PTSpeedGet" "Azimuth_Speed",
                     py_get2 data "PTSpeedGet" "Elevation_Speed" with
               | Some current_az_speed, Some current_el_speed =>
                   match current_az_speed, current_el_speed with
                   | PNone, _ | _, PNone => None
                   | _, _ =>
                       match py_float current_az_speed, py_float current_el_speed with
                       | Some az, Some el => Some (az, el)
                       | _, _ => None
                       end
                   end
               | _, _ => None
               end
           end
  end.

(** The five methods, as one family: [call m] is the method itself, and
    the four functions after it name what the method hands to the loop. *)
Inductive method : Type :=
| GetDegreePos
| MoveCameraToAbsolutePos (target_az target_el speed_az speed_el : pyval)
| GetZoom
| SetZoom (zoom : pyval)
| GetSpeed.

Definition returns (m : method) : Type :=
  match m with
  | GetDegreePos => CameraControl.position
  | MoveCameraToAbsolutePos _ _ _ _ => option bool
  | GetZoom => option PyFloat.t
  | SetZoom _ => option bool
  | GetSpeed => option (PyFloat.t * PyFloat.t)
  end.

Definition call {P : Platform} (m : method) : M CameraControl.t (returns m) :=
  match m with
  | GetDegreePos => CameraControl.get_degree_pos
  | MoveCameraToAbsolutePos target_az target_el speed_az speed_el =>
      CameraControl.move_camera_to_absolute_pos target_az target_el speed_az speed_el
  | GetZoom => CameraControl.get_zoom
  | SetZoom zoom => CameraControl.set_zoom zoom
  | GetSpeed => CameraControl.get_speed
  end.

Definition script_command (m : method) : CameraControl.t -> option (list string) :=
  match m with
  | GetDegreePos => degree_command
  | MoveCameraToAbsolutePos target_az target_el speed_az speed_el =>
      move_command target_az target_el speed_az speed_el
  | GetZoom => zoom_command
  | SetZoom zoom => set_zoom_command zoom
  | GetSpeed => speed_command
  end.

Definition script_output {P : Platform} (m : method) : string -> option (returns m) :=
  match m with
  | GetDegreePos => degree_output
  | MoveCameraToAbsolutePos _ _ _ _ => completed
  | GetZoom => zoom_output
  | SetZoom _ => completed
  | GetSpeed => speed_output
  end.

(** The value a method returns when it gives up. *)
Definition on_failure (m : method) : returns m :=
  match m with
  | GetDegreePos => CameraControl.Position PNone PNone
  | MoveCameraToAbsolutePos _ _ _ _ => Some false
  | GetZoom => None
  | SetZoom _ => Some false
  | GetSpeed => None
  end.

(** The value of a method whose loop ends without [return]. *)
Definition on_exhaustion (m : method) : returns m :=
  match m with
  | GetDegreePos => CameraControl.NoValue
  | _ => None
  end.

(** Where the session of the subprocess backend can stand after a call,
    relative to the object [before] and the interactions [evs] of the call:
    untouched; without a usable token; or holding a new non-empty token
    whose issue time is a clock reading of the call. *)
Inductive settled (before : CameraControl.t) (evs : list event)
    (after : CameraControl.t) : Prop :=
| Unchanged :
    after = before -> settled before evs after
| Unauthenticated :
    given (CameraControl.session_id after) = None -> settled before evs after
| Reauthenticated (tok : string) :
    CameraControl.session_id after = Some tok -> tok <> "" ->
    In (Time (CameraControl.last_auth_time after)) evs ->
    settled before evs after.

(** The same for the HTTP backend, where a failed exchange also resets the
    issue time. *)
Inductive api_settled (before : CameraControlAPI.t) (evs : list event)
    (after : CameraControlAPI.t) : Prop :=
| ApiUnchanged :
    after = before -> api_settled before evs after
| ApiInvalidated :
    CameraControlAPI.session_id after = PNone ->
    CameraControlAPI._last_auth after = 0%Q ->
    api_settled before evs after
| ApiReauthenticated :
    truthy (CameraControlAPI.session_id after) = true ->
    In (Time (CameraControlAPI._last_auth after)) evs ->
    api_settled before evs after.

(** The wrappers of the HTTP backend that answer with a [bool], as one
    family: [perform w] is the wrapper itself, [setter_command] and
    [setter_params] are the command and the keyword arguments that it
    hands to [execute]. *)
Inductive setter : Type :=
| Zoom (magnification : pyval)
| Speed (azimuth_speed elevation_speed : pyval)
| CenterOn (screen_x screen_y : pyval)
| Focus.

Definition perform {P : Platform} (w : setter) : M CameraControlAPI.t (result bool) :=
  match w with
  | Zoom magnification => CameraControlAPI.set_zoom magnification
  | Speed azimuth_speed elevation_speed =>
      CameraControlAPI.set_speed azimuth_speed elevation_speed
  | CenterOn screen_x screen_y => CameraControlAPI.center screen_x screen_y
  | Focus => CameraControlAPI.auto_focus
  end.

Definition setter_command (w : setter) : string :=
  match w with
  | Zoom _ => "set_zoom"
  | Speed _ _ => "set_speed"
  | CenterOn _ _ => "center"
  | Focus => "auto_focus"
  end.

Definition setter_params (w : setter) : dict pyval :=
  match w with
  | Zoom magnification => [("Magnification", magnification)]
  | Speed azimuth_speed elevation_speed =>
      [("Azimuth_Speed", azimuth_speed); ("Elevation_Speed", elevation_speed)]
  | CenterOn screen_x screen_y => [("ScreenX", screen_x); ("ScreenY", screen_y)]
  | Focus => []
  end.

(** Counting the probes of [wait_for_host]. *)
Definition is_connect (p : probe) : bool :=
  match p with Connect _ _ _ _ => true | Sleep _ _ => false end.
Definition is_sleep (p : probe) : bool :=
  match p with Sleep _ _ => true | Connect _ _ _ _ => false end.

Definition probes (p : probe -> bool) (l : Probes) : nat := List.length (filter p l).

(** A connection attempt after which the loop goes on: [connect_ex]
    returned an error code, or raised [OSError]. *)
Definition refused (c : connect_outcome) : bool :=
  match c with
  | ConnectReturns code => negb (code =? 0)
  | ConnectOSError _ => true
  | ConnectRaises _ _ => false
  end.

(* ================================================================== *)
(** * Sample inputs *)
(* ================================================================== *)

(** The [float] 2.0. *)
Definition float_two : PyFloat.t := PyFloat.Fin false (2 ^ 52) (-51).

(** A [float] parameter with a default, as the registry format allows. *)
Definition magnification_with_default : ParameterSpec :=
  {| p_name := "Magnification"; p_type := Some TFloat; p_required := None;
     p_default := Some (PFloat float_two); p_help := None |}.

Definition set_zoom_with_default : ParsedCommand.t :=
  {| ParsedCommand.name := "set_zoom";
     ParsedCommand.action := "DLTVFOVMagnificationSet";
     ParsedCommand.description := "";
     ParsedCommand.static_params := [];
     ParsedCommand.param_specs := [ magnification_with_default ] |}.

(** The registry entry [center], as [load_command] returns it. *)
Definition center_command : ParsedCommand.t :=
  {| ParsedCommand.name := "center";
     ParsedCommand.action := "PTAzimuthElevationOnScreenSet";
     ParsedCommand.description := "Center the camera on a screen coordinate (X/Y).";
     ParsedCommand.static_params :=
       [ ("Active_cam", PStr "0"); ("Cam_type", PStr "4"); ("Cam_id", PStr "0") ];
     ParsedCommand.param_specs :=
       [ param "ScreenX" TFloat "Horizontal screen coordinate.";
         param "ScreenY" TFloat "Vertical screen coordinate." ] |}.

(** A platform that answers from a fixed script: the clock always reads
    [now], the authentication script always ends as [auth], the [k]-th run
    of a command script ends as [runs k], every HTTP request ends as
    [http], and [json.loads] accepts the one text [json_text]. *)
Definition scripted (now : Q) (auth : popen_outcome) (runs : nat -> run_outcome)
    (http : urlopen_outcome) (json_text : string) (json_value : pyval) : Platform :=
  {| clock := fun _ => now;
     popen := fun _ _ => auth;
     run := fun tr _ => runs (count is_run tr);
     urlopen := fun _ _ _ => http;
     json_loads := fun s => if String.eqb s json_text then Some json_value else None;
     urlencode := fun q =>
       PyStr.join "&" (map (fun kv => fst kv ++ "=" ++ py_str (snd kv)) q) |}.

(** A subprocess client that authenticated at time [issued] and holds the
    token [token]. *)
Definition camera_with_session (token : string) (issued : Q) : CameraControl.t :=
  CameraControl.set_last_auth_time issued
    (CameraControl.set_session_id (Some token)
       (CameraControl.init "authenticate.sh" "get_degree.sh" "get_zoom.sh"
          "get_speed.sh" "move_to_pos.sh" "set_zoom.sh" None)).

(** An HTTP client that authenticated at time [issued] and holds the token
    [token]. *)
Definition api_with_session (token : string) (issued : Q) : CameraControlAPI.t :=
  CameraControlAPI.set_session (PStr token) issued
    (CameraControlAPI.init DEFAULT_CAMERA None NEXUS_DEFAULT_PORT 120 5).

(** The text [{"PTAzimuthElevationGet": {"Azimuth": 90, "Elevation": -3}}]
    and its decoded value. *)
Definition quoted (s : string) : string :=
  String PyStr.dquote (s ++ String PyStr.dquote EmptyString).

Definition position_text : string :=
  "{" ++ quoted "PTAzimuthElevationGet" ++ ": {" ++ quoted "Azimuth" ++ ": 90, "
      ++ quoted "Elevation" ++ ": -3}}".

Definition position_value : pyval :=
  PDict [ ("PTAzimuthElevationGet",
            PDict [ ("Azimuth", PInt 90); ("Elevation", PInt (-3)) ]) ].

(** The clock reads 10; authentication prints [tok2]; the first run of a
    command script exits with status 1 and later runs print the position
    after a line of noise; HTTP requests cannot reach the camera. *)
Definition stale_then_ok : Platform :=
  scripted 10 (PopenExit 0 (" tok2" ++ String (ascii_of_N 10) EmptyString) "")
    (fun k => match k with
              | O => RunCalledProcessError 1 "session expired"
              | _ => RunCompleted ("connecting... " ++ position_text)
              end)
    (UrlURLError "timed out") position_text position_value.

(** The same, with every run of a command script exiting with status 1. *)
Definition always_failing : Platform :=
  scripted 10 (PopenExit 0 (" tok2" ++ String (ascii_of_N 10) EmptyString) "")
    (fun _ => RunCalledProcessError 1 "device busy")
    (UrlURLError "timed out") position_text position_value.

(** Command scripts that exit with status 0 and print a banner only. *)
Definition banner_only : Platform :=
  scripted 10 (PopenExit 0 "tok2" "")
    (fun _ => RunCompleted "connecting...")
    (UrlURLError "timed out") position_text position_value.

(** The clock reads [now]; the authentication script exits with status 1. *)
Definition auth_denied (now : Q) : Platform :=
  scripted now (PopenExit 1 "" "denied")
    (fun _ => RunRaises "unused")
    (UrlHTTPError 401 "Unauthorized") position_text position_value.

(** Command scripts that print the position after a line of noise. *)
Definition scripts_ok : Platform :=
  scripted 10 (PopenExit 0 "tok2" "")
    (fun _ => RunCompleted ("connecting... " ++ position_text))
    (UrlURLError "timed out") position_text position_value.

(** Every script exits with status 1. *)
Definition scripts_denied : Platform :=
  scripted 10 (PopenExit 1 "" "denied")
    (fun _ => RunCalledProcessError 1 "session expired")
    (UrlURLError "timed out") position_text position_value.

(** The text [{"SERVERWhoAmI": {"Id": "tok9"}}] and its value. *)
Definition whoami_text : string :=
  "{" ++ quoted "SERVERWhoAmI" ++ ": {" ++ quoted "Id" ++ ": " ++ quoted "tok9" ++ "}}".

Definition whoami_value : pyval :=
  PDict [ ("SERVERWhoAmI", PDict [ ("Id", PStr "tok9") ]) ].

(** A camera that answers: the clock reads [now]; [SERVERWhoAmI] issues the
    token [tok9]; every other request is answered with [reply]. *)
Definition camera_online (now : Q) (reply : string) : Platform :=
  {| clock := fun _ => now;
     popen := fun _ _ => PopenRaises "unused";
     run := fun _ _ => RunRaises "unused";
     urlopen := fun _ url _ =>
       if String.eqb url "http://169.254.50.183:80/Nexus.cgi?action=SERVERWhoAmI"
       then UrlPayload whoami_text else UrlPayload reply;
     json_loads := fun s =>
       if String.eqb s whoami_text then Some whoami_value
       else if String.eqb s position_text then Some position_value
       else None;
     urlencode := fun q =>
       PyStr.join "&" (map (fun kv => fst kv ++ "=" ++ py_str (snd kv)) q) |}.

(** A host that refuses every connection, and one that accepts from the
    [k]-th further attempt on. *)
Definition no_route : Network :=
  {| connect_ex := fun _ _ _ _ => ConnectReturns 111;
     sleep := fun _ _ => Slept |}.

Definition up_after (k : nat) : Network :=
  {| connect_ex := fun l _ _ _ =>
       if Nat.leb k (probes is_connect l) then ConnectReturns 0
       else ConnectOSError "timed out";
     sleep := fun _ _ => Slept |}.

(** [camera_control.py center --session tok1 ScreenX=1.5 ScreenY=2], with
    [retries] for [--retries]. *)
Definition center_args (retries : Z) : Namespace :=
  {| args_command := "center"; args_session := "tok1";
     args_camera := None; args_host := None;
     args_port := NEXUS_DEFAULT_PORT; args_path := NEXUS_CGI_PATH;
     args_timeout := 5; args_retries := retries; args_retry_delay := 1;
     args_no_token_override := false; args_print_url := false; args_raw := false;
     args_params := ["ScreenX=1.5"; "ScreenY=2"] |}.

(* ================================================================== *)
(** * Properties *)
(* ================================================================== *)

(** ** Tactics *)

Ltac nodup_strings :=
  repeat (constructor; [simpl; intuition discriminate |]); constructor.

Ltac break_if :=
  match goal with
  | |- context [if ?c then _ else _] => destruct c eqn:?
  end.

Ltac unfold_sys :=
  unfold bind, ret, get_self, update, time_time, subprocess_popen,
    subprocess_run, url_open in *.

(** ** Dictionaries *)

Section DictFacts.
Context {V : Type}.
Implicit Types (d o : dict V) (k : string) (v : V).

Lemma dict_get_set_same k v d : dict_get k (dict_set k v d) = Some v.
Proof.
  induction d as [| [k' v'] r IH]; simpl.
  - now rewrite String.eqb_refl.
  - destruct (String.eqb k k') eqn:E; simpl.
    + now rewrite String.eqb_refl.
    + now rewrite E.
Qed.

Lemma dict_get_set_other k k' v d :
  k <> k' -> dict_get k' (dict_set k v d) = dict_get k' d.
Proof.
  intros Hne.
  assert (Hkk : String.eqb k' k = false) by (apply String.eqb_neq; congruence).
  induction d as [| [k0 v0] r IH]; simpl.
  - now rewrite Hkk.
  - destruct (String.eqb k k0) eqn:E; simpl.
    + apply String.eqb_eq in E; subst k0. now rewrite Hkk.
    + now rewrite IH.
Qed.

Lemma dict_mem_set k k' v d :
  dict_mem k' (dict_set k v d) = String.eqb k k' || dict_mem k' d.
Proof.
  unfold dict_mem.
  destruct (String.eqb k k') eqn:E.
  - apply String.eqb_eq in E; subst. now rewrite dict_get_set_same.
  - apply String.eqb_neq in E. now rewrite dict_get_set_other.
Qed.

Lemma dict_set_fresh k v d : dict_get k d = None -> dict_set k v d = (d ++ [(k, v)])%list.
Proof.
  induction d as [| [k' v'] r IH]; simpl; [reflexivity |].
  destruct (String.eqb k k'); [discriminate |].
  intros H. now rewrite IH.
Qed.

Lemma dict_get_app_none k d o :
  dict_get k (d ++ o)%list = match dict_get k d with Some v => Some v | None => dict_get k o end.
Proof.
  induction d as [| [k' v'] r IH]; simpl; [reflexivity |].
  now destruct (String.eqb k k').
Qed.

(** A key that [other] does not mention keeps its value. *)
Lemma dict_get_update_absent k o : forall d,
  dict_get k o = None -> dict_get k (dict_update d o) = dict_get k d.
Proof.
  unfold dict_update.
  induction o as [| [k' v'] r IH]; simpl; intros d H; [reflexivity |].
  destruct (String.eqb k k') eqn:E; [discriminate |].
  rewrite IH by assumption.
  apply dict_get_set_other. apply String.eqb_neq in E. congruence.
Qed.

Lemma dict_get_in_keys k d : dict_get k d = None <-> ~ In k (dict_keys d).
Proof.
  induction d as [| [k' v'] r IH]; simpl.
  - tauto.
  - destruct (String.eqb k k') eqn:E.
    + apply String.eqb_eq in E; subst. split; [discriminate | tauto].
    + apply String.eqb_neq in E. rewrite IH. split.
      * intros H [H1 | H1]; [congruence | tauto].
      * tauto.
Qed.

(** The values of [other] win. *)
Lemma dict_get_update_present k v o : forall d,
  NoDup (dict_keys o) -> dict_get k o = Some v ->
  dict_get k (dict_update d o) = Some v.
Proof.
  unfold dict_update.
  induction o as [| [k' v'] r IH]; simpl; intros d Hnd H; [discriminate |].
  inversion Hnd as [| ? ? Hnotin Hnd']; subst.
  destruct (String.eqb k k') eqn:E.
  - apply String.eqb_eq in E; subst k'. injection H as ->.
    change (dict_get k (dict_update (dict_set k v d) r) = Some v).
    rewrite dict_get_update_absent by now apply dict_get_in_keys.
    apply dict_get_set_same.
  - now apply IH.
Qed.

(** No key is lost by an update. *)
Lemma dict_mem_update_left k o : forall d,
  dict_mem k d = true -> dict_mem k (dict_update d o) = true.
Proof.
  unfold dict_update.
  induction o as [| [k' v'] r IH]; simpl; intros d H; [assumption |].
  apply IH. rewrite dict_mem_set, H. apply orb_true_r.
Qed.

Lemma dict_mem_update_right k o : forall d,
  dict_mem k o = true -> dict_mem k (dict_update d o) = true.
Proof.
  unfold dict_update.
  induction o as [| [k' v'] r IH]; simpl; intros d H; [discriminate |].
  unfold dict_mem in H; simpl in H.
  destruct (String.eqb k k') eqn:E.
  - apply String.eqb_eq in E; subst k'.
    apply (dict_mem_update_left k r). now rewrite dict_mem_set, String.eqb_refl.
  - now apply IH.
Qed.

Lemma dict_get_remove_other k k' d :
  k <> k' -> dict_get k' (dict_remove k d) = dict_get k' d.
Proof.
  intros Hne. induction d as [| [k0 v0] r IH]; simpl; [reflexivity |].
  destruct (String.eqb k k0) eqn:E.
  - apply String.eqb_eq in E; subst k0.
    assert (String.eqb k' k = false) as -> by (apply String.eqb_neq; congruence).
    reflexivity.
  - simpl. now rewrite IH.
Qed.

End DictFacts.

(** ** The query builder *)

(** C5.  [build_query] starts from the session token and the action name,
    then merges the command's static parameters, then the coerced dynamic
    parameters and, when overrides are included, the pair
    [tokenoverride=1], [_=0] last.  A later merge wins a key collision, so
    the override values win over static and dynamic parameters and dynamic
    parameters win over static ones; the query has every static, dynamic and
    override key; and the overrides are the last two entries when no other
    parameter uses their keys. *)
Theorem build_query_merge_order (command : ParsedCommand.t) (session : pyval)
    (dynamic_params : dict pyval)
    (Hstatic : NoDup (dict_keys (ParsedCommand.static_params command)))
    (Hdynamic : NoDup (dict_keys dynamic_params)) :
  let base := [ ("session", session); ("action", PStr (ParsedCommand.action command)) ] in
  let merged := dict_update (dict_update base (ParsedCommand.static_params command))
                            dynamic_params in
  let query := build_query command session dynamic_params true in
  build_query command session dynamic_params false = merged
  /\ query = dict_update merged [ ("tokenoverride", PStr "1"); ("_", PStr "0") ]
  /\ dict_get "tokenoverride" query = Some (PStr "1")
  /\ dict_get "_" query = Some (PStr "0")
  /\ (forall k v, k <> "tokenoverride" -> k <> "_" ->
        dict_get k dynamic_params = Some v -> dict_get k query = Some v)
  /\ (forall k v, k <> "tokenoverride" -> k <> "_" ->
        dict_get k dynamic_params = None ->
        dict_get k (ParsedCommand.static_params command) = Some v ->
        dict_get k query = Some v)
  /\ (forall k, dict_mem k (ParsedCommand.static_params command) = true
                \/ dict_mem k dynamic_params = true
                \/ dict_mem k TOKEN_OVERRIDE_PARAMS = true ->
        dict_mem k query = true)
  /\ (dict_mem "tokenoverride" merged = false -> dict_mem "_" merged = false ->
        query = (merged ++ [ ("tokenoverride", PStr "1"); ("_", PStr "0") ])%list).
Proof.
  intros base merged query.
  assert (Hq : query = dict_set "_" (PStr "0") (dict_set "tokenoverride" (PStr "1") merged))
    by reflexivity.
  split; [reflexivity |]. split; [reflexivity |].
  split; [| split; [| split; [| split; [| split]]]].
  - rewrite Hq, dict_get_set_other by discriminate. apply dict_get_set_same.
  - rewrite Hq. apply dict_get_set_same.
  - intros k v H1 H2 Hk.
    rewrite Hq, !dict_get_set_other by congruence.
    now apply dict_get_update_present.
  - intros k v H1 H2 Hd Hs.
    rewrite Hq, !dict_get_set_other by congruence.
    unfold merged. rewrite dict_get_update_absent by assumption.
    now apply dict_get_update_present.
  - intros k H. rewrite Hq, !dict_mem_set.
    destruct H as [H | [H | H]].
    + unfold merged. rewrite (dict_mem_update_left k dynamic_params) by
        now apply dict_mem_update_right.
      now rewrite !orb_true_r.
    + unfold merged. rewrite (dict_mem_update_right k dynamic_params) by assumption.
      now rewrite !orb_true_r.
    + unfold dict_mem in H; simpl in H.
      destruct (String.eqb k "tokenoverride") eqn:E1.
      * apply String.eqb_eq in E1; subst k. reflexivity.
      * destruct (String.eqb k "_") eqn:E2; [| discriminate].
        apply String.eqb_eq in E2; subst k. reflexivity.
  - intros H1 H2. rewrite Hq.
    unfold dict_mem in H1, H2.
    destruct (dict_get "tokenoverride" merged) eqn:G1; [discriminate |].
    destruct (dict_get "_" merged) eqn:G2; [discriminate |].
    rewrite (dict_set_fresh "tokenoverride") by assumption.
    rewrite dict_set_fresh.
    + now rewrite <- app_assoc.
    + rewrite dict_get_app_none, G2. reflexivity.
Qed.

(** ** Parameter coercion *)

Ltac split_mem H :=
  unfold PyStr.mem in H; simpl in H;
  repeat (apply orb_prop in H; destruct H as [H | H]);
  try discriminate H; try (apply String.eqb_eq in H).

Lemma mem_In (x : string) (xs : list string) : PyStr.mem x xs = true <-> In x xs.
Proof.
  unfold PyStr.mem. rewrite existsb_exists. split.
  - intros (y & Hy & E). apply String.eqb_eq in E. now subst.
  - intros H. exists x. split; [assumption | apply String.eqb_refl].
Qed.

Lemma truthy_not_falsy (x : string) :
  PyStr.mem x falsy_inputs = true -> PyStr.mem x truthy_inputs = false.
Proof.
  intros H. split_mem H; subst; reflexivity.
Qed.

(** C7.  For a parameter of type [bool] the value is lower-cased and looked
    up in the truthy set [{1,true,t,yes,y,on}] and the falsy set
    [{0,false,f,no,n,off}]: a truthy input gives the wire value ["1"], a
    falsy input gives ["0"], and any other text raises the invalid-value
    error whose message lists the twelve accepted inputs.  Two inputs that
    differ only in letter case are treated alike. *)
Theorem coerce_boolean (pname value : string) (spec : ParameterSpec)
    (Hbool : p_type spec = Some TBool) :
  (In (PyStr.lower value) ["1"; "true"; "t"; "yes"; "y"; "on"] ->
     coerce_param_value pname value spec = Ok "1")
  /\ (In (PyStr.lower value) ["0"; "false"; "f"; "no"; "n"; "off"] ->
     coerce_param_value pname value spec = Ok "0")
  /\ (~ In (PyStr.lower value)
          ["1"; "true"; "t"; "yes"; "y"; "on"; "0"; "false"; "f"; "no"; "n"; "off"] ->
     exists e,
       coerce_param_value pname value spec = Raise e
       /\ e = InvalidParameterValue pname
                (ExpectsBoolean ["0"; "1"; "f"; "false"; "n"; "no"; "off"; "on";
                                 "t"; "true"; "y"; "yes"])
       /\ class_of e = ValueError
       /\ message e =
            "Parameter '" ++ pname ++ "' expects a boolean value. Supported inputs: "
            ++ "['0', '1', 'f', 'false', 'n', 'no', 'off', 'on', 't', 'true', 'y', 'yes']")
  /\ (forall other, PyStr.lower other = PyStr.lower value ->
        coerce_param_value pname other spec = coerce_param_value pname value spec).
Proof.
  unfold coerce_param_value. rewrite Hbool.
  split; [| split; [| split]].
  - intros H. apply (mem_In _ truthy_inputs) in H. now rewrite H.
  - intros H. apply (mem_In _ falsy_inputs) in H.
    now rewrite (truthy_not_falsy _ H), H.
  - intros H.
    assert (Ht : PyStr.mem (PyStr.lower value) truthy_inputs = false).
    { destruct (PyStr.mem (PyStr.lower value) truthy_inputs) eqn:E; [| reflexivity].
      exfalso. apply H. apply mem_In in E. simpl in E |- *. tauto. }
    assert (Hf : PyStr.mem (PyStr.lower value) falsy_inputs = false).
    { destruct (PyStr.mem (PyStr.lower value) falsy_inputs) eqn:E; [| reflexivity].
      exfalso. apply H. apply mem_In in E. simpl in E |- *. tauto. }
    rewrite Ht, Hf. eexists. split; [reflexivity |].
    split; [reflexivity |]. split; reflexivity.
  - intros other E. now rewrite E.
Qed.

(** ** The parameter loop of [execute] *)

Lemma str_of_cases (v : pyval) :
  (exceeds_str_limit v = false /\ str_of v = Ok (py_str v))
  \/ (exceeds_str_limit v = true /\ str_of v = Raise digit_limit_error).
Proof. unfold str_of. destruct (exceeds_str_limit v); auto. Qed.

Lemma str_of_ok (v : pyval) (text : string) : str_of v = Ok text -> text = py_str v.
Proof.
  destruct (str_of_cases v) as [[_ E] | [_ E]]; rewrite E; intros H;
    [now injection H as <- | discriminate].
Qed.

Lemma str_of_raise (v : pyval) (e : error) : str_of v = Raise e -> e = digit_limit_error.
Proof.
  destruct (str_of_cases v) as [[_ E] | [_ E]]; rewrite E; intros H;
    [discriminate | now injection H as <-].
Qed.

Lemma str_of_PStr (s : string) : str_of (PStr s) = Ok s.
Proof. reflexivity. Qed.

Lemma coerce_raises_invalid (pname value : string) (spec : ParameterSpec) (e : error) :
  coerce_param_value pname value spec = Raise e ->
  exists detail, e = InvalidParameterValue pname detail.
Proof.
  unfold coerce_param_value.
  destruct (match p_type spec with Some t => t | None => TStr end);
    repeat match goal with
           | |- context [if ?c then _ else _] => destruct c
           | |- context [match convert ?t ?v with _ => _ end] => destruct (convert t v) as [[]|]
           end;
    intros H; try discriminate H; injection H as <-; eexists; reflexivity.
Qed.

Section ResolveLoop.
Variable command_name : string.
Variable params : dict pyval.

Local Abbreviation loop := (CameraControlAPI.resolve_loop command_name).

(** The loop succeeds exactly when every declared parameter passes. *)
Lemma resolve_loop_ok (specs : list ParameterSpec) : forall coerced,
  (exists out, loop specs params coerced = Ok out) <-> forallb (passes params) specs = true.
Proof.
  induction specs as [| spec rest IH]; intros coerced; simpl.
  - split; [reflexivity | intros _; eexists; reflexivity].
  - unfold passes at 1, missing_required, invalid_value, unrendered_default.
    destruct (dict_get (p_name spec) params) as [value |] eqn:G.
    + destruct (str_of value) as [text | e'];
        [| split; [intros [out H]; discriminate | discriminate]].
      destruct (coerce_param_value (p_name spec) text spec) eqn:C; simpl.
      * apply IH.
      * split; [intros [out H]; discriminate | discriminate].
    + destruct (p_required spec) as [[] |], (p_default spec) as [d |]; simpl;
        try (destruct (str_of d)); simpl;
        try apply IH; split; try (intros [out H]; discriminate); discriminate.
Qed.

(** The loop stops at the first declared parameter that does not pass. *)
Lemma resolve_loop_raise (specs : list ParameterSpec) : forall coerced e,
  loop specs params coerced = Raise e <->
  exists pre spec post,
    specs = (pre ++ spec :: post)%list
    /\ forallb (passes params) pre = true
    /\ ((missing_required params spec = true
         /\ e = MissingParameter (p_name spec) command_name)
        \/ (exists value,
              dict_get (p_name spec) params = Some value
              /\ exceeds_str_limit value = false
              /\ coerce_param_value (p_name spec) (py_str value) spec = Raise e)
        \/ (e = digit_limit_error
            /\ ((exists value,
                   dict_get (p_name spec) params = Some value
                   /\ exceeds_str_limit value = true)
                \/ (missing_required params spec = false
                    /\ unrendered_default params spec = true)))).
Proof.
  induction specs as [| spec rest IH]; intros coerced e.
  - simpl. split; [discriminate |].
    intros (pre & s & post & H & _). now destruct pre.
  - split.
    + simpl. intros H.
      destruct (dict_get (p_name spec) params) as [value |] eqn:G.
      * destruct (str_of_cases value) as [[X E] | [X E]]; rewrite E in H.
        -- destruct (coerce_param_value (p_name spec) (py_str value) spec) as [v | e'] eqn:C.
           ++ apply IH in H. destruct H as (pre & s & post & -> & Hpre & Hs).
              exists (spec :: pre), s, post. split; [reflexivity |]. split; [| exact Hs].
              simpl. rewrite Hpre.
              unfold passes, missing_required, invalid_value, unrendered_default.
              now rewrite G, E, C.
           ++ injection H as ->. exists [], spec, rest.
              split; [reflexivity |]. split; [reflexivity |]. right. left. now exists value.
        -- injection H as <-. exists [], spec, rest.
           split; [reflexivity |]. split; [reflexivity |]. right. right.
           split; [reflexivity |]. left. now exists value.
      * destruct ((match p_required spec with Some b => b | None => true end)
                  && (match p_default spec with None => true | Some _ => false end)) eqn:R.
        -- injection H as <-. exists [], spec, rest.
           split; [reflexivity |]. split; [reflexivity |]. left.
           unfold missing_required. now rewrite G, R.
        -- destruct (p_default spec) as [d |] eqn:D.
           ++ destruct (str_of_cases d) as [[X E] | [X E]]; rewrite E in H.
              ** apply IH in H. destruct H as (pre & s & post & -> & Hpre & Hs).
                 exists (spec :: pre), s, post. split; [reflexivity |]. split; [| exact Hs].
                 simpl. rewrite Hpre.
                 unfold passes, missing_required, invalid_value, unrendered_default.
                 now rewrite G, D, R, E.
              ** injection H as <-. exists [], spec, rest.
                 split; [reflexivity |]. split; [reflexivity |]. right. right.
                 split; [reflexivity |]. right.
                 unfold missing_required, unrendered_default. now rewrite G, D, R, E.
           ++ apply IH in H. destruct H as (pre & s & post & -> & Hpre & Hs).
              exists (spec :: pre), s, post. split; [reflexivity |]. split; [| exact Hs].
              simpl. rewrite Hpre.
              unfold passes, missing_required, invalid_value, unrendered_default.
              now rewrite G, D, R.
    + intros (pre & s & post & Hspecs & Hpre & Hs).
      destruct pre as [| p pre].
      * simpl in Hspecs. injection Hspecs as -> ->. simpl.
        destruct Hs as [[Hm ->] | [(value & G & X & C) | [-> [(value & G & X) | [Hm Hu]]]]].
        -- unfold missing_required in Hm.
           destruct (dict_get (p_name s) params); [discriminate |]. now rewrite Hm.
        -- rewrite G. unfold str_of. now rewrite X, C.
        -- rewrite G. unfold str_of. now rewrite X.
        -- unfold missing_required in Hm. unfold unrendered_default in Hu.
           destruct (dict_get (p_name s) params); [discriminate |]. rewrite Hm.
           destruct (p_default s) as [d |]; [| discriminate].
           destruct (str_of d) as [text | e'] eqn:E; [discriminate |].
           now rewrite (str_of_raise _ _ E).
      * simpl in Hspecs. injection Hspecs as E1 E2. subst p rest.
        simpl in Hpre. apply andb_prop in Hpre. destruct Hpre as [Hp Hpre].
        assert (Hrest : forall c, loop (pre ++ s :: post)%list params c = Raise e).
        { intros c. apply IH. now exists pre, s, post. }
        unfold passes, missing_required, invalid_value, unrendered_default in Hp. simpl.
        destruct (dict_get (p_name spec) params) as [value |].
        -- destruct (str_of value) as [text |]; [| discriminate].
           destruct (coerce_param_value (p_name spec) text spec);
             [apply Hrest | discriminate].
        -- simpl in Hp. apply andb_prop in Hp. destruct Hp as [Hp Hd].
           rewrite andb_true_r in Hp. apply negb_true_iff in Hp.
           rewrite Hp. destruct (p_default spec) as [d |]; [| apply Hrest].
           destruct (str_of d); [apply Hrest | discriminate].
Qed.

End ResolveLoop.

Lemma undeclared_nonempty (specs : list ParameterSpec) (params : dict pyval) :
  undeclared specs params <> [] <->
  exists k, In k (dict_keys params) /\ ~ In k (map p_name specs).
Proof.
  unfold undeclared. split.
  - intros H.
    destruct (filter _ (dict_keys params)) as [| k r] eqn:F; [congruence |].
    assert (Hin : In k (filter (fun k => negb (PyStr.mem k (map p_name specs)))
                          (dict_keys params))) by (rewrite F; now left).
    apply filter_In in Hin. destruct Hin as [Hk Hn].
    exists k. split; [assumption |].
    intros Hc. apply mem_In in Hc. now rewrite Hc in Hn.
  - intros (k & Hk & Hn) F.
    assert (Hin : In k (filter (fun k => negb (PyStr.mem k (map p_name specs)))
                          (dict_keys params))).
    { apply filter_In. split; [assumption |].
      destruct (PyStr.mem k (map p_name specs)) eqn:E; [| reflexivity].
      apply mem_In in E. contradiction. }
    rewrite F in Hin. contradiction.
Qed.

(** [execute] stops at the first declared parameter, in declaration order,
    that is either required, without default and absent, or supplied with a
    value that does not coerce; the undeclared keys are looked at only when
    every declared parameter passes. *)
Lemma execute_resolve_errors (parsed_command : ParsedCommand.t) (command_name : string)
    (params : dict pyval) :
  let specs := ParsedCommand.param_specs parsed_command in
  let outcome := CameraControlAPI.resolve_params parsed_command command_name params in
  (forall n c,
     outcome = Raise (MissingParameter n c) <->
     c = command_name
     /\ exists pre spec post,
          specs = (pre ++ spec :: post)%list
          /\ forallb (passes params) pre = true
          /\ missing_required params spec = true
          /\ n = p_name spec)
  /\ (forall c extras,
        outcome = Raise (UnexpectedParameter c extras) <->
        c = command_name
        /\ forallb (passes params) specs = true
        /\ (exists k, In k (dict_keys params) /\ ~ In k (map p_name specs))
        /\ extras = PyStr.sorted (undeclared specs params)).
Proof.
  intros specs outcome. subst outcome. unfold CameraControlAPI.resolve_params.
  fold specs. fold (undeclared specs params).
  destruct (CameraControlAPI.resolve_loop command_name specs params []) as [out | e] eqn:L.
  - assert (Hall : forallb (passes params) specs = true)
      by (apply (resolve_loop_ok command_name params specs []); now exists out).
    split.
    + intros n c. split.
      * intros H. destruct (undeclared specs params); discriminate.
      * intros (_ & pre & spec & post & Hs & Hpre & Hm & _).
        exfalso.
        assert (Hr : CameraControlAPI.resolve_loop command_name specs params []
                     = Raise (MissingParameter (p_name spec) command_name)).
        { apply resolve_loop_raise. exists pre, spec, post. tauto. }
        congruence.
    + intros c extras. rewrite <- undeclared_nonempty. split.
      * intros H. destruct (undeclared specs params) as [| k r] eqn:U; [discriminate |].
        injection H as <- <-. repeat split; [assumption | discriminate].
      * intros (-> & _ & Hne & ->).
        destruct (undeclared specs params); [congruence | reflexivity].
  - apply resolve_loop_raise in L.
    destruct L as (pre & spec & post & Hs & Hpre & Hcase).
    assert (Hnot : forallb (passes params) specs = false).
    { rewrite Hs, forallb_app. simpl. rewrite Hpre. simpl.
      unfold passes.
      destruct Hcase as [[Hm _] | [(value & G & X & C) | [_ [(value & G & X) | [_ Hu]]]]].
      - now rewrite Hm.
      - unfold invalid_value, str_of. rewrite G, X, C. simpl. now rewrite andb_false_r.
      - unfold invalid_value, str_of. rewrite G, X. simpl. now rewrite andb_false_r.
      - rewrite Hu. simpl. now rewrite !andb_false_r. }
    assert (Hl : CameraControlAPI.resolve_loop command_name specs params [] = Raise e).
    { apply resolve_loop_raise. exists pre, spec, post. tauto. }
    assert (Hclass : (missing_required params spec = true
                      /\ e = MissingParameter (p_name spec) command_name)
                     \/ (exists n detail, e = InvalidParameterValue n detail)
                     \/ e = digit_limit_error).
    { destruct Hcase as [Hm | [(value & _ & _ & C) | [-> _]]]; [now left | | now right; right].
      apply coerce_raises_invalid in C. destruct C as [detail C].
      right. left. now exists (p_name spec), detail. }
    split.
    + intros n c. split.
      * intros H. injection H as ->.
        destruct Hclass as [[Hm He] | [(n0 & detail & He) | He]]; try discriminate He.
        injection He as -> ->. split; [reflexivity |].
        exists pre, spec, post. tauto.
      * intros (-> & pre' & spec' & post' & Hs' & Hpre' & Hm' & ->).
        assert (Hr : CameraControlAPI.resolve_loop command_name specs params []
                     = Raise (MissingParameter (p_name spec') command_name)).
        { apply resolve_loop_raise. exists pre', spec', post'. tauto. }
        congruence.
    + intros c extras. split.
      * intros H. injection H as ->.
        destruct Hclass as [[_ He] | [(n0 & detail & He) | He]]; discriminate He.
      * intros (_ & Hall & _). congruence.
Qed.

(** *** The parameter loop of [main] agrees with the one of [execute] *)

Lemma dict_get_as_values (k : string) (provided : dict string) :
  dict_get k (as_values provided) = option_map PStr (dict_get k provided).
Proof.
  induction provided as [| [k' v'] r IH]; simpl; [reflexivity |].
  now destruct (String.eqb k k').
Qed.

Lemma dict_keys_as_values (provided : dict string) :
  dict_keys (as_values provided) = dict_keys provided.
Proof.
  unfold dict_keys, as_values. rewrite map_map. reflexivity.
Qed.

Lemma dict_keys_set {V : Type} (k : string) (v : V) (d : dict V) :
  dict_keys (dict_set k v d)
  = if dict_mem k d then dict_keys d else (dict_keys d ++ [k])%list.
Proof.
  unfold dict_mem. induction d as [| [k' v'] r IH]; simpl; [reflexivity |].
  destruct (String.eqb k k') eqn:E; simpl.
  - apply String.eqb_eq in E. now subst.
  - rewrite IH. now destruct (dict_get k r).
Qed.

Lemma dict_set_nodup {V : Type} (k : string) (v : V) (d : dict V) :
  NoDup (dict_keys d) -> NoDup (dict_keys (dict_set k v d)).
Proof.
  intros H. rewrite dict_keys_set. unfold dict_mem.
  destruct (dict_get k d) eqn:G; [exact H |].
  apply dict_get_in_keys in G.
  apply NoDup_app; [exact H | repeat constructor; simpl; tauto |].
  intros x Hx [<- | []]. contradiction.
Qed.

Lemma parse_param_pairs_nodup (pairs : list string) : forall parsed provided,
  NoDup (dict_keys parsed) ->
  parse_param_pairs_loop pairs parsed = Ok provided ->
  NoDup (dict_keys provided).
Proof.
  induction pairs as [| raw rest IH]; simpl; intros parsed provided Hnd H.
  - now injection H as <-.
  - destruct (PyStr.split_once "=" raw) as [[key value] |]; [| discriminate].
    destruct (String.eqb (PyStr.strip key) ""); [discriminate |].
    apply (IH _ _ (dict_set_nodup _ _ _ Hnd) H).
Qed.

Lemma dict_keys_remove {V : Type} (k : string) (d : dict V) :
  NoDup (dict_keys d) ->
  dict_keys (dict_remove k d) = filter (fun x => negb (String.eqb x k)) (dict_keys d)
  /\ NoDup (dict_keys (dict_remove k d)).
Proof.
  induction d as [| [k' v'] r IH]; simpl; intros Hnd; [split; [reflexivity | constructor] |].
  inversion Hnd as [| ? ? Hnotin Hnd']; subst.
  destruct (IH Hnd') as [IHk IHn].
  destruct (String.eqb k k') eqn:E.
  - apply String.eqb_eq in E. subst k'. rewrite String.eqb_refl. simpl.
    split; [| exact Hnd'].
    symmetry. apply forallb_filter_id. apply forallb_forall.
    intros x Hx. destruct (String.eqb x k) eqn:Ex; [| reflexivity].
    apply String.eqb_eq in Ex. subst x. contradiction.
  - rewrite String.eqb_sym, E. simpl. split; [now rewrite <- IHk |].
    constructor; [| exact IHn].
    intros Hin. apply Hnotin.
    clear - Hin. induction r as [| [k0 v0] r IH]; simpl in *; [contradiction |].
    destruct (String.eqb k k0); simpl in *; tauto.
Qed.

Section MainLoop.
Variable command : ParsedCommand.t.

(** On unique parameter names the loop of [main] resolves what the loop of
    [execute] resolves, and fails where it fails. *)
Lemma main_loop_agrees (specs : list ParameterSpec) : forall provided provided0 coerced,
  NoDup (map p_name specs) ->
  (forall k, In k (map p_name specs) -> dict_get k provided = dict_get k provided0) ->
  match CameraControlAPI.resolve_loop (ParsedCommand.name command) specs
          (as_values provided0) coerced with
  | Ok out => exists left, main_resolve_loop command specs provided coerced = Ok (left, out)
  | Raise e => main_resolve_loop command specs provided coerced
               = Raise (reported_by_parser e)
  end.
Proof.
  induction specs as [| spec rest IH]; intros provided provided0 coerced Hnd Hsame.
  - simpl. now exists provided.
  - inversion Hnd as [| ? ? Hnotin Hnd']; subst.
    assert (Hhead : dict_get (p_name spec) provided = dict_get (p_name spec) provided0)
      by (apply Hsame; simpl; tauto).
    cbn [CameraControlAPI.resolve_loop main_resolve_loop].
    rewrite dict_get_as_values, Hhead.
    destruct (dict_get (p_name spec) provided0) as [value |]; cbn [option_map].
    + rewrite str_of_PStr. unfold rbind.
      destruct (coerce_param_value (p_name spec) value spec) as [wire | e] eqn:C.
      * apply IH; [exact Hnd' |].
        intros k Hk. rewrite dict_get_remove_other.
        -- apply Hsame. simpl. tauto.
        -- intros E. subst k. contradiction.
      * apply coerce_raises_invalid in C. destruct C as [detail ->]. reflexivity.
    + destruct ((match p_required spec with Some b => b | None => true end)
                && (match p_default spec with None => true | Some _ => false end));
        [reflexivity |].
      destruct (p_default spec) as [d |].
      * unfold rbind. destruct (str_of d) as [text | e] eqn:E.
        -- apply IH; [exact Hnd' |]. intros k Hk. apply Hsame. simpl. tauto.
        -- now rewrite (str_of_raise _ _ E).
      * apply IH; [exact Hnd' |]. intros k Hk. apply Hsame. simpl. tauto.
Qed.

(** What [main] has left over after a successful loop are the supplied
    keys that are not declared, in the order in which they were given. *)
Lemma main_loop_left (specs : list ParameterSpec) : forall provided coerced left out,
  NoDup (dict_keys provided) ->
  main_resolve_loop command specs provided coerced = Ok (left, out) ->
  dict_keys left
  = filter (fun k => negb (PyStr.mem k (map p_name specs))) (dict_keys provided).
Proof.
  induction specs as [| spec rest IH]; intros provided coerced left out Hnd H.
  - simpl in H. injection H as <- <-. simpl.
    symmetry. apply forallb_filter_id. now apply forallb_forall.
  - cbn [main_resolve_loop] in H.
    destruct (dict_get (p_name spec) provided) as [value |] eqn:G.
    + unfold rbind in H.
      destruct (coerce_param_value (p_name spec) value spec); [| discriminate].
      destruct (dict_keys_remove (p_name spec) provided Hnd) as [Hk Hn].
      rewrite (IH _ _ _ _ Hn H), Hk.
      clear. induction (dict_keys provided) as [| k r IHr]; simpl; [reflexivity |].
      unfold PyStr.mem in *. simpl. rewrite (String.eqb_sym k (p_name spec)).
      destruct (String.eqb (p_name spec) k); simpl; [exact IHr |].
      destruct (existsb (String.eqb k) (map p_name rest)); simpl; [exact IHr |].
      now rewrite IHr.
    + assert (H' : exists coerced',
                     main_resolve_loop command rest provided coerced' = Ok (left, out)).
      { destruct (_ && _); [discriminate |].
        destruct (p_default spec) as [d |]; [| now exists coerced].
        unfold rbind in H. destruct (str_of d) as [text |]; [| discriminate].
        eexists. exact H. }
      destruct H' as [coerced' H'].
      rewrite (IH _ _ _ _ Hnd H').
      apply dict_get_in_keys in G. clear - G.
      induction (dict_keys provided) as [| k r IHr]; simpl; [reflexivity |].
      simpl in G. unfold PyStr.mem in *. simpl.
      destruct (String.eqb k (p_name spec)) eqn:E.
      * apply String.eqb_eq in E. subst k. tauto.
      * simpl. rewrite IHr by tauto. reflexivity.
Qed.

End MainLoop.

(** The errors that [execute]'s parameter resolution can raise. *)
Lemma resolve_params_raises (parsed_command : ParsedCommand.t) (command_name : string)
    (params : dict pyval) (e : error) :
  CameraControlAPI.resolve_params parsed_command command_name params = Raise e ->
  (exists n, e = MissingParameter n command_name)
  \/ (exists n detail, e = InvalidParameterValue n detail)
  \/ (exists extras, e = UnexpectedParameter command_name extras)
  \/ e = digit_limit_error.
Proof.
  unfold CameraControlAPI.resolve_params.
  destruct (CameraControlAPI.resolve_loop command_name _ params []) as [out | e'] eqn:L.
  - destruct (filter _ _); [discriminate |]. intros H. injection H as <-.
    right. right. left. eexists. reflexivity.
  - intros H. injection H as <-. apply resolve_loop_raise in L.
    destruct L as (pre & spec & post & _ & _ & [[_ ->] | [(value & _ & _ & C) | [-> _]]]).
    + left. eexists. reflexivity.
    + apply coerce_raises_invalid in C. destruct C as [detail ->].
      right. left. eexists. eexists. reflexivity.
    + now right; right; right.
Qed.

(** On unique parameter names [main] ends as [execute] does on the same
    parameters, except that a missing parameter and the undeclared keys are
    reported through the argument parser, the latter in the order given. *)
Lemma main_matches_execute (parsed_command : ParsedCommand.t) (pairs : list string)
    (provided : dict string) :
  NoDup (map p_name (ParsedCommand.param_specs parsed_command)) ->
  parse_param_pairs pairs = Ok provided ->
  match CameraControlAPI.resolve_params parsed_command
          (ParsedCommand.name parsed_command) (as_values provided) with
  | Ok out => main_resolve_params parsed_command pairs = Ok out
  | Raise (UnexpectedParameter c _) =>
      main_resolve_params parsed_command pairs
      = Raise (ParserError
                 (UnexpectedParameter c
                    (undeclared (ParsedCommand.param_specs parsed_command)
                       (as_values provided))))
  | Raise e => main_resolve_params parsed_command pairs = Raise (reported_by_parser e)
  end.
Proof.
  intros Hnd Hp.
  pose proof (main_loop_agrees parsed_command (ParsedCommand.param_specs parsed_command)
                provided provided [] Hnd (fun _ _ => eq_refl)) as A.
  unfold main_resolve_params. rewrite Hp. cbn [rbind].
  unfold CameraControlAPI.resolve_params.
  fold (undeclared (ParsedCommand.param_specs parsed_command) (as_values provided)).
  destruct (CameraControlAPI.resolve_loop (ParsedCommand.name parsed_command)
              (ParsedCommand.param_specs parsed_command) (as_values provided) [])
    as [out | e] eqn:L.
  - destruct A as [left A]. rewrite A. cbn [rbind].
    assert (Hleft : dict_keys left
                    = undeclared (ParsedCommand.param_specs parsed_command)
                        (as_values provided)).
    { unfold undeclared. rewrite dict_keys_as_values.
      apply (main_loop_left parsed_command _ _ _ _ _
               (parse_param_pairs_nodup pairs [] provided (NoDup_nil _) Hp) A). }
    rewrite <- Hleft. destruct left as [| kv left]; reflexivity.
  - rewrite A. cbn [rbind].
    apply resolve_loop_raise in L.
    destruct L as (pre & spec & post & _ & _ & [[_ ->] | [(value & _ & _ & C) | [-> _]]]);
      [reflexivity | | reflexivity].
    apply coerce_raises_invalid in C. destruct C as [detail ->]. reflexivity.
Qed.

(** C4, as the code has it.  Both parameter loops ([execute], and [main]
    for a command whose parameter names are unique) meet the declared
    parameters in declaration order and stop at the first one that is
    either required, without default and absent (missing-parameter error
    naming it) or supplied with a value that does not coerce (invalid-value
    error; a value or a default that [str] cannot write stops the loop as
    well).  So resolution fails with the missing-parameter error iff some
    required parameter without default is absent and every parameter
    declared before the first such one passes; and it fails with the
    unexpected-parameter error, listing the undeclared keys, iff every
    declared parameter passes and the supplied set has a key that is not
    declared. *)
Theorem resolve_params_errors (parsed_command : ParsedCommand.t) :
  let specs := ParsedCommand.param_specs parsed_command in
  (forall command_name params,
     let outcome := CameraControlAPI.resolve_params parsed_command command_name params in
     (forall n c,
        outcome = Raise (MissingParameter n c) <->
        c = command_name
        /\ exists pre spec post,
             specs = (pre ++ spec :: post)%list
             /\ forallb (passes params) pre = true
             /\ missing_required params spec = true
             /\ n = p_name spec)
     /\ (forall c extras,
           outcome = Raise (UnexpectedParameter c extras) <->
           c = command_name
           /\ forallb (passes params) specs = true
           /\ (exists k, In k (dict_keys params) /\ ~ In k (map p_name specs))
           /\ extras = PyStr.sorted (undeclared specs params)))
  /\ (NoDup (map p_name specs) ->
      forall pairs provided,
        parse_param_pairs pairs = Ok provided ->
        let params := as_values provided in
        let outcome := main_resolve_params parsed_command pairs in
        (forall n c,
           outcome = Raise (ParserError (MissingParameter n c)) <->
           c = ParsedCommand.name parsed_command
           /\ exists pre spec post,
                specs = (pre ++ spec :: post)%list
                /\ forallb (passes params) pre = true
                /\ missing_required params spec = true
                /\ n = p_name spec)
        /\ (forall c extras,
              outcome = Raise (ParserError (UnexpectedParameter c extras)) <->
              c = ParsedCommand.name parsed_command
              /\ forallb (passes params) specs = true
              /\ (exists k, In k (dict_keys params) /\ ~ In k (map p_name specs))
              /\ extras = undeclared specs params)).
Proof.
  intros specs. split.
  - intros command_name params. apply execute_resolve_errors.
  - intros Hnd pairs provided Hp params outcome.
    pose proof (main_matches_execute parsed_command pairs provided Hnd Hp) as M.
    destruct (execute_resolve_errors parsed_command
                (ParsedCommand.name parsed_command) params) as [Hmiss Hextra].
    fold specs in Hmiss, Hextra. fold params in M. fold outcome in M.
    destruct (CameraControlAPI.resolve_params parsed_command
                (ParsedCommand.name parsed_command) params) as [out | e] eqn:R.
    + split.
      * intros n c. rewrite <- Hmiss, M. split; discriminate.
      * intros c extras. rewrite M. split; [discriminate |].
        intros (-> & Hall & Hk & _).
        assert (Hx : Ok out = Raise (UnexpectedParameter (ParsedCommand.name parsed_command)
                                      (PyStr.sorted (undeclared specs params)))
                     :> result (dict pyval))
          by (apply Hextra; tauto).
        discriminate Hx.
    + destruct (resolve_params_raises _ _ _ _ R)
        as [[n0 ->] | [(n0 & detail & ->) | [[ex0 ->] | ->]]];
        cbn [reported_by_parser digit_limit_error] in M.
      * split.
        -- intros n c. rewrite <- Hmiss, M. split; intros H; injection H as -> ->; reflexivity.
        -- intros c extras. rewrite M. split; [discriminate |].
           intros (-> & Hall & Hk & _).
           assert (Hx : Raise (MissingParameter n0 (ParsedCommand.name parsed_command))
                        = Raise (UnexpectedParameter (ParsedCommand.name parsed_command)
                                   (PyStr.sorted (undeclared specs params)))
                        :> result (dict pyval))
             by (apply Hextra; tauto).
           discriminate Hx.
      * split.
        -- intros n c. rewrite <- Hmiss, M. split; discriminate.
        -- intros c extras. rewrite M. split; [discriminate |].
           intros (-> & Hall & Hk & _).
           assert (Hx : Raise (InvalidParameterValue n0 detail)
                        = Raise (UnexpectedParameter (ParsedCommand.name parsed_command)
                                   (PyStr.sorted (undeclared specs params)))
                        :> result (dict pyval))
             by (apply Hextra; tauto).
           discriminate Hx.
      * split.
        -- intros n c. rewrite <- Hmiss, M. split; discriminate.
        -- intros c extras. rewrite M.
           destruct (proj1 (Hextra _ _) eq_refl) as (_ & Hall & Hk & _).
           split.
           ++ intros H. injection H as <- <-. tauto.
           ++ intros (-> & _ & _ & ->). reflexivity.
      * split.
        -- intros n c. rewrite <- Hmiss, M. split; discriminate.
        -- intros c extras. rewrite M. split; [discriminate |].
           intros (-> & Hall & Hk & _).
           assert (Hx : Raise digit_limit_error
                        = Raise (UnexpectedParameter (ParsedCommand.name parsed_command)
                                   (PyStr.sorted (undeclared specs params)))
                        :> result (dict pyval))
             by (apply Hextra; tauto).
           discriminate Hx.
Qed.

(** C4, counterexample to the claim as worded: for [set_speed] with
    [Azimuth_Speed="abc"] the required parameter [Elevation_Speed] is
    absent, yet the failure is the invalid-value error of [Azimuth_Speed],
    which is declared first. *)
Lemma missing_parameter_masked_by_invalid_value :
  let params := [ ("Azimuth_Speed", PStr "abc") ] in
  exists parsed_command,
    load_command "set_speed" = Ok parsed_command
    /\ (exists spec, In spec (ParsedCommand.param_specs parsed_command)
                     /\ missing_required params spec = true)
    /\ CameraControlAPI.resolve_params parsed_command "set_speed" params
       = Raise (InvalidParameterValue "Azimuth_Speed" (CannotConvert "abc" "int"))
    /\ ~ (exists n, CameraControlAPI.resolve_params parsed_command "set_speed" params
                    = Raise (MissingParameter n "set_speed"))
    /\ main_resolve_params parsed_command [ "Azimuth_Speed=abc" ]
       = Raise (InvalidParameterValue "Azimuth_Speed" (CannotConvert "abc" "int")).
Proof.
  eexists. split; [reflexivity |]. split; [| split; [| split]].
  - exists (param "Elevation_Speed" TInt "Desired elevation speed setting.").
    split; [simpl; tauto | reflexivity].
  - reflexivity.
  - intros [n H]. discriminate H.
  - reflexivity.
Qed.

Lemma resolve_params_errors_witness :
  NoDup (map p_name (ParsedCommand.param_specs center_command))
  /\ parse_param_pairs [ "ScreenX=1" ] = Ok [ ("ScreenX", "1") ]
  /\ main_resolve_params center_command [ "ScreenX=1" ]
     = Raise (ParserError (MissingParameter "ScreenY" "center")).
Proof.
  assert (Hnd : NoDup (map p_name (ParsedCommand.param_specs center_command)))
    by (simpl; nodup_strings).
  split; [exact Hnd |]. split; [reflexivity |].
  apply (proj1 (proj2 (resolve_params_errors center_command) Hnd
                  [ "ScreenX=1" ] [ ("ScreenX", "1") ] eq_refl)
           "ScreenY" "center").
  split; [reflexivity |].
  exists [ param "ScreenX" TFloat "Horizontal screen coordinate." ],
         (param "ScreenY" TFloat "Vertical screen coordinate."), [].
  repeat split; vm_compute; reflexivity.
Defined.

(** ** Defaults *)

(** [str] returned in a run that succeeded. *)
Ltac rendered H :=
  unfold rbind in H;
  match type of H with
  | context [str_of ?v] =>
      let text := fresh "text" in
      let E := fresh "E" in
      destruct (str_of v) as [text |] eqn:E;
      [apply str_of_ok in E; subst text | discriminate H]
  end.

Section Defaults.
Variable command_name : string.
Variable params : dict pyval.

Lemma resolve_loop_keeps (specs : list ParameterSpec) : forall coerced out k,
  CameraControlAPI.resolve_loop command_name specs params coerced = Ok out ->
  ~ In k (map p_name specs) ->
  dict_get k out = dict_get k coerced.
Proof.
  induction specs as [| spec rest IH]; simpl; intros coerced out k H Hk.
  - now injection H as ->.
  - assert (Hne : p_name spec <> k) by tauto.
    assert (Hrest : ~ In k (map p_name rest)) by tauto.
    destruct (dict_get (p_name spec) params) as [value |].
    + rendered H.
      destruct (coerce_param_value (p_name spec) (py_str value) spec); [| discriminate].
      rewrite (IH _ _ _ H Hrest). now apply dict_get_set_other.
    + destruct (_ && _); [discriminate |].
      destruct (p_default spec) as [d |].
      * rendered H. rewrite (IH _ _ _ H Hrest). now apply dict_get_set_other.
      * now apply IH.
Qed.

Lemma resolve_loop_entry (specs : list ParameterSpec) : forall coerced out spec,
  NoDup (map p_name specs) -> In spec specs ->
  CameraControlAPI.resolve_loop command_name specs params coerced = Ok out ->
  match dict_get (p_name spec) params with
  | Some value =>
      exists wire, coerce_param_value (p_name spec) (py_str value) spec = Ok wire
                   /\ dict_get (p_name spec) out = Some (PStr wire)
  | None =>
      match p_default spec with
      | Some d => dict_get (p_name spec) out = Some (PStr (py_str d))
      | None => dict_get (p_name spec) out = dict_get (p_name spec) coerced
      end
  end.
Proof.
  induction specs as [| s rest IH]; simpl; intros coerced out spec Hnd Hin H;
    [contradiction |].
  inversion Hnd as [| ? ? Hnotin Hnd']; subst.
  destruct Hin as [-> | Hin].
  - destruct (dict_get (p_name spec) params) as [value |].
    + rendered H.
      destruct (coerce_param_value (p_name spec) (py_str value) spec) as [w |];
        [| discriminate].
      exists w. split; [reflexivity |].
      rewrite (resolve_loop_keeps _ _ _ _ H Hnotin). apply dict_get_set_same.
    + destruct (_ && _); [discriminate |].
      destruct (p_default spec) as [d |].
      * rendered H. rewrite (resolve_loop_keeps _ _ _ _ H Hnotin). apply dict_get_set_same.
      * now apply (resolve_loop_keeps _ _ _ _ H).
  - assert (Hne : p_name s <> p_name spec).
    { intros E. apply Hnotin. rewrite E. now apply in_map. }
    destruct (dict_get (p_name s) params) as [value |].
    + rendered H.
      destruct (coerce_param_value (p_name s) (py_str value) s); [| discriminate].
      specialize (IH _ _ _ Hnd' Hin H).
      destruct (dict_get (p_name spec) params); [exact IH |].
      destruct (p_default spec); [exact IH |].
      rewrite IH. now apply dict_get_set_other.
    + destruct (_ && _); [discriminate |].
      destruct (p_default s) as [d |].
      * rendered H. specialize (IH _ _ _ Hnd' Hin H).
        destruct (dict_get (p_name spec) params); [exact IH |].
        destruct (p_default spec); [exact IH |].
        rewrite IH. now apply dict_get_set_other.
      * now apply IH.
Qed.

End Defaults.

Section MainDefaults.
Variable command : ParsedCommand.t.

Lemma main_loop_keeps (specs : list ParameterSpec) : forall provided coerced left out k,
  main_resolve_loop command specs provided coerced = Ok (left, out) ->
  ~ In k (map p_name specs) ->
  dict_get k out = dict_get k coerced /\ dict_get k left = dict_get k provided.
Proof.
  induction specs as [| spec rest IH]; simpl; intros provided coerced left out k H Hk.
  - injection H as -> ->. split; reflexivity.
  - assert (Hne : p_name spec <> k) by tauto.
    assert (Hrest : ~ In k (map p_name rest)) by tauto.
    destruct (dict_get (p_name spec) provided) as [value |].
    + unfold rbind in H.
      destruct (coerce_param_value (p_name spec) value spec); [| discriminate].
      destruct (IH _ _ _ _ _ H Hrest) as [-> ->].
      split; [now apply dict_get_set_other | now apply dict_get_remove_other].
    + destruct (_ && _); [discriminate |].
      destruct (p_default spec) as [d |].
      * rendered H. destruct (IH _ _ _ _ _ H Hrest) as [-> ->].
        split; [now apply dict_get_set_other | reflexivity].
      * now apply IH.
Qed.

Lemma main_loop_entry (specs : list ParameterSpec) : forall provided coerced left out spec,
  NoDup (map p_name specs) -> In spec specs ->
  main_resolve_loop command specs provided coerced = Ok (left, out) ->
  match dict_get (p_name spec) provided with
  | Some value =>
      exists wire, coerce_param_value (p_name spec) value spec = Ok wire
                   /\ dict_get (p_name spec) out = Some (PStr wire)
  | None =>
      match p_default spec with
      | Some d => dict_get (p_name spec) out = Some (PStr (py_str d))
      | None => dict_get (p_name spec) out = dict_get (p_name spec) coerced
      end
  end.
Proof.
  induction specs as [| s rest IH]; simpl; intros provided coerced left out spec Hnd Hin H;
    [contradiction |].
  inversion Hnd as [| ? ? Hnotin Hnd']; subst.
  destruct Hin as [-> | Hin].
  - destruct (dict_get (p_name spec) provided) as [value |].
    + unfold rbind in H.
      destruct (coerce_param_value (p_name spec) value spec) as [w |]; [| discriminate].
      exists w. split; [reflexivity |].
      destruct (main_loop_keeps _ _ _ _ _ _ H Hnotin) as [-> _]. apply dict_get_set_same.
    + destruct (_ && _); [discriminate |].
      destruct (p_default spec) as [d |].
      * rendered H.
        destruct (main_loop_keeps _ _ _ _ _ _ H Hnotin) as [-> _]. apply dict_get_set_same.
      * now destruct (main_loop_keeps _ _ _ _ _ _ H Hnotin) as [-> _].
  - assert (Hne : p_name s <> p_name spec).
    { intros E. apply Hnotin. rewrite E. now apply in_map. }
    destruct (dict_get (p_name s) provided) as [value |].
    + unfold rbind in H.
      destruct (coerce_param_value (p_name s) value s); [| discriminate].
      specialize (IH _ _ _ _ _ Hnd' Hin H).
      rewrite dict_get_remove_other in IH by assumption.
      destruct (dict_get (p_name spec) provided); [exact IH |].
      destruct (p_default spec); [exact IH |].
      rewrite IH. now apply dict_get_set_other.
    + destruct (_ && _); [discriminate |].
      destruct (p_default s) as [d |].
      * rendered H. specialize (IH _ _ _ _ _ Hnd' Hin H).
        destruct (dict_get (p_name spec) provided); [exact IH |].
        destruct (p_default spec); [exact IH |].
        rewrite IH. now apply dict_get_set_other.
      * exact (IH _ _ _ _ _ Hnd' Hin H).
Qed.

End MainDefaults.

(** C3, as the code has it.  For a declared parameter that has a default:
    when it is absent from the supplied set, the resolved value is
    [str(default)], which is not passed through [coerce_param_value]; when
    it is supplied, the resolved value is the supplied value coerced by
    [coerce_param_value].  This holds in [execute] and in the parameter
    loop of [main]. *)
Theorem default_rendered_by_str (parsed_command : ParsedCommand.t)
    (spec : ParameterSpec) (d : pyval)
    (Hnames : NoDup (map p_name (ParsedCommand.param_specs parsed_command)))
    (Hdeclared : In spec (ParsedCommand.param_specs parsed_command))
    (Hdefault : p_default spec = Some d) :
  (forall command_name params out,
     CameraControlAPI.resolve_params parsed_command command_name params = Ok out ->
     match dict_get (p_name spec) params with
     | None => dict_get (p_name spec) out = Some (PStr (py_str d))
     | Some value =>
         exists wire,
           coerce_param_value (p_name spec) (py_str value) spec = Ok wire
           /\ dict_get (p_name spec) out = Some (PStr wire)
     end)
  /\ (forall pairs provided out,
        parse_param_pairs pairs = Ok provided ->
        main_resolve_params parsed_command pairs = Ok out ->
        match dict_get (p_name spec) provided with
        | None => dict_get (p_name spec) out = Some (PStr (py_str d))
        | Some value =>
            exists wire,
              coerce_param_value (p_name spec) value spec = Ok wire
              /\ dict_get (p_name spec) out = Some (PStr wire)
        end).
Proof.
  split.
  - intros command_name params out H.
    unfold CameraControlAPI.resolve_params in H.
    destruct (CameraControlAPI.resolve_loop command_name _ params []) as [c |] eqn:L;
      [| discriminate].
    destruct (filter _ _); [| discriminate]. injection H as ->.
    pose proof (resolve_loop_entry _ _ _ _ _ _ Hnames Hdeclared L) as E.
    now rewrite Hdefault in E.
  - intros pairs provided out Hp H.
    unfold main_resolve_params in H. rewrite Hp in H. simpl in H.
    destruct (main_resolve_loop parsed_command _ provided []) as [[left c] |] eqn:L;
      [| discriminate].
    simpl in H. destruct left; [| discriminate]. injection H as ->.
    pose proof (main_loop_entry _ _ _ _ _ _ _ Hnames Hdeclared L) as E.
    now rewrite Hdefault in E.
Qed.

Lemma default_rendered_by_str_witness :
  NoDup (map p_name (ParsedCommand.param_specs set_zoom_with_default))
  /\ In magnification_with_default (ParsedCommand.param_specs set_zoom_with_default)
  /\ p_default magnification_with_default = Some (PFloat float_two)
  /\ dict_get "Magnification" [ ("Magnification", PStr "2.0") ]
     = Some (PStr (py_str (PFloat float_two))).
Proof.
  assert (H1 : NoDup (map p_name (ParsedCommand.param_specs set_zoom_with_default)))
    by (simpl; nodup_strings).
  assert (H2 : In magnification_with_default
                 (ParsedCommand.param_specs set_zoom_with_default))
    by (simpl; tauto).
  assert (H3 : p_default magnification_with_default = Some (PFloat float_two))
    by reflexivity.
  split; [exact H1 |]. split; [exact H2 |]. split; [exact H3 |].
  exact (proj1 (default_rendered_by_str set_zoom_with_default magnification_with_default
                  (PFloat float_two) H1 H2 H3)
           "set_zoom" [] [ ("Magnification", PStr "2.0") ]
           ltac:(vm_compute; reflexivity)).
Defined.

(** C3, counterexample to the claim as worded: a [float] parameter whose
    default is [2.0].  Absent, it is sent as ["2.0"]; the same value put
    through the coercion function, or supplied by the caller, is sent as
    ["2"]. *)
Lemma default_bypasses_coercion :
  CameraControlAPI.resolve_params set_zoom_with_default "set_zoom" []
  = Ok [ ("Magnification", PStr "2.0") ]
  /\ main_resolve_params set_zoom_with_default [] = Ok [ ("Magnification", PStr "2.0") ]
  /\ coerce_param_value "Magnification" (py_str (PFloat float_two))
       magnification_with_default = Ok "2"
  /\ CameraControlAPI.resolve_params set_zoom_with_default "set_zoom"
       [ ("Magnification", PFloat float_two) ]
     = Ok [ ("Magnification", PStr "2") ]
  /\ main_resolve_params set_zoom_with_default [ "Magnification=2.0" ]
     = Ok [ ("Magnification", PStr "2") ].
Proof.
  repeat split; vm_compute; reflexivity.
Qed.

(** ** Reading of integers *)

Module IntFacts.

Lemma digit_not_space (c : ascii) : PyStr.is_digit c = true -> PyStr.is_c_space c = false.
Proof.
  unfold PyStr.is_digit, PyStr.is_c_space. intros H.
  apply andb_true_iff in H. destruct H as [H1 H2].
  apply N.leb_le in H1. apply N.leb_le in H2.
  apply orb_false_iff. split.
  - apply andb_false_iff. right. apply N.leb_gt. lia.
  - apply N.eqb_neq. lia.
Qed.

Lemma digit_not_underscore (c : ascii) : PyStr.is_digit c = true -> Ascii.eqb c "_" = false.
Proof.
  intros H. destruct (Ascii.eqb c "_") eqn:E; [| reflexivity].
  apply Ascii.eqb_eq in E. subst c. discriminate.
Qed.

Lemma digitpart_digits (s : string) :
  all_digits s = true -> PyStr.digitpart true s = Some s.
Proof.
  induction s as [| c r IH]; [reflexivity |].
  cbn [all_digits PyStr.digitpart]. intros H.
  apply andb_true_iff in H. destruct H as [Hc Hr].
  now rewrite Hc, (IH Hr).
Qed.

Lemma digitpart_number (s : string) :
  all_digits s = true -> s <> "" -> PyStr.digitpart false s = Some s.
Proof.
  destruct s as [| c r]; [congruence |].
  cbn [all_digits PyStr.digitpart]. intros H _.
  apply andb_true_iff in H. destruct H as [Hc Hr].
  now rewrite Hc, (digitpart_digits r Hr).
Qed.

(** What [digitpart] returns is a run of digits, and it is not empty when
    the text does not follow a digit. *)
Lemma digitpart_all_digits (s : string) : forall prev ds,
  PyStr.digitpart prev s = Some ds ->
  all_digits ds = true /\ (prev = false -> ds <> "").
Proof.
  induction s as [| c r IH]; intros prev ds; cbn [PyStr.digitpart].
  - destruct prev; [| discriminate]. intros H. injection H as <-.
    split; [reflexivity | discriminate].
  - destruct (PyStr.is_digit c) eqn:Hc.
    + destruct (PyStr.digitpart true r) as [ds' |] eqn:D; [| discriminate].
      intros H. injection H as <-. destruct (IH _ _ D) as [Ha _].
      split; [cbn [all_digits]; now rewrite Hc, Ha | discriminate].
    + destruct (Ascii.eqb c "_"); [| discriminate].
      destruct prev; [| discriminate].
      destruct r as [| d r']; [discriminate |].
      destruct (PyStr.is_digit d); [| discriminate].
      intros H. destruct (IH _ _ H) as [Ha _]. split; [exact Ha | discriminate].
Qed.

Lemma rstrip_digits (s : string) : all_digits s = true -> PyStr.c_rstrip s = s.
Proof.
  induction s as [| c r IH]; [reflexivity |].
  cbn [all_digits PyStr.c_rstrip]. intros H.
  apply andb_true_iff in H. destruct H as [Hc Hr].
  rewrite (IH Hr). destruct r; [| reflexivity].
  now rewrite (digit_not_space c Hc).
Qed.

Lemma strip_digits (s : string) : all_digits s = true -> PyStr.c_strip s = s.
Proof.
  intros H. unfold PyStr.c_strip.
  destruct s as [| c r]; [reflexivity |].
  cbn [PyStr.c_lstrip]. cbn [all_digits] in H.
  pose proof H as H'. apply andb_true_iff in H'. destruct H' as [Hc _].
  rewrite (digit_not_space c Hc). now apply rstrip_digits.
Qed.

Lemma strip_negative (s : string) :
  all_digits s = true -> s <> "" -> PyStr.c_strip (String "-" s) = String "-" s.
Proof.
  intros H Hne. unfold PyStr.c_strip.
  change (PyStr.c_lstrip (String "-" s)) with (String "-" s).
  cbn [PyStr.c_rstrip]. rewrite (rstrip_digits s H).
  destruct s; [congruence | reflexivity].
Qed.

(** The ten digits, by their code. *)
Lemma digit_cases (c : ascii) :
  PyStr.is_digit c = true ->
  In c ["0"; "1"; "2"; "3"; "4"; "5"; "6"; "7"; "8"; "9"]%char.
Proof.
  destruct c as [[] [] [] [] [] [] [] []]; intros H; try discriminate H;
    cbn; intuition congruence.
Qed.

Lemma int_digits_run (s : string) :
  all_digits s = true -> s <> "" ->
  int_digits s
  = if PyStr.exceeds_max_str_digits s then None else Some (PyStr.digits_val 0 s).
Proof.
  intros H Hne. unfold int_digits. now rewrite (digitpart_number s H Hne).
Qed.

(** [int] of a run of digits, and of a run of digits after a minus sign. *)
Lemma py_int_digits (s : string) :
  all_digits s = true -> s <> "" ->
  py_int s = int_digits s /\ py_int (String "-" s) = option_map Z.opp (int_digits s).
Proof.
  intros H Hne. split.
  - unfold py_int. rewrite (strip_digits s H).
    destruct s as [| c r]; [congruence |].
    pose proof H as H'. cbn [all_digits] in H'.
    apply andb_true_iff in H'. destruct H' as [Hc _].
    apply digit_cases in Hc. cbn [In] in Hc.
    destruct Hc as [<- | [<- | [<- | [<- | [<- | [<- | [<- | [<- | [<- | [<- | []]]]]]]]]]];
      reflexivity.
  - unfold py_int. now rewrite (strip_negative s H Hne).
Qed.

Lemma all_digits_uint (d : Decimal.uint) :
  all_digits (DecimalString.NilEmpty.string_of_uint d) = true.
Proof. induction d; cbn; auto. Qed.

Lemma digits_val_acc (d : Decimal.uint) : forall acc : positive,
  PyStr.digits_val (Z.pos acc) (DecimalString.NilEmpty.string_of_uint d)
  = Z.pos (Pos.of_uint_acc d acc).
Proof.
  induction d; intros acc;
    cbn [DecimalString.NilEmpty.string_of_uint PyStr.digits_val Pos.of_uint_acc];
    try reflexivity;
    match goal with
    | |- PyStr.digits_val (_ + PyStr.digit_val ?c) _ = _ =>
        let v := eval vm_compute in (PyStr.digit_val c) in
        change (PyStr.digit_val c) with v
    end;
    rewrite <- IHd; f_equal; lia.
Qed.

Lemma digits_val_uint (d : Decimal.uint) :
  PyStr.digits_val 0 (DecimalString.NilEmpty.string_of_uint d) = Z.of_uint d.
Proof.
  unfold Z.of_uint.
  induction d;
    cbn [DecimalString.NilEmpty.string_of_uint PyStr.digits_val Pos.of_uint];
    try reflexivity;
    try (change (10 * 0 + PyStr.digit_val "0") with 0; exact IHd);
    match goal with
    | |- PyStr.digits_val ?a _ = Z.of_N (N.pos (Pos.of_uint_acc _ ?b)) =>
        change a with (Z.pos b)
    end; apply digits_val_acc.
Qed.

Lemma string_of_uint_nonempty (d : Decimal.uint) :
  d <> Decimal.Nil -> DecimalString.NilEmpty.string_of_uint d <> "".
Proof. destruct d; cbn; congruence. Qed.

Lemma nilzero_nonnil (d : Decimal.uint) :
  d <> Decimal.Nil ->
  DecimalString.NilZero.string_of_uint d = DecimalString.NilEmpty.string_of_uint d.
Proof. destruct d; cbn; congruence. Qed.

Lemma length_string_of_uint (d : Decimal.uint) :
  String.length (DecimalString.NilEmpty.string_of_uint d) = Decimal.nb_digits d.
Proof. induction d; cbn; congruence. Qed.

(** A run of digits is the text of a decimal number. *)
Lemma digits_uint (s : string) :
  all_digits s = true -> exists d, s = DecimalString.NilEmpty.string_of_uint d.
Proof.
  induction s as [| c r IH]; [exists Decimal.Nil; reflexivity |].
  cbn [all_digits]. intros H. apply andb_true_iff in H. destruct H as [Hc Hr].
  destruct (IH Hr) as [d ->].
  apply digit_cases in Hc. cbn [In] in Hc.
  destruct Hc as [<- | [<- | [<- | [<- | [<- | [<- | [<- | [<- | [<- | [<- | []]]]]]]]]]];
    [exists (Decimal.D0 d) | exists (Decimal.D1 d) | exists (Decimal.D2 d)
     | exists (Decimal.D3 d) | exists (Decimal.D4 d) | exists (Decimal.D5 d)
     | exists (Decimal.D6 d) | exists (Decimal.D7 d) | exists (Decimal.D8 d)
     | exists (Decimal.D9 d)]; reflexivity.
Qed.

(** The text of the value of a run of digits is not longer than the run:
    leading zeros go. *)
Lemma of_Z_digits_val (s : string) :
  all_digits s = true -> s <> "" ->
  0 <= PyStr.digits_val 0 s
  /\ (String.length (PyStr.of_Z (PyStr.digits_val 0 s)) <= String.length s)%nat.
Proof.
  intros H Hne. destruct (digits_uint s H) as [d ->].
  assert (Hd : d <> Decimal.Nil) by (intros ->; now apply Hne).
  rewrite digits_val_uint. split; [unfold Z.of_uint; lia |].
  unfold PyStr.of_Z.
  change (Z.of_uint d) with (Z.of_int (Decimal.Pos d)).
  rewrite DecimalZ.to_of. cbn [Decimal.norm DecimalString.NilZero.string_of_int].
  assert (Hu : Decimal.unorm d <> Decimal.Nil).
  { unfold Decimal.unorm. destruct (Decimal.nzhead d); discriminate. }
  rewrite (nilzero_nonnil _ Hu), !length_string_of_uint.
  now apply DecimalFacts.nb_digits_unorm.
Qed.

Lemma exceeds_shorter (s t : string) :
  (String.length s <= String.length t)%nat ->
  PyStr.exceeds_max_str_digits t = false -> PyStr.exceeds_max_str_digits s = false.
Proof.
  unfold PyStr.exceeds_max_str_digits. intros Hl Ht.
  apply Z.ltb_ge in Ht. apply Z.ltb_ge. lia.
Qed.

(** What [int] returns has a text: [str] of it does not raise. *)
Lemma int_digits_within (r : string) (n : Z) :
  int_digits r = Some n -> 0 <= n /\ PyStr.exceeds_max_str_digits (PyStr.of_Z n) = false.
Proof.
  unfold int_digits.
  destruct (PyStr.digitpart false r) as [ds |] eqn:D; [| discriminate].
  destruct (PyStr.exceeds_max_str_digits ds) eqn:X; [discriminate |].
  intros H. injection H as <-.
  destruct (digitpart_all_digits _ _ _ D) as [Ha Hne].
  destruct (of_Z_digits_val ds Ha (Hne eq_refl)) as [H0 Hl].
  split; [exact H0 | exact (exceeds_shorter _ _ Hl X)].
Qed.

Lemma py_int_within (value : string) (n : Z) :
  py_int value = Some n -> exceeds_str_limit (PInt n) = false.
Proof.
  unfold py_int. cbn [exceeds_str_limit].
  assert (Hpos : forall r, int_digits r = Some n ->
                           PyStr.exceeds_max_str_digits (PyStr.of_Z (Z.abs n)) = false).
  { intros r H. destruct (int_digits_within r n H) as [H0 X].
    now rewrite Z.abs_eq. }
  assert (Hneg : forall r, option_map Z.opp (int_digits r) = Some n ->
                           PyStr.exceeds_max_str_digits (PyStr.of_Z (Z.abs n)) = false).
  { intros r H. destruct (int_digits r) as [k |] eqn:K; [| discriminate].
    injection H as <-. destruct (int_digits_within r k K) as [H0 X].
    now rewrite Z.abs_opp, Z.abs_eq. }
  destruct (PyStr.c_strip value) as [| c r]; [apply Hpos |].
  destruct c as [[] [] [] [] [] [] [] []];
    first [apply Hpos | apply Hneg].
Qed.

(** [int(str(n)) == n], for an [n] that [str] converts. *)
Lemma py_int_of_Z (n : Z) :
  exceeds_str_limit (PInt n) = false -> py_int (PyStr.of_Z n) = Some n.
Proof.
  cbn [exceeds_str_limit]. unfold PyStr.of_Z.
  rewrite <- (DecimalZ.of_to n) at 3.
  destruct n as [| p | p]; [reflexivity | |];
    cbn [Z.abs Z.to_int DecimalString.NilZero.string_of_int Z.of_int];
    pose proof (DecimalPos.Unsigned.to_uint_nonnil p) as Hn;
    rewrite (nilzero_nonnil _ Hn); intros X;
    destruct (py_int_digits _ (all_digits_uint (Pos.to_uint p))
                (string_of_uint_nonempty _ Hn)) as [Hpos Hneg];
    rewrite (int_digits_run _ (all_digits_uint (Pos.to_uint p))
               (string_of_uint_nonempty _ Hn)), X in Hpos, Hneg.
  - now rewrite Hpos, digits_val_uint.
  - cbn [option_map] in Hneg. now rewrite Hneg, digits_val_uint.
Qed.

(** A run of more digits than the interpreter converts is not read. *)
Lemma py_int_too_long (s : string) :
  all_digits s = true -> PyStr.exceeds_max_str_digits s = true ->
  py_int s = None /\ py_int (String "-" s) = None.
Proof.
  intros H X.
  assert (Hne : s <> "") by (intros ->; discriminate X).
  destruct (py_int_digits s H Hne) as [Hp Hn].
  rewrite (int_digits_run s H Hne), X in Hp, Hn. now split.
Qed.

End IntFacts.

(** ** Rendering of floats *)

Module FloatFacts.






Lemma length_app (s t : string) :
  String.length (s ++ t) = (String.length s + String.length t)%nat.
Proof. induction s as [| c r IH]; simpl; [reflexivity | now rewrite IH]. Qed.





(** *** The ten digits *)



(** *** Stripping trailing zeros gives a prefix *)




(** *** Cutting a digit string *)


(** *** The rendered text *)





End FloatFacts.





Lemma coerce_boolean_witness :
  p_type (param "Enabled" TBool "A switch.") = Some TBool
  /\ In (PyStr.lower "Yes") ["1"; "true"; "t"; "yes"; "y"; "on"]
  /\ coerce_param_value "Enabled" "Yes" (param "Enabled" TBool "A switch.") = Ok "1".
Proof.
  assert (Hin : In (PyStr.lower "Yes") ["1"; "true"; "t"; "yes"; "y"; "on"])
    by (simpl; tauto).
  split; [reflexivity |]. split; [exact Hin |].
  exact (proj1 (coerce_boolean "Enabled" "Yes" (param "Enabled" TBool "A switch.") eq_refl)
           Hin).
Defined.

Lemma build_query_merge_order_witness :
  NoDup (dict_keys (ParsedCommand.static_params center_command))
  /\ NoDup (dict_keys [ ("ScreenX", PStr "1"); ("tokenoverride", PStr "9") ])
  /\ dict_get "tokenoverride"
       (build_query center_command (PStr "1234")
          [ ("ScreenX", PStr "1"); ("tokenoverride", PStr "9") ] true)
     = Some (PStr "1").
Proof.
  assert (H1 : NoDup (dict_keys (ParsedCommand.static_params center_command)))
    by (simpl; nodup_strings).
  assert (H2 : NoDup (dict_keys [ ("ScreenX", PStr "1"); ("tokenoverride", PStr "9") ]))
    by (simpl; nodup_strings).
  split; [exact H1 |]. split; [exact H2 |].
  exact (proj1 (proj2 (proj2 (build_query_merge_order center_command (PStr "1234")
                                [ ("ScreenX", PStr "1"); ("tokenoverride", PStr "9") ]
                                H1 H2)))).
Defined.

(** ** The session of the subprocess backend *)

Lemma given_some (o : option string) (tok : string) :
  o = Some tok -> tok <> "" -> given o = Some tok.
Proof.
  intros -> H. unfold given, truthy.
  destruct (String.eqb tok "") eqn:E; [| reflexivity].
  apply String.eqb_eq in E. contradiction.
Qed.

Lemma given_inv (o : option string) (tok : string) :
  given o = Some tok -> o = Some tok /\ tok <> "".
Proof.
  unfold given, truthy. destruct o as [s |]; [| discriminate].
  destruct (String.eqb s "") eqn:E; simpl; [discriminate |].
  intros H. injection H as ->. apply String.eqb_neq in E. tauto.
Qed.

Lemma truthy_str (s : string) : truthy (PStr s) = true <-> s <> "".
Proof.
  unfold truthy. destruct (String.eqb s "") eqn:E; simpl.
  - apply String.eqb_eq in E. split; [discriminate | contradiction].
  - apply String.eqb_neq in E. tauto.
Qed.

Section SubprocessSession.
Context {P : Platform}.
Import CameraControl.

Implicit Types (o : CameraControl.t) (tr : list event).

(** The guard of [authenticate] holds exactly for a present token that is
    no older than the timeout. *)
Lemma session_usable_iff o tr :
  fst (session_usable false (mkSys o tr)) = true <->
  (exists tok, session_id o = Some tok /\ tok <> "")
  /\ (clock tr - last_auth_time o <= SESSION_TIMEOUT o)%Q.
Proof.
  unfold session_usable, _is_session_expired. unfold_sys. simpl.
  destruct (given (session_id o)) as [tok |] eqn:G; simpl.
  - apply given_inv in G. rewrite negb_involutive, Qle_bool_iff.
    split; [intros H; split; [now exists tok | exact H] | tauto].
  - split; [discriminate |]. intros [(tok & Ht & Hne) _].
    rewrite (given_some _ _ Ht Hne) in G. discriminate.
Qed.

(** With a usable session, [authenticate()] reads the clock and does
    nothing else. *)
Lemma authenticate_noop o tr tok :
  session_id o = Some tok -> tok <> "" ->
  (clock tr - last_auth_time o <= SESSION_TIMEOUT o)%Q ->
  authenticate false (mkSys o tr) = (true, mkSys o (tr ++ [Time (clock tr)])).
Proof.
  intros Ht Hne Hq.
  unfold authenticate, session_usable, _is_session_expired. unfold_sys. simpl.
  rewrite (given_some _ _ Ht Hne). simpl.
  apply Qle_bool_iff in Hq. now rewrite Hq.
Qed.

(** With a stale session, [authenticate()] reads the clock and runs the
    authentication script. *)
Lemma authenticate_stale o tr tok :
  session_id o = Some tok -> tok <> "" ->
  ~ (clock tr - last_auth_time o <= SESSION_TIMEOUT o)%Q ->
  exists rest,
    trace (snd (authenticate false (mkSys o tr)))
    = (tr ++ Time (clock tr)
          :: Popen [AUTHENTICATE_SCRIPT o; camera_ip o]
               (popen (tr ++ [Time (clock tr)]) [AUTHENTICATE_SCRIPT o; camera_ip o])
          :: rest)%list.
Proof.
  intros Ht Hne Hq.
  unfold authenticate, run_auth_script, session_usable, _is_session_expired.
  unfold_sys. simpl.
  rewrite (given_some _ _ Ht Hne). simpl.
  destruct (Qle_bool (clock tr - last_auth_time o) (SESSION_TIMEOUT o)) eqn:E.
  { apply Qle_bool_iff in E. contradiction. }
  simpl.
  destruct (popen (tr ++ [Time (clock tr)]) [AUTHENTICATE_SCRIPT o; camera_ip o])
    as [rc out err | detail]; simpl.
  - destruct (rc =? 0); simpl.
    + break_if; simpl; rewrite <- !app_assoc; simpl; eexists; reflexivity.
    + rewrite <- !app_assoc; simpl; eexists; reflexivity.
  - rewrite <- !app_assoc; simpl; eexists; reflexivity.
Qed.

(** A forced authentication whose script exits with status 0 and prints a
    token stores the token and the time of the exchange. *)
Lemma authenticate_forced_ok o tr out err :
  popen tr [AUTHENTICATE_SCRIPT o; camera_ip o] = PopenExit 0 out err ->
  PyStr.strip out <> "" ->
  let ev := Popen [AUTHENTICATE_SCRIPT o; camera_ip o] (PopenExit 0 out err) in
  let now := clock (tr ++ [ev]) in
  authenticate true (mkSys o tr)
  = (true, mkSys (set_last_auth_time now (set_session_id (Some (PyStr.strip out)) o))
             ((tr ++ [ev]) ++ [Time now])).
Proof.
  intros Hp Hne. unfold authenticate, run_auth_script, session_usable. unfold_sys. simpl.
  rewrite Hp. simpl. apply truthy_str in Hne. now rewrite Hne.
Qed.

End SubprocessSession.

(** ** The session of the HTTP backend *)

Section HttpSession.
Context {P : Platform}.
Import CameraControlAPI.

Implicit Types (o : CameraControlAPI.t) (tr : list event).

Lemma api_session_usable_iff o tr :
  fst (session_usable false (mkSys o tr)) = true <->
  truthy (session_id o) = true
  /\ (clock tr - _last_auth o <= session_timeout o)%Q.
Proof.
  unfold session_usable, _session_expired. unfold_sys. simpl.
  destruct (truthy (session_id o)); simpl.
  - rewrite negb_involutive, Qle_bool_iff. tauto.
  - split; [discriminate | intros [H _]; discriminate].
Qed.

Lemma api_authenticate_noop o tr :
  truthy (session_id o) = true ->
  (clock tr - _last_auth o <= session_timeout o)%Q ->
  authenticate false (mkSys o tr) = (Ok true, mkSys o (tr ++ [Time (clock tr)])).
Proof.
  intros Ht Hq.
  unfold authenticate, session_usable, _session_expired. unfold_sys. simpl.
  rewrite Ht. simpl. apply Qle_bool_iff in Hq. now rewrite Hq.
Qed.

Lemma api_authenticate_stale o tr base :
  truthy (session_id o) = true ->
  ~ (clock tr - _last_auth o <= session_timeout o)%Q ->
  _base_url o = Ok base ->
  exists rest,
    trace (snd (authenticate false (mkSys o tr)))
    = (tr ++ Time (clock tr)
          :: Urlopen (base ++ "?action=SERVERWhoAmI") (request_timeout o)
               (urlopen (tr ++ [Time (clock tr)]) (base ++ "?action=SERVERWhoAmI")
                  (request_timeout o))
          :: rest)%list.
Proof.
  intros Ht Hq Hb.
  unfold authenticate, who_am_i, session_usable, _session_expired, invalidate_session.
  unfold_sys. simpl. rewrite Ht. simpl.
  destruct (Qle_bool (clock tr - _last_auth o) (session_timeout o)) eqn:E.
  { apply Qle_bool_iff in E. contradiction. }
  simpl. rewrite Hb.
  destruct (urlopen _ _ _) as [payload | code reason | reason | cls detail]; simpl;
    try (rewrite <- !app_assoc; simpl; eexists; reflexivity).
  destruct (json_loads payload) as [data |]; simpl;
    try (rewrite <- !app_assoc; simpl; eexists; reflexivity).
  destruct (py_get2 data "SERVERWhoAmI" "Id") as [session |]; simpl;
    try (rewrite <- !app_assoc; simpl; eexists; reflexivity).
  break_if; simpl; rewrite <- !app_assoc; simpl; eexists; reflexivity.
Qed.

End HttpSession.

(** C6.  In both backends a session is usable iff a token is present and
    [now - issued_at <= timeout], where [now] is the clock reading taken by
    the call itself.  For a session authenticated at [t0] with timeout [T]:
    at time [t0 + T - 1] [authenticate()] only reads the clock and changes
    nothing; at time [t0 + T + 1] it goes on to the authentication
    exchange. *)
Theorem session_freshness {P : Platform} :
  (forall (o : CameraControl.t) (tr : list event),
     fst (CameraControl.session_usable false (mkSys o tr)) = true <->
     (exists tok, CameraControl.session_id o = Some tok /\ tok <> "")
     /\ (clock tr - CameraControl.last_auth_time o <= CameraControl.SESSION_TIMEOUT o)%Q)
  /\ (forall (o : CameraControl.t) (tr : list event) (tok : string) (t0 T : Q),
        CameraControl.session_id o = Some tok -> tok <> "" ->
        CameraControl.last_auth_time o = t0 -> CameraControl.SESSION_TIMEOUT o = T ->
        ((clock tr == t0 + T - 1)%Q ->
           CameraControl.authenticate false (mkSys o tr)
           = (true, mkSys o (tr ++ [Time (clock tr)])))
        /\ ((clock tr == t0 + T + 1)%Q ->
              exists outcome rest,
                trace (snd (CameraControl.authenticate false (mkSys o tr)))
                = (tr ++ Time (clock tr)
                      :: Popen [CameraControl.AUTHENTICATE_SCRIPT o; CameraControl.camera_ip o]
                           outcome
                      :: rest)%list))
  /\ (forall (o : CameraControlAPI.t) (tr : list event),
        fst (CameraControlAPI.session_usable false (mkSys o tr)) = true <->
        truthy (CameraControlAPI.session_id o) = true
        /\ (clock tr - CameraControlAPI._last_auth o <= CameraControlAPI.session_timeout o)%Q)
  /\ (forall (o : CameraControlAPI.t) (tr : list event) (base : string) (t0 T : Q),
        truthy (CameraControlAPI.session_id o) = true ->
        CameraControlAPI._last_auth o = t0 -> CameraControlAPI.session_timeout o = T ->
        CameraControlAPI._base_url o = Ok base ->
        ((clock tr == t0 + T - 1)%Q ->
           CameraControlAPI.authenticate false (mkSys o tr)
           = (Ok true, mkSys o (tr ++ [Time (clock tr)])))
        /\ ((clock tr == t0 + T + 1)%Q ->
              exists outcome rest,
                trace (snd (CameraControlAPI.authenticate false (mkSys o tr)))
                = (tr ++ Time (clock tr)
                      :: Urlopen (base ++ "?action=SERVERWhoAmI")
                           (CameraControlAPI.request_timeout o) outcome
                      :: rest)%list)).
Proof.
  split; [exact session_usable_iff |].
  split; [| split; [exact api_session_usable_iff |]].
  - intros o tr tok t0 T Ht Hne H0 HT. split; intros Hc.
    + apply (authenticate_noop o tr tok Ht Hne). rewrite H0, HT, Hc. lra.
    + destruct (authenticate_stale o tr tok Ht Hne) as [rest E].
      * rewrite H0, HT, Hc. lra.
      * eexists. exists rest. exact E.
  - intros o tr base t0 T Ht H0 HT Hb. split; intros Hc.
    + apply (api_authenticate_noop o tr Ht). rewrite H0, HT, Hc. lra.
    + destruct (api_authenticate_stale o tr base Ht) as [rest E].
      * rewrite H0, HT, Hc. lra.
      * exact Hb.
      * eexists. exists rest. exact E.
Qed.

(** ** What one call of [authenticate] does (subprocess backend) *)

Section SubprocessAuthenticate.
Context {P : Platform}.
Import CameraControl.

(** The script either fails, leaving no usable token and the issue time
    untouched, or succeeds, storing the new token and the time of the
    exchange. *)
Lemma run_auth_script_effect (s : Sys CameraControl.t) :
  let r := run_auth_script s in
  exists evs,
    trace (snd r) = (trace s ++ evs)%list
    /\ count is_run evs = O
    /\ count is_popen evs = 1%nat
    /\ ((fst r = false
         /\ given (session_id (self (snd r))) = None
         /\ last_auth_time (self (snd r)) = last_auth_time (self s))
        \/ (fst r = true
            /\ exists tok t,
                 tok <> ""
                 /\ self (snd r) = set_last_auth_time t (set_session_id (Some tok) (self s))
                 /\ In (Time t) evs)).
Proof.
  destruct s as [o tr]. unfold run_auth_script. unfold_sys. simpl.
  destruct (popen tr [AUTHENTICATE_SCRIPT o; camera_ip o]) as [rc out err | detail]; simpl.
  - destruct (rc =? 0); simpl.
    + destruct (truthy (PStr (PyStr.strip out))) eqn:Tk; simpl.
      * eexists. rewrite <- !app_assoc. split; [reflexivity |].
        split; [reflexivity |]. split; [reflexivity |]. right.
        split; [reflexivity |].
        eexists. eexists. split; [apply truthy_str; exact Tk |].
        split; [reflexivity |]. simpl. tauto.
      * eexists. split; [reflexivity |].
        split; [reflexivity |]. split; [reflexivity |]. left.
        split; [reflexivity |]. split; [| reflexivity].
        unfold given. now rewrite Tk.
    + eexists. split; [reflexivity |].
      split; [reflexivity |]. split; [reflexivity |]. left. repeat split; reflexivity.
  - eexists. split; [reflexivity |].
    split; [reflexivity |]. split; [reflexivity |]. left. repeat split; reflexivity.
Qed.

Lemma count_app (p : event -> bool) (a b : list event) :
  count p (a ++ b) = (count p a + count p b)%nat.
Proof. unfold count. now rewrite filter_app, length_app. Qed.

(** The three ways [authenticate] can end: nothing but a clock reading
    (usable session); failure after one exchange; success after one
    exchange. *)
Lemma authenticate_effect (force_auth : bool) (s : Sys CameraControl.t) :
  let r := authenticate force_auth s in
  exists evs,
    trace (snd r) = (trace s ++ evs)%list
    /\ count is_run evs = O
    /\ ((fst r = true /\ self (snd r) = self s /\ count is_popen evs = O)
        \/ (fst r = false
            /\ given (session_id (self (snd r))) = None
            /\ last_auth_time (self (snd r)) = last_auth_time (self s)
            /\ count is_popen evs = 1%nat)
        \/ (fst r = true
            /\ count is_popen evs = 1%nat
            /\ exists tok t,
                 tok <> ""
                 /\ self (snd r) = set_last_auth_time t (set_session_id (Some tok) (self s))
                 /\ In (Time t) evs)).
Proof.
  unfold authenticate, bind.
  destruct (session_usable force_auth s) as [usable s0] eqn:U.
  assert (Hs0 : self s0 = self s
                /\ exists pre, trace s0 = (trace s ++ pre)%list
                               /\ count is_run pre = O /\ count is_popen pre = O
                               /\ (usable = true -> pre = [Time (clock (trace s))])).
  { destruct s as [o tr]. revert U.
    unfold session_usable, _is_session_expired. unfold_sys. simpl.
    destruct force_auth; simpl.
    - intros U. injection U as <- <-. split; [reflexivity |].
      exists []. rewrite app_nil_r. repeat split; discriminate.
    - destruct (given (session_id o)); simpl; intros U; injection U as <- <-.
      + split; [reflexivity |]. exists [Time (clock tr)]. repeat split; reflexivity.
      + split; [reflexivity |]. exists []. rewrite app_nil_r. repeat split; discriminate. }
  destruct Hs0 as (Hself & pre & Htr & Hrun & Hpop & Hpre).
  destruct usable.
  - simpl. exists pre. split; [exact Htr |]. split; [exact Hrun |]. left. tauto.
  - destruct (run_auth_script_effect s0) as (evs & Et & Er & Ep & Hcase).
    cbv zeta in Et, Hcase.
    exists (pre ++ evs)%list. rewrite !count_app, Hrun, Hpop, Er, Ep.
    split; [rewrite Et, Htr; now rewrite app_assoc |]. split; [reflexivity |].
    right. destruct Hcase as [(Hf & Hg & Hl) | (Hf & tok & t & Hne & Hs & Hin)].
    + left. rewrite <- Hself. tauto.
    + right. split; [exact Hf |]. split; [reflexivity |].
      exists tok, t. rewrite <- Hself. repeat split; try assumption.
      apply in_or_app. now right.
Qed.

End SubprocessAuthenticate.

(** ** The five methods are instances of the one loop *)

Section Instances.
Context {P : Platform}.
Import CameraControl.

(** Each proof exposes the command of the current pass only, so that the
    induction hypothesis still speaks of the loop as a whole. *)
Ltac expose_command s cmd :=
  unfold bind, get_self, subprocess_run, ret; cbn [self trace];
  match goal with
  | c := ?body |- _ => change (c (self s)) with (body (self s))
  end.

Ltac by_cases IH :=
  repeat match goal with
         | |- context [match ?x with _ => _ end] => destruct x eqn:?
         end;
  try reflexivity; try discriminate; try apply IH.

Lemma get_degree_pos_loop_retry (attempts : list nat) : forall s,
  get_degree_pos_loop attempts s
  = retry_loop degree_command degree_output (Position PNone PNone) NoValue attempts s.
Proof.
  set (cmd := degree_command).
  induction attempts as [| attempt rest IH]; intros s; [reflexivity |].
  cbn [get_degree_pos_loop retry_loop]. expose_command s cmd.
  unfold degree_command, degree_output. by_cases IH.
Qed.

Lemma move_loop_retry (target_az target_el speed_az speed_el : pyval)
    (attempts : list nat) : forall s,
  move_loop target_az target_el speed_az speed_el attempts s
  = retry_loop (move_command target_az target_el speed_az speed_el) completed
      (Some false) None attempts s.
Proof.
  set (cmd := move_command target_az target_el speed_az speed_el).
  induction attempts as [| attempt rest IH]; intros s; [reflexivity |].
  cbn [move_loop retry_loop]. expose_command s cmd.
  unfold move_command, completed. by_cases IH.
Qed.

Lemma get_zoom_loop_retry (attempts : list nat) : forall s,
  get_zoom_loop attempts s = retry_loop zoom_command zoom_output None None attempts s.
Proof.
  set (cmd := zoom_command).
  induction attempts as [| attempt rest IH]; intros s; [reflexivity |].
  cbn [get_zoom_loop retry_loop]. expose_command s cmd.
  unfold zoom_command, zoom_output. by_cases IH.
Qed.

Lemma set_zoom_loop_retry (zoom : pyval) (attempts : list nat) : forall s,
  set_zoom_loop zoom attempts s
  = retry_loop (set_zoom_command zoom) completed (Some false) None attempts s.
Proof.
  set (cmd := set_zoom_command zoom).
  induction attempts as [| attempt rest IH]; intros s; [reflexivity |].
  cbn [set_zoom_loop retry_loop]. expose_command s cmd.
  unfold set_zoom_command, completed. by_cases IH.
Qed.

Lemma get_speed_loop_retry (attempts : list nat) : forall s,
  get_speed_loop attempts s = retry_loop speed_command speed_output None None attempts s.
Proof.
  set (cmd := speed_command).
  induction attempts as [| attempt rest IH]; intros s; [reflexivity |].
  cbn [get_speed_loop retry_loop]. expose_command s cmd.
  unfold speed_command, speed_output. by_cases IH.
Qed.

(** Each method is the initial [authenticate()] followed by the loop. *)
Lemma call_retry (m : method) (s : Sys CameraControl.t) :
  call m s
  = with_retry (script_command m) (script_output m) (on_failure m) (on_exhaustion m) s.
Proof.
  destruct m; cbn [call script_command script_output on_failure on_exhaustion];
    unfold get_degree_pos, move_camera_to_absolute_pos, get_zoom, set_zoom, get_speed,
      with_retry, bind;
    destruct (authenticate false s) as [[] ?]; cbn [negb]; try reflexivity.
  - apply get_degree_pos_loop_retry.
  - apply move_loop_retry.
  - apply get_zoom_loop_retry.
  - apply set_zoom_loop_retry.
  - apply get_speed_loop_retry.
Qed.

(** Every command line carries the token of the session it was built from. *)
Lemma script_command_token (m : method) (o : CameraControl.t) (argv : list string) :
  script_command m o = Some argv ->
  exists sid, session_id o = Some sid /\ nth_error argv 2 = Some sid.
Proof.
  destruct m; cbn [script_command];
    unfold degree_command, move_command, zoom_command, set_zoom_command, speed_command;
    intros H;
    repeat match type of H with
           | match ?x with _ => _ end = _ => destruct x eqn:?; try discriminate
           end;
    injection H as <-; eexists; split; reflexivity.
Qed.

End Instances.

(** ** The retry loop of the subprocess backend *)

Section SubprocessDispatch.
Context {P : Platform}.
Import CameraControl.

(** C10.  In [get_degree_pos], when the initial [authenticate()] succeeds
    and the script's standard output has no ['{'] on either attempt, both
    passes of the loop end in [continue]: the function returns the bare
    [None] (not a pair), the script has been run twice, and no
    authentication took place between the two runs. *)
Theorem get_degree_pos_without_json (s s1 : Sys CameraControl.t)
    (sid out1 out2 : string)
    (Hauth : authenticate false s = (true, s1))
    (Hsid : session_id (self s1) = Some sid)
    (Hrun1 : run (trace s1) [GET_DEGREE (self s1); camera_ip (self s1); sid]
             = RunCompleted out1)
    (Hfind1 : PyStr.find_char "{" out1 = None)
    (Hrun2 : run (trace s1 ++ [Run [GET_DEGREE (self s1); camera_ip (self s1); sid]
                                 (RunCompleted out1)])
               [GET_DEGREE (self s1); camera_ip (self s1); sid]
             = RunCompleted out2)
    (Hfind2 : PyStr.find_char "{" out2 = None) :
  let argv := [GET_DEGREE (self s1); camera_ip (self s1); sid] in
  let attempts := [Run argv (RunCompleted out1); Run argv (RunCompleted out2)] in
  get_degree_pos s = (NoValue, mkSys (self s1) (trace s1 ++ attempts))
  /\ (forall azimuth elevation, fst (get_degree_pos s) <> Position azimuth elevation)
  /\ count is_popen attempts = O
  /\ count is_run attempts = 2%nat.
Proof.
  intros argv attempts.
  assert (E : get_degree_pos s = (NoValue, mkSys (self s1) (trace s1 ++ attempts))).
  { unfold get_degree_pos, bind. rewrite Hauth. simpl.
    unfold_sys. rewrite Hsid. rewrite Hrun1, Hfind1.
    simpl. rewrite Hsid. simpl. rewrite Hrun2, Hfind2.
    simpl. now rewrite <- app_assoc. }
  split; [exact E |]. split; [| split; reflexivity].
  intros azimuth elevation. rewrite E. discriminate.
Qed.

End SubprocessDispatch.

Section SubprocessRetry.
Context {P : Platform}.
Import CameraControl.

Lemma settled_after (o1 o2 o3 : CameraControl.t) (evs1 evs2 : list event) :
  settled o1 evs1 o2 -> settled o2 evs2 o3 -> settled o1 (evs1 ++ evs2) o3.
Proof.
  intros H12 H23. destruct H23 as [-> | Hg | tok Ht Hne Hin].
  - destruct H12 as [-> | Hg | tok Ht Hne Hin].
    + now apply Unchanged.
    + now apply Unauthenticated.
    + apply (Reauthenticated _ _ _ tok); try assumption. apply in_or_app. now left.
  - now apply Unauthenticated.
  - apply (Reauthenticated _ _ _ tok); try assumption. apply in_or_app. now right.
Qed.

Lemma authenticate_settled (force_auth : bool) (s : Sys CameraControl.t) :
  let r := authenticate force_auth s in
  exists evs,
    trace (snd r) = (trace s ++ evs)%list
    /\ count is_run evs = O
    /\ (count is_popen evs <= 1)%nat
    /\ settled (self s) evs (self (snd r))
    /\ (fst r = false -> given (session_id (self (snd r))) = None).
Proof.
  destruct (authenticate_effect force_auth s) as (evs & Et & Er & Hcase).
  cbv zeta in *. exists evs. split; [exact Et |]. split; [exact Er |].
  destruct Hcase as [(Hf & Hs & Hp) | [(Hf & Hg & Hl & Hp) | (Hf & Hp & tok & t & Hne & Hs & Hin)]].
  - rewrite Hp, Hf. split; [lia |]. split; [now apply Unchanged | discriminate].
  - rewrite Hp. split; [lia |]. split; [now apply Unauthenticated | tauto].
  - rewrite Hp, Hf. split; [lia |]. split; [| discriminate].
    apply (Reauthenticated _ _ _ tok); try rewrite Hs; simpl;
      solve [reflexivity | assumption].
Qed.

Section Loop.
Context {A : Type}.
Variable command : CameraControl.t -> option (list string).
Variable on_output : string -> option A.
Variables failure fell_through : A.

Local Abbreviation loop := (retry_loop command on_output failure fell_through).

(** One pass of the loop, spelled out. *)
Lemma retry_loop_pass (attempt : nat) (rest : list nat) (o : CameraControl.t)
    (tr : list event) (argv : list string) :
  command o = Some argv ->
  let s1 := mkSys o (tr ++ [Run argv (run tr argv)]) in
  loop (attempt :: rest) (mkSys o tr)
  = match run tr argv with
    | RunCompleted output_str =>
        match on_output output_str with
        | Some v => (v, s1)
        | None => loop rest s1
        end
    | RunCalledProcessError _ _ =>
        if Nat.eqb attempt 0 then
          if fst (authenticate true s1)
          then loop rest (snd (authenticate true s1))
          else (failure, snd (authenticate true s1))
        else (failure, s1)
    | RunRaises _ => (failure, s1)
    end.
Proof.
  intros Hc s1. cbn [retry_loop].
  unfold bind at 1. unfold get_self at 1. cbn [self trace]. rewrite Hc.
  unfold bind at 1. unfold subprocess_run at 1. cbn [self trace]. fold s1.
  destruct (run tr argv); try reflexivity.
  - destruct (on_output stdout); reflexivity.
  - destruct (Nat.eqb attempt 0); [| reflexivity].
    unfold bind. destruct (authenticate true s1) as [[] s2]; reflexivity.
Qed.

Lemma retry_loop_skipped (attempt : nat) (rest : list nat) (s : Sys CameraControl.t) :
  command (self s) = None -> loop (attempt :: rest) s = (failure, s).
Proof.
  intros Hc. cbn [retry_loop]. unfold bind at 1. unfold get_self at 1. now rewrite Hc.
Qed.

(** The second pass of the loop runs the script at most once and never
    authenticates. *)
Lemma retry_last_attempt (s : Sys CameraControl.t) :
  exists evs,
    trace (snd (loop [1%nat] s)) = (trace s ++ evs)%list
    /\ (count is_run evs <= 1)%nat
    /\ count is_popen evs = O
    /\ self (snd (loop [1%nat] s)) = self s.
Proof.
  destruct (command (self s)) as [argv |] eqn:Hc.
  - destruct s as [o tr]. cbn [self] in Hc.
    rewrite (retry_loop_pass _ _ _ _ _ Hc). cbv zeta. cbn [Nat.eqb].
    exists [Run argv (run tr argv)].
    destruct (run tr argv) as [out | |]; try destruct (on_output out);
      unfold count; simpl; repeat split; lia.
  - rewrite (retry_loop_skipped _ _ _ Hc).
    exists []. rewrite app_nil_r. unfold count. simpl. repeat split; lia.
Qed.

(** The whole loop runs the script at most twice and authenticates at most
    once. *)
Lemma retry_loop_effect (s : Sys CameraControl.t) :
  exists evs,
    trace (snd (loop (seq 0 2) s)) = (trace s ++ evs)%list
    /\ (count is_run evs <= 2)%nat
    /\ (count is_popen evs <= 1)%nat
    /\ settled (self s) evs (self (snd (loop (seq 0 2) s))).
Proof.
  change (seq 0 2) with [0%nat; 1%nat].
  destruct (command (self s)) as [argv |] eqn:Hc.
  2:{ rewrite (retry_loop_skipped _ _ _ Hc).
      exists []. rewrite app_nil_r. unfold count. simpl.
      repeat split; try lia. now apply Unchanged. }
  destruct s as [o tr]. cbn [self] in Hc.
  rewrite (retry_loop_pass _ _ _ _ _ Hc). cbv zeta. cbn [Nat.eqb self trace].
  set (first := Run argv (run tr argv)).
  set (s1 := mkSys o (tr ++ [first])).
  assert (Hfirst : count is_run [first] = 1%nat /\ count is_popen [first] = O)
    by (split; reflexivity).
  destruct Hfirst as [Hr1 Hp1].
  assert (Hcont : exists evs,
             trace (snd (loop [1%nat] s1)) = (tr ++ evs)%list
             /\ (count is_run evs <= 2)%nat
             /\ (count is_popen evs <= 1)%nat
             /\ settled o evs (self (snd (loop [1%nat] s1)))).
  { destruct (retry_last_attempt s1) as (evs2 & Et2 & Er2 & Ep2 & Hself).
    exists ([first] ++ evs2)%list.
    split; [rewrite Et2; unfold s1; cbn [trace]; now rewrite <- app_assoc |].
    rewrite !count_app, Hr1, Hp1, Ep2. split; [lia |]. split; [lia |].
    rewrite Hself. now apply Unchanged. }
  destruct (run tr argv) as [out | rc err | detail].
  - destruct (on_output out); [| exact Hcont].
    exists [first]. rewrite Hr1, Hp1. simpl.
    repeat split; try lia. now apply Unchanged.
  - destruct (authenticate_settled true s1) as (evs1 & Et & Er & Ep & Hs & _).
    cbv zeta in *.
    destruct (authenticate true s1) as [ok s2]. simpl in Et, Hs. cbn [fst snd].
    destruct ok.
    + destruct (retry_last_attempt s2) as (evs2 & Et2 & Er2 & Ep2 & Hself).
      exists ([first] ++ evs1 ++ evs2)%list.
      split; [rewrite Et2, Et; now rewrite <- !app_assoc |].
      rewrite !count_app, Hr1, Hp1, Er, Ep2.
      split; [lia |]. split; [lia |].
      rewrite Hself.
      apply (settled_after o o (self s2) [first] (evs1 ++ evs2));
        [now apply Unchanged |].
      apply (settled_after o (self s2) (self s2) evs1 evs2);
        [exact Hs | now apply Unchanged].
    + exists ([first] ++ evs1)%list. cbn [fst snd].
      split; [rewrite Et; now rewrite <- !app_assoc |].
      rewrite !count_app, Hr1, Hp1, Er.
      split; [lia |]. split; [lia |].
      apply (settled_after o o (self s2) [first] evs1); [now apply Unchanged | exact Hs].
  - exists [first]. rewrite Hr1, Hp1. simpl.
    repeat split; try lia. now apply Unchanged.
Qed.

End Loop.

End SubprocessRetry.


(** ** What [authenticate] and [execute] do (HTTP backend) *)

Section HttpDispatch.
Context {P : Platform}.
Import CameraControlAPI.

Lemma api_settled_after (o1 o2 o3 : CameraControlAPI.t) (evs1 evs2 : list event) :
  api_settled o1 evs1 o2 -> api_settled o2 evs2 o3 -> api_settled o1 (evs1 ++ evs2) o3.
Proof.
  intros H12 H23. destruct H23 as [-> | Hs Hl | Ht Hin].
  - destruct H12 as [-> | Hs Hl | Ht Hin].
    + now apply ApiUnchanged.
    + now apply ApiInvalidated.
    + apply ApiReauthenticated; [assumption |]. apply in_or_app. now left.
  - now apply ApiInvalidated.
  - apply ApiReauthenticated; [assumption |]. apply in_or_app. now right.
Qed.

(** The three failures of the exchange that the code handles: the request
    fails with [HTTPError] or [URLError]; the body is not JSON; the token
    is missing or empty.  Each clears the token, resets the issue time and
    makes [authenticate] return [False]. *)
Lemma who_am_i_failure (o : CameraControlAPI.t) (tr : list event) (base : string) :
  _base_url o = Ok base ->
  let url := base ++ "?action=SERVERWhoAmI" in
  let outcome := urlopen tr url (request_timeout o) in
  (exists code reason, outcome = UrlHTTPError code reason)
  \/ (exists reason, outcome = UrlURLError reason)
  \/ (exists payload, outcome = UrlPayload payload /\ json_loads payload = None)
  \/ (exists payload data token,
        outcome = UrlPayload payload /\ json_loads payload = Some data
        /\ py_get2 data "SERVERWhoAmI" "Id" = Some token /\ truthy token = false) ->
  who_am_i (mkSys o tr)
  = (Ok false,
     mkSys (set_session PNone 0 o) (tr ++ [Urlopen url (request_timeout o) outcome])).
Proof.
  intros Hb url outcome H. subst outcome.
  unfold who_am_i, invalidate_session. unfold_sys. cbn [self trace]. rewrite Hb.
  cbn [self trace]. fold url.
  destruct H as [(code & reason & E) | [(reason & E) | [(payload & E & J)
                | (payload & data & token & E & J & G & T)]]];
    rewrite E; cbn [self trace]; try reflexivity.
  - now rewrite J.
  - now rewrite J, G, T.
Qed.

Lemma who_am_i_effect (s : Sys CameraControlAPI.t) :
  let r := who_am_i s in
  exists evs,
    trace (snd r) = (trace s ++ evs)%list
    /\ (count is_urlopen evs <= 1)%nat
    /\ ((exists e, fst r = Raise e /\ self (snd r) = self s)
        \/ (fst r = Ok false /\ self (snd r) = set_session PNone 0 (self s))
        \/ (fst r = Ok true
            /\ truthy (session_id (self (snd r))) = true
            /\ In (Time (_last_auth (self (snd r)))) evs)).
Proof.
  destruct s as [o tr]. unfold who_am_i, invalidate_session. unfold_sys. cbn [self trace].
  destruct (_base_url o) as [base | e].
  2:{ exists []. rewrite app_nil_r. split; [reflexivity |]. split; [unfold count; simpl; lia |].
      left. now exists e. }
  cbn [self trace].
  set (url := base ++ "?action=SERVERWhoAmI").
  set (ev := Urlopen url (request_timeout o) (urlopen tr url (request_timeout o))).
  assert (Hc : count is_urlopen [ev] = 1%nat) by reflexivity.
  destruct (urlopen tr url (request_timeout o)) as [payload | code reason | reason | cls detail];
    cbn [self trace fst snd].
  - destruct (json_loads payload) as [data |]; cbn [self trace fst snd].
    + destruct (py_get2 data "SERVERWhoAmI" "Id") as [token |]; cbn [self trace fst snd].
      * destruct (truthy token) eqn:T; cbn [negb self trace fst snd].
        -- exists [ev; Time (clock (tr ++ [ev]))].
           split; [now rewrite <- app_assoc |].
           split; [unfold count; simpl; lia |].
           right. right. split; [reflexivity |]. split; [exact T |]. simpl. tauto.
        -- exists [ev]. split; [reflexivity |]. split; [rewrite Hc; lia |].
           right. left. split; reflexivity.
      * exists [ev]. split; [reflexivity |]. split; [rewrite Hc; lia |].
        left. eexists. split; reflexivity.
    + exists [ev]. split; [reflexivity |]. split; [rewrite Hc; lia |].
      right. left. split; reflexivity.
  - exists [ev]. split; [reflexivity |]. split; [rewrite Hc; lia |].
    right. left. split; reflexivity.
  - exists [ev]. split; [reflexivity |]. split; [rewrite Hc; lia |].
    right. left. split; reflexivity.
  - exists [ev]. split; [reflexivity |]. split; [rewrite Hc; lia |].
    left. eexists. split; reflexivity.
Qed.

Lemma api_authenticate_effect (force : bool) (s : Sys CameraControlAPI.t) :
  let r := authenticate force s in
  exists evs,
    trace (snd r) = (trace s ++ evs)%list
    /\ (count is_urlopen evs <= 1)%nat
    /\ api_settled (self s) evs (self (snd r))
    /\ (fst r = Ok false -> self (snd r) = set_session PNone 0 (self s))
    /\ (fst r = Ok true -> truthy (session_id (self (snd r))) = true).
Proof.
  unfold authenticate, bind.
  destruct (session_usable force s) as [usable s0] eqn:U.
  assert (Hs0 : self s0 = self s
                /\ exists pre, trace s0 = (trace s ++ pre)%list
                               /\ count is_urlopen pre = O
                               /\ (usable = true -> truthy (session_id (self s)) = true)).
  { destruct s as [o tr]. revert U.
    unfold session_usable, _session_expired. unfold_sys. cbn [self trace].
    destruct force; cbn [self trace].
    - intros U. injection U as <- <-. split; [reflexivity |].
      exists []. rewrite app_nil_r. repeat split; discriminate.
    - destruct (truthy (session_id o)) eqn:T; cbn [self trace];
        intros U; injection U as <- <-.
      + split; [reflexivity |]. exists [Time (clock tr)]. repeat split; reflexivity.
      + split; [reflexivity |]. exists []. rewrite app_nil_r. repeat split; discriminate. }
  destruct Hs0 as (Hself & pre & Htr & Hpre & Husable).
  destruct usable.
  - cbn [fst snd ret]. exists pre. split; [exact Htr |]. split; [rewrite Hpre; lia |].
    split; [now apply ApiUnchanged |]. split; [discriminate |].
    intros _. rewrite Hself. now apply Husable.
  - destruct (who_am_i_effect s0) as (evs & Et & Ec & Hcase). cbv zeta in *.
    exists (pre ++ evs)%list. rewrite count_app, Hpre.
    split; [rewrite Et, Htr; now rewrite app_assoc |]. split; [lia |].
    rewrite <- Hself.
    destruct Hcase as [(e & Hf & Hs) | [(Hf & Hs) | (Hf & Ht & Hin)]]; rewrite Hf.
    + split; [rewrite Hs; now apply ApiUnchanged |]. split; discriminate.
    + split; [| split; [intros _; exact Hs | discriminate]].
      apply ApiInvalidated; rewrite Hs; reflexivity.
    + split; [| split; [discriminate | intros _; exact Ht]].
      apply ApiReauthenticated; [exact Ht |]. apply in_or_app. now right.
Qed.

(** [issue_request] is one exchange; it leaves the object alone. *)
Lemma issue_request_effect (url_base : string) (query : dict pyval) (timeout : Q)
    (s : Sys CameraControlAPI.t) :
  let url := url_base ++ "?" ++ urlencode query in
  let outcome := urlopen (trace s) url timeout in
  snd (issue_request url_base query timeout s)
  = mkSys (self s) (trace s ++ [Urlopen url timeout outcome])
  /\ fst (issue_request url_base query timeout s)
     = match outcome with
       | UrlHTTPError code reason => Raise (HTTPErrorFromCamera code reason)
       | UrlURLError reason => Raise (FailedToReachCamera reason)
       | UrlRaises cls detail => Raise (Uncaught cls detail)
       | UrlPayload payload =>
           match json_loads payload with
           | Some data => Ok data
           | None => Ok (PDict [("raw", PStr payload)])
           end
       end.
Proof.
  intros url outcome. unfold issue_request. unfold_sys. fold url. fold outcome.
  destruct outcome as [payload | | |]; try (split; reflexivity).
  destruct (json_loads payload); split; reflexivity.
Qed.

(** [execute] authenticates once, then sends the command at most once: a
    failed request is reported as it is, with no second authentication and
    no second request. *)
Lemma execute_effect (command_name : string) (params : dict pyval)
    (s : Sys CameraControlAPI.t) :
  let r := execute command_name params s in
  let a := authenticate false s in
  self (snd r) = self (snd a)
  /\ exists evs,
       trace (snd r) = (trace (snd a) ++ evs)%list
       /\ (List.length evs <= 1)%nat
       /\ count is_urlopen evs = List.length evs.
Proof.
  cbv zeta. unfold execute, bind.
  destruct (authenticate false s) as [auth s1]. cbn [snd].
  assert (Hnone : forall e : error,
             self (snd (ret (O := CameraControlAPI.t) (Raise (A := pyval) e) s1)) = self s1
             /\ exists evs,
                  trace (snd (ret (O := CameraControlAPI.t) (Raise (A := pyval) e) s1))
                  = (trace s1 ++ evs)%list
                  /\ (List.length evs <= 1)%nat
                  /\ count is_urlopen evs = List.length evs).
  { intros e. split; [reflexivity |]. exists []. rewrite app_nil_r.
    repeat split. simpl. lia. }
  destruct auth as [[] | e]; try apply Hnone.
  destruct (load_command command_name) as [parsed_command | e]; try apply Hnone.
  destruct (resolve_params parsed_command command_name params) as [coerced | e];
    try apply Hnone.
  unfold get_self. cbv beta iota zeta.
  destruct (_base_url (self s1)) as [base | e]; try apply Hnone.
  destruct (issue_request_effect base
              (build_query parsed_command (session_id (self s1)) coerced true)
              (request_timeout (self s1)) s1) as [Hs _].
  cbv zeta in Hs. rewrite Hs. cbn [self trace]. split; [reflexivity |].
  eexists. split; [reflexivity |]. split; [simpl; lia | reflexivity].
Qed.

End HttpDispatch.

Section HttpSingleAttempt.
Context {P : Platform}.
Import CameraControlAPI.

(** A request that fails is what [execute] raises; the session is the one
    [authenticate()] left. *)
Lemma execute_transport_failure (command_name : string) (params : dict pyval)
    (s s1 : Sys CameraControlAPI.t) (parsed_command : ParsedCommand.t)
    (coerced : dict pyval) (base : string) :
  authenticate false s = (Ok true, s1) ->
  load_command command_name = Ok parsed_command ->
  resolve_params parsed_command command_name params = Ok coerced ->
  _base_url (self s1) = Ok base ->
  let query := build_query parsed_command (session_id (self s1)) coerced true in
  let url := base ++ "?" ++ urlencode query in
  let outcome := urlopen (trace s1) url (request_timeout (self s1)) in
  let s2 := mkSys (self s1) (trace s1 ++ [Urlopen url (request_timeout (self s1)) outcome]) in
  (forall code reason,
     outcome = UrlHTTPError code reason ->
     execute command_name params s = (Raise (HTTPErrorFromCamera code reason), s2))
  /\ (forall reason,
        outcome = UrlURLError reason ->
        execute command_name params s = (Raise (FailedToReachCamera reason), s2)).
Proof.
  intros Ha Hl Hr Hb query url outcome s2.
  assert (E : execute command_name params s
              = issue_request base query (request_timeout (self s1)) s1).
  { unfold execute, bind. rewrite Ha, Hl, Hr. unfold get_self. cbv beta iota zeta.
    now rewrite Hb. }
  destruct (issue_request_effect base query (request_timeout (self s1)) s1) as [Hs Hf].
  cbv zeta in Hs, Hf. fold url in Hs, Hf. fold outcome in Hs, Hf. fold s2 in Hs.
  split.
  - intros code reason Ho. rewrite E. rewrite Ho in Hf.
    rewrite (surjective_pairing (issue_request _ _ _ _)). now rewrite Hs, Hf.
  - intros reason Ho. rewrite E. rewrite Ho in Hf.
    rewrite (surjective_pairing (issue_request _ _ _ _)). now rewrite Hs, Hf.
Qed.

End HttpSingleAttempt.

(** ** The loop around a forced authentication *)

Section SubprocessScenarios.
Context {P : Platform} {A : Type}.
Variable command : CameraControl.t -> option (list string).
Variable on_output : string -> option A.
Variables failure fell_through : A.
Import CameraControl.

Local Abbreviation loop := (retry_loop command on_output failure fell_through).
Local Abbreviation method_body := (with_retry command on_output failure fell_through).

(** A first run that exits with a non-zero status, followed by a forced
    authentication that succeeds: the second run decides the result. *)
Lemma retry_loop_reauthenticated (o : CameraControl.t) (tr : list event)
    (argv1 argv2 : list string) (rc : Z) (err out err' : string) :
  let first := Run argv1 (RunCalledProcessError rc err) in
  let auth := Popen [AUTHENTICATE_SCRIPT o; camera_ip o] (PopenExit 0 out err') in
  let tr2 := ((tr ++ [first]) ++ [auth])%list in
  let tr3 := (tr2 ++ [Time (clock tr2)])%list in
  let renewed := set_last_auth_time (clock tr2)
                   (set_session_id (Some (PyStr.strip out)) o) in
  let s3 := mkSys renewed (tr3 ++ [Run argv2 (run tr3 argv2)]) in
  command o = Some argv1 ->
  run tr argv1 = RunCalledProcessError rc err ->
  popen (tr ++ [first]) [AUTHENTICATE_SCRIPT o; camera_ip o] = PopenExit 0 out err' ->
  PyStr.strip out <> "" ->
  command renewed = Some argv2 ->
  loop (seq 0 2) (mkSys o tr)
  = match run tr3 argv2 with
    | RunCompleted output_str =>
        match on_output output_str with
        | Some v => (v, s3)
        | None => (fell_through, s3)
        end
    | RunCalledProcessError _ _ => (failure, s3)
    | RunRaises _ => (failure, s3)
    end.
Proof.
  intros first auth tr2 tr3 renewed s3 Hc1 Hrun1 Hpopen Htoken Hc2.
  change (seq 0 2) with [0%nat; 1%nat].
  rewrite (retry_loop_pass command on_output failure fell_through _ _ _ _ _ Hc1).
  cbv zeta. rewrite Hrun1. cbn [Nat.eqb]. fold first.
  rewrite (authenticate_forced_ok o (tr ++ [first]) out err' Hpopen Htoken).
  cbn [fst snd]. fold auth.
  change ((tr ++ [first]) ++ [auth])%list with tr2.
  change (tr2 ++ [Time (clock tr2)])%list with tr3.
  fold renewed.
  rewrite (retry_loop_pass command on_output failure fell_through _ _ _ _ _ Hc2).
  cbv zeta. cbn [Nat.eqb retry_loop]. fold s3.
  destruct (run tr3 argv2) as [output_str | |]; try reflexivity.
Qed.

(** Whatever the outside world answers, after the initial [authenticate()]
    a method runs its script at most twice and authenticates at most once. *)
Lemma with_retry_effect (s : Sys CameraControl.t) :
  exists evs,
    trace (snd (method_body s)) = (trace (snd (authenticate false s)) ++ evs)%list
    /\ (count is_run evs <= 2)%nat
    /\ (count is_popen evs <= 1)%nat.
Proof.
  unfold with_retry, bind.
  destruct (authenticate false s) as [ok s1]. destruct ok; cbn [negb snd].
  - destruct (retry_loop_effect command on_output failure fell_through s1)
      as (evs & Et & Er & Ep & _).
    exists evs. tauto.
  - exists []. rewrite app_nil_r. repeat split; unfold count; simpl; lia.
Qed.

Lemma with_retry_settled (s : Sys CameraControl.t) :
  exists evs,
    trace (snd (method_body s)) = (trace s ++ evs)%list
    /\ settled (self s) evs (self (snd (method_body s))).
Proof.
  unfold with_retry, bind.
  destruct (authenticate_settled false s) as (evs & Ea & _ & _ & Hset & _).
  cbv zeta in *.
  destruct (authenticate false s) as [ok s1]. cbn [fst snd] in *.
  destruct ok; cbn [negb].
  - destruct (retry_loop_effect command on_output failure fell_through s1)
      as (evs1 & Et & _ & _ & Hset1).
    exists (evs ++ evs1)%list.
    split; [rewrite Et, Ea; now rewrite app_assoc |].
    exact (settled_after _ _ _ evs evs1 Hset Hset1).
  - exists evs. split; [exact Ea | exact Hset].
Qed.

End SubprocessScenarios.

(** ** Two failures around a forced authentication *)

(** C2, as the code has it.  Subprocess backend, every method, once the
    initial [authenticate()] has succeeded: when the first run of the
    script fails with a non-zero exit status, the forced authentication
    succeeds, and the second run fails with a non-zero exit status as
    well, the call returns the method's failure value (it raises nothing,
    and the diagnostic is only printed) after exactly two runs of the
    script and exactly one authentication exchange.  Whatever the outside
    world answers, a method runs its script at most twice and
    authenticates at most once after the initial [authenticate()].  HTTP
    backend, [execute]: there is no second attempt to fail.  The command
    is sent at most once, and a request that fails is raised to the caller
    at once, as a [RuntimeError] whose text carries the diagnostic of the
    transport, after that one request and no forced authentication. *)
Theorem dispatch_double_failure {P : Platform} (m : method)
    (s s1 : Sys CameraControl.t) (argv1 argv2 : list string)
    (out err' err1 err2 : string) (rc1 rc2 : Z)
    (Hauth : CameraControl.authenticate false s = (true, s1))
    (Hcmd1 : script_command m (self s1) = Some argv1) :
  let o := self s1 in
  let first := Run argv1 (RunCalledProcessError rc1 err1) in
  let auth := Popen [CameraControl.AUTHENTICATE_SCRIPT o; CameraControl.camera_ip o]
                (PopenExit 0 out err') in
  let tr2 := ((trace s1 ++ [first]) ++ [auth])%list in
  let tr3 := (tr2 ++ [Time (clock tr2)])%list in
  let renewed := CameraControl.set_last_auth_time (clock tr2)
                   (CameraControl.set_session_id (Some (PyStr.strip out)) o) in
  let second := Run argv2 (RunCalledProcessError rc2 err2) in
  forall
    (Hrun1 : run (trace s1) argv1 = RunCalledProcessError rc1 err1)
    (Hpopen : popen (trace s1 ++ [first])
                [CameraControl.AUTHENTICATE_SCRIPT o; CameraControl.camera_ip o]
              = PopenExit 0 out err')
    (Htoken : PyStr.strip out <> "")
    (Hcmd2 : script_command m renewed = Some argv2)
    (Hrun2 : run tr3 argv2 = RunCalledProcessError rc2 err2),
  let evs := [first; auth; Time (clock tr2); second] in
  (call m s = (on_failure m, mkSys renewed (trace s1 ++ evs))
   /\ count is_run evs = 2%nat
   /\ count is_popen evs = 1%nat)
  /\ (forall m0 s0,
        exists evs0,
          trace (snd (call m0 s0))
          = (trace (snd (CameraControl.authenticate false s0)) ++ evs0)%list
          /\ (count is_run evs0 <= 2)%nat
          /\ (count is_popen evs0 <= 1)%nat)
  /\ (forall command_name params (s0 : Sys CameraControlAPI.t),
        exists sent,
          trace (snd (CameraControlAPI.execute command_name params s0))
          = (trace (snd (CameraControlAPI.authenticate false s0)) ++ sent)%list
          /\ (List.length sent <= 1)%nat)
  /\ (forall command_name params (s0 s0' : Sys CameraControlAPI.t) parsed_command
             coerced base,
        CameraControlAPI.authenticate false s0 = (Ok true, s0') ->
        load_command command_name = Ok parsed_command ->
        CameraControlAPI.resolve_params parsed_command command_name params = Ok coerced ->
        CameraControlAPI._base_url (self s0') = Ok base ->
        let query := build_query parsed_command
                       (CameraControlAPI.session_id (self s0')) coerced true in
        let url := base ++ "?" ++ urlencode query in
        let timeout := CameraControlAPI.request_timeout (self s0') in
        let outcome := urlopen (trace s0') url timeout in
        let failed := mkSys (self s0') (trace s0' ++ [Urlopen url timeout outcome]) in
        (forall code reason,
           outcome = UrlHTTPError code reason ->
           CameraControlAPI.execute command_name params s0
           = (Raise (HTTPErrorFromCamera code reason), failed)
           /\ class_of (HTTPErrorFromCamera code reason) = RuntimeError
           /\ message (HTTPErrorFromCamera code reason)
              = "HTTP error " ++ PyStr.of_Z code ++ " from camera: " ++ reason)
        /\ (forall reason,
              outcome = UrlURLError reason ->
              CameraControlAPI.execute command_name params s0
              = (Raise (FailedToReachCamera reason), failed)
              /\ class_of (FailedToReachCamera reason) = RuntimeError
              /\ message (FailedToReachCamera reason)
                 = "Failed to reach camera: " ++ reason)).
Proof.
  intros o first auth tr2 tr3 renewed second Hrun1 Hpopen Htoken Hcmd2 Hrun2 evs.
  split; [| split; [| split]];
    [| | | intros command_name params s0 s0' parsed_command coerced base Ha Hl Hr Hb;
           destruct (execute_transport_failure command_name params s0 s0' parsed_command
                       coerced base Ha Hl Hr Hb) as [Hhttp Hurl];
           cbv zeta in Hhttp, Hurl;
           split;
           [intros code reason Ho; split; [exact (Hhttp code reason Ho) | split; reflexivity]
           | intros reason Ho; split; [exact (Hurl reason Ho) | split; reflexivity]]].
  - split; [| split; reflexivity].
    rewrite call_retry. unfold with_retry, bind. rewrite Hauth. cbn [negb].
    destruct s1 as [o1 tr1]. cbn [self trace] in *. subst o.
    rewrite (retry_loop_reauthenticated _ _ _ _ o1 tr1 argv1 argv2 rc1 err1 out err'
               Hcmd1 Hrun1 Hpopen Htoken Hcmd2).
    fold first auth. fold tr2. fold tr3. rewrite Hrun2. fold second. fold renewed.
    f_equal. f_equal.
    unfold tr3, evs. generalize (clock tr2). intros t2.
    unfold tr2. rewrite <- !app_assoc. reflexivity.
  - intros m0 s0. rewrite call_retry. apply with_retry_effect.
  - intros command_name params s0.
    destruct (execute_effect command_name params s0) as (_ & sent & Et & Hl & _).
    exists sent. split; assumption.
Qed.

(** ** Retry after a failed command *)

(** C1, as the code has it.  Subprocess backend, every method, called with
    a usable session: when the first run of the script fails with a
    non-zero exit status, authentication is forced once; when it succeeds
    the script is run once more, with the new token; and when that run
    completes with an output the method accepts, the call returns what the
    method makes of it, after exactly one authentication exchange and two
    runs.  HTTP backend, [execute]: the command is sent at most once; a
    request that fails is raised to the caller and is followed by no
    authentication and no second request. *)
Theorem dispatch_retry {P : Platform} (m : method) (o : CameraControl.t)
    (tr : list event) (argv1 argv2 : list string) (tok err out err' out2 : string)
    (rc : Z) (v : returns m)
    (Htok : CameraControl.session_id o = Some tok) (Hne : tok <> "")
    (Hfresh : (clock tr - CameraControl.last_auth_time o
               <= CameraControl.SESSION_TIMEOUT o)%Q)
    (Hcmd1 : script_command m o = Some argv1) :
  let first := Run argv1 (RunCalledProcessError rc err) in
  let auth := Popen [CameraControl.AUTHENTICATE_SCRIPT o; CameraControl.camera_ip o]
                (PopenExit 0 out err') in
  let tr1 := (tr ++ [Time (clock tr)])%list in
  let tr2 := ((tr1 ++ [first]) ++ [auth])%list in
  let tr3 := (tr2 ++ [Time (clock tr2)])%list in
  let renewed := CameraControl.set_last_auth_time (clock tr2)
                   (CameraControl.set_session_id (Some (PyStr.strip out)) o) in
  let second := Run argv2 (RunCompleted out2) in
  forall
    (Hrun1 : run tr1 argv1 = RunCalledProcessError rc err)
    (Hpopen : popen (tr1 ++ [first])
                [CameraControl.AUTHENTICATE_SCRIPT o; CameraControl.camera_ip o]
              = PopenExit 0 out err')
    (Htoken : PyStr.strip out <> "")
    (Hcmd2 : script_command m renewed = Some argv2)
    (Hrun2 : run tr3 argv2 = RunCompleted out2)
    (Hout : script_output m out2 = Some v),
  let evs := [Time (clock tr); first; auth; Time (clock tr2); second] in
  (call m (mkSys o tr) = (v, mkSys renewed (tr ++ evs))
   /\ count is_popen evs = 1%nat
   /\ count is_run evs = 2%nat
   /\ nth_error argv1 2 = Some tok
   /\ nth_error argv2 2 = Some (PyStr.strip out))
  /\ (forall command_name params (s : Sys CameraControlAPI.t),
        let r := CameraControlAPI.execute command_name params s in
        let a := CameraControlAPI.authenticate false s in
        self (snd r) = self (snd a)
        /\ exists sent,
             trace (snd r) = (trace (snd a) ++ sent)%list
             /\ (List.length sent <= 1)%nat
             /\ count is_urlopen sent = List.length sent)
  /\ (forall command_name params (s s1 : Sys CameraControlAPI.t) parsed_command
             coerced base,
        CameraControlAPI.authenticate false s = (Ok true, s1) ->
        load_command command_name = Ok parsed_command ->
        CameraControlAPI.resolve_params parsed_command command_name params = Ok coerced ->
        CameraControlAPI._base_url (self s1) = Ok base ->
        let query := build_query parsed_command
                       (CameraControlAPI.session_id (self s1)) coerced true in
        let url := base ++ "?" ++ urlencode query in
        let timeout := CameraControlAPI.request_timeout (self s1) in
        let outcome := urlopen (trace s1) url timeout in
        let s2 := mkSys (self s1) (trace s1 ++ [Urlopen url timeout outcome]) in
        (forall code reason,
           outcome = UrlHTTPError code reason ->
           CameraControlAPI.execute command_name params s
           = (Raise (HTTPErrorFromCamera code reason), s2))
        /\ (forall reason,
              outcome = UrlURLError reason ->
              CameraControlAPI.execute command_name params s
              = (Raise (FailedToReachCamera reason), s2))).
Proof.
  intros first auth tr1 tr2 tr3 renewed second
    Hrun1 Hpopen Htoken Hcmd2 Hrun2 Hout evs.
  split; [| split].
  - split; [| split; [reflexivity | split; [reflexivity | split]]].
    + rewrite call_retry. unfold with_retry, bind.
      rewrite (authenticate_noop o tr tok Htok Hne Hfresh). cbn [negb]. fold tr1.
      rewrite (retry_loop_reauthenticated _ _ _ _ o tr1 argv1 argv2 rc err out err'
                 Hcmd1 Hrun1 Hpopen Htoken Hcmd2).
      fold first auth. fold tr2. fold tr3. rewrite Hrun2, Hout. fold second. fold renewed.
      f_equal. f_equal.
      unfold tr3, evs. generalize (clock tr2). intros t2.
      unfold tr2, tr1. rewrite <- !app_assoc. reflexivity.
    + destruct (script_command_token m o argv1 Hcmd1) as (sid & Hs & Hn). congruence.
    + destruct (script_command_token m renewed argv2 Hcmd2) as (sid & Hs & Hn).
      cbn in Hs. congruence.
  - intros command_name params s. apply execute_effect.
  - intros command_name params s s1 parsed_command coerced base Ha Hl Hr Hb.
    exact (execute_transport_failure command_name params s s1 parsed_command coerced base
             Ha Hl Hr Hb).
Qed.

(** ** Concrete runs *)

Lemma dispatch_retry_witness :
  CameraControl.session_id (camera_with_session "tok1" 0) = Some "tok1"
  /\ (@clock stale_then_ok [] - CameraControl.last_auth_time (camera_with_session "tok1" 0)
      <= CameraControl.SESSION_TIMEOUT (camera_with_session "tok1" 0))%Q
  /\ @script_output stale_then_ok GetDegreePos ("connecting... " ++ position_text)
     = Some (CameraControl.Position (PInt 90) (PInt (-3)))
  /\ fst (@CameraControl.get_degree_pos stale_then_ok
            (mkSys (camera_with_session "tok1" 0) []))
     = CameraControl.Position (PInt 90) (PInt (-3)).
Proof.
  assert (Hfresh : (@clock stale_then_ok []
                    - CameraControl.last_auth_time (camera_with_session "tok1" 0)
                    <= CameraControl.SESSION_TIMEOUT (camera_with_session "tok1" 0))%Q)
    by (apply Qle_bool_iff; reflexivity).
  assert (Hout : @script_output stale_then_ok GetDegreePos
                   ("connecting... " ++ position_text)
                 = Some (CameraControl.Position (PInt 90) (PInt (-3))))
    by (vm_compute; reflexivity).
  split; [reflexivity |]. split; [exact Hfresh |]. split; [exact Hout |].
  pose proof (@dispatch_retry stale_then_ok GetDegreePos (camera_with_session "tok1" 0) []
                ["get_degree.sh"; "169.254.50.183"; "tok1"] ["get_degree.sh"; "169.254.50.183"; "tok2"]
                "tok1" "session expired" (" tok2" ++ String (ascii_of_N 10) EmptyString)
                "" ("connecting... " ++ position_text) 1
                (CameraControl.Position (PInt 90) (PInt (-3)))
                eq_refl ltac:(discriminate) Hfresh eq_refl
                eq_refl eq_refl ltac:(discriminate) eq_refl eq_refl Hout) as H.
  destruct H as [[H _] _]. change (@call stale_then_ok GetDegreePos) with
    (@CameraControl.get_degree_pos stale_then_ok) in H. rewrite H. reflexivity.
Defined.

(** C1, counterexample to the claim as worded: [execute] with a usable
    session whose request cannot reach the camera.  The failure is raised
    after one request; there is no authentication exchange and no second
    request, and the session is left as it was. *)
Lemma execute_does_not_retry :
  let s := mkSys (api_with_session "tok1" 0) [] in
  let r := @CameraControlAPI.execute stale_then_ok "get_position" [] s in
  fst (@CameraControlAPI.session_usable stale_then_ok false s) = true
  /\ fst r = Raise (FailedToReachCamera "timed out")
  /\ count is_urlopen (trace (snd r)) = 1%nat
  /\ List.length (trace (snd r)) = 2%nat
  /\ self (snd r) = api_with_session "tok1" 0.
Proof.
  vm_compute. repeat split; reflexivity.
Qed.

(** C2, counterexample to the claim as worded: a camera that cannot be
    reached, and a client that holds a usable session.  [execute] raises
    after one request: there are not two transport calls and there is no
    forced authentication.  In the subprocess backend the same camera
    makes [move_camera_to_absolute_pos] return [False]: the double failure
    is a value, and no exception carries the diagnostic. *)
Lemma execute_fails_after_one_request :
  let s := mkSys (api_with_session "tok1" 0) [] in
  let r := @CameraControlAPI.execute always_failing "set_zoom"
             [("Magnification", PInt 2)] s in
  fst (@CameraControlAPI.session_usable always_failing false s) = true
  /\ fst r = Raise (FailedToReachCamera "timed out")
  /\ count is_urlopen (trace (snd r)) = 1%nat
  /\ List.length (trace (snd r)) = 2%nat
  /\ self (snd r) = api_with_session "tok1" 0
  /\ fst (@CameraControl.move_camera_to_absolute_pos always_failing
            (PInt 90) (PInt 10) (PInt 180) (PInt 180)
            (mkSys (camera_with_session "tok1" 0) []))
     = Some false.
Proof.
  vm_compute. repeat split; reflexivity.
Qed.

Lemma dispatch_double_failure_witness :
  @CameraControl.authenticate always_failing false
    (mkSys (camera_with_session "tok1" 0) [])
  = (true, mkSys (camera_with_session "tok1" 0) [Time 10])
  /\ fst (@CameraControl.move_camera_to_absolute_pos always_failing
            (PInt 90) (PInt 10) (PInt 180) (PInt 180)
            (mkSys (camera_with_session "tok1" 0) []))
     = Some false.
Proof.
  assert (Hauth : @CameraControl.authenticate always_failing false
                    (mkSys (camera_with_session "tok1" 0) [])
                  = (true, mkSys (camera_with_session "tok1" 0) [Time 10]))
    by (vm_compute; reflexivity).
  split; [exact Hauth |].
  pose proof (@dispatch_double_failure always_failing
                (MoveCameraToAbsolutePos (PInt 90) (PInt 10) (PInt 180) (PInt 180))
                (mkSys (camera_with_session "tok1" 0) [])
                (mkSys (camera_with_session "tok1" 0) [Time 10])
                ["move_to_pos.sh"; "169.254.50.183"; "tok1"; "90.00"; "10.00"; "180.00"; "180.00"]
                ["move_to_pos.sh"; "169.254.50.183"; "tok2"; "90.00"; "10.00"; "180.00"; "180.00"]
                (" tok2" ++ String (ascii_of_N 10) EmptyString) ""
                "device busy" "device busy" 1 1
                Hauth ltac:(vm_compute; reflexivity)
                eq_refl eq_refl ltac:(discriminate)
                ltac:(vm_compute; reflexivity) eq_refl) as H.
  destruct H as [[H _] _].
  change (@call always_failing
            (MoveCameraToAbsolutePos (PInt 90) (PInt 10) (PInt 180) (PInt 180)))
    with (@CameraControl.move_camera_to_absolute_pos always_failing
            (PInt 90) (PInt 10) (PInt 180) (PInt 180)) in H.
  rewrite H. reflexivity.
Defined.

Lemma get_degree_pos_without_json_witness :
  @CameraControl.authenticate banner_only false
    (mkSys (camera_with_session "tok1" 0) [])
  = (true, mkSys (camera_with_session "tok1" 0) [Time 10])
  /\ PyStr.find_char "{" "connecting..." = None
  /\ fst (@CameraControl.get_degree_pos banner_only
            (mkSys (camera_with_session "tok1" 0) []))
     = CameraControl.NoValue.
Proof.
  assert (Hauth : @CameraControl.authenticate banner_only false
                    (mkSys (camera_with_session "tok1" 0) [])
                  = (true, mkSys (camera_with_session "tok1" 0) [Time 10]))
    by (vm_compute; reflexivity).
  split; [exact Hauth |]. split; [reflexivity |].
  pose proof (@get_degree_pos_without_json banner_only
                (mkSys (camera_with_session "tok1" 0) [])
                (mkSys (camera_with_session "tok1" 0) [Time 10])
                "tok1" "connecting..." "connecting..."
                Hauth eq_refl eq_refl eq_refl eq_refl eq_refl) as H.
  destruct H as [H _]. rewrite H. reflexivity.
Defined.

Lemma session_freshness_witness :
  (@clock (auth_denied 119) [] == 0 + 120 - 1)%Q
  /\ @CameraControl.authenticate (auth_denied 119) false
       (mkSys (camera_with_session "tok1" 0) [])
     = (true, mkSys (camera_with_session "tok1" 0) [Time 119])
  /\ (@clock (auth_denied 121) [] == 0 + 120 + 1)%Q
  /\ (exists outcome rest,
        trace (snd (@CameraControl.authenticate (auth_denied 121) false
                      (mkSys (camera_with_session "tok1" 0) [])))
        = ([] ++ Time 121 :: Popen ["authenticate.sh"; FLIR2_IP] outcome :: rest)%list).
Proof.
  assert (H119 : (@clock (auth_denied 119) [] == 0 + 120 - 1)%Q) by reflexivity.
  assert (H121 : (@clock (auth_denied 121) [] == 0 + 120 + 1)%Q) by reflexivity.
  split; [exact H119 |]. split; [| split; [exact H121 |]].
  - exact (proj1 (proj1 (proj2 (@session_freshness (auth_denied 119)))
                    (camera_with_session "tok1" 0) [] "tok1" 0%Q 120%Q
                    eq_refl ltac:(discriminate) eq_refl eq_refl) H119).
  - exact (proj2 (proj1 (proj2 (@session_freshness (auth_denied 121)))
                    (camera_with_session "tok1" 0) [] "tok1" 0%Q 120%Q
                    eq_refl ltac:(discriminate) eq_refl eq_refl) H121).
Defined.

(** ** Failed authentication *)

Section FailedAuthentication.
Context {P : Platform}.

Lemma run_auth_script_failure (o : CameraControl.t) (tr : list event) :
  let argv := [CameraControl.AUTHENTICATE_SCRIPT o; CameraControl.camera_ip o] in
  let outcome := popen tr argv in
  ((exists rc out err, outcome = PopenExit rc out err /\ rc <> 0)
   \/ (exists detail, outcome = PopenRaises detail) ->
   CameraControl.authenticate true (mkSys o tr)
   = (false, mkSys (CameraControl.set_session_id None o) (tr ++ [Popen argv outcome])))
  /\ (forall out err,
        outcome = PopenExit 0 out err -> PyStr.strip out = "" ->
        CameraControl.authenticate true (mkSys o tr)
        = (false, mkSys (CameraControl.set_session_id (Some "") o)
                    (tr ++ [Popen argv outcome]))).
Proof.
  intros argv outcome. subst outcome.
  unfold CameraControl.authenticate, CameraControl.run_auth_script,
    CameraControl.session_usable.
  unfold_sys. cbn [self trace]. fold argv.
  split.
  - intros [(rc & out & err & E & Hrc) | (detail & E)]; rewrite E; cbn [self trace].
    + apply Z.eqb_neq in Hrc. now rewrite Hrc.
    + reflexivity.
  - intros out err E Hempty. rewrite E. cbn [self trace Z.eqb negb].
    rewrite Hempty. reflexivity.
Qed.

Lemma execute_settled (command_name : string) (params : dict pyval)
    (s : Sys CameraControlAPI.t) :
  exists evs,
    trace (snd (CameraControlAPI.execute command_name params s)) = (trace s ++ evs)%list
    /\ api_settled (self s) evs (self (snd (CameraControlAPI.execute command_name params s))).
Proof.
  destruct (execute_effect command_name params s) as (Hself & sent & Et & _).
  destruct (api_authenticate_effect false s) as (evs & Ea & _ & Hset & _).
  cbv zeta in *. exists (evs ++ sent)%list.
  split; [rewrite Et, Ea; now rewrite app_assoc |].
  rewrite Hself.
  apply (api_settled_after _ _ _ evs sent Hset). now apply ApiUnchanged.
Qed.

End FailedAuthentication.

(** C9, as the code has it.  When the authentication exchange fails,
    [authenticate] returns failure and no usable token is left.  HTTP
    backend (request fails with [HTTPError] or [URLError], body is not
    JSON, token missing or empty): the token is cleared and the issue time
    is reset to 0.  Subprocess backend (script exits with a non-zero
    status or cannot be run, or prints no token): the token is cleared, or
    is the empty text, and the issue time keeps its previous value.  After
    a dispatch ([execute], or any method of the subprocess backend) the
    session is untouched, or has no usable token, or holds a token issued
    during the dispatch. *)
Theorem failed_authentication {P : Platform} :
  (forall (o : CameraControlAPI.t) (tr : list event) (base : string),
     CameraControlAPI._base_url o = Ok base ->
     let url := base ++ "?action=SERVERWhoAmI" in
     let outcome := urlopen tr url (CameraControlAPI.request_timeout o) in
     (exists code reason, outcome = UrlHTTPError code reason)
     \/ (exists reason, outcome = UrlURLError reason)
     \/ (exists payload, outcome = UrlPayload payload /\ json_loads payload = None)
     \/ (exists payload data token,
           outcome = UrlPayload payload /\ json_loads payload = Some data
           /\ py_get2 data "SERVERWhoAmI" "Id" = Some token /\ truthy token = false) ->
     CameraControlAPI.authenticate true (mkSys o tr)
     = (Ok false,
        mkSys (CameraControlAPI.set_session PNone 0 o)
          (tr ++ [Urlopen url (CameraControlAPI.request_timeout o) outcome])))
  /\ (forall force (s : Sys CameraControlAPI.t),
        fst (CameraControlAPI.authenticate force s) = Ok false ->
        CameraControlAPI.session_id (self (snd (CameraControlAPI.authenticate force s)))
        = PNone
        /\ CameraControlAPI._last_auth (self (snd (CameraControlAPI.authenticate force s)))
           = 0%Q)
  /\ (forall (o : CameraControl.t) (tr : list event),
        let argv := [CameraControl.AUTHENTICATE_SCRIPT o; CameraControl.camera_ip o] in
        let outcome := popen tr argv in
        ((exists rc out err, outcome = PopenExit rc out err /\ rc <> 0)
         \/ (exists detail, outcome = PopenRaises detail) ->
         CameraControl.authenticate true (mkSys o tr)
         = (false, mkSys (CameraControl.set_session_id None o)
                     (tr ++ [Popen argv outcome])))
        /\ (forall out err,
              outcome = PopenExit 0 out err -> PyStr.strip out = "" ->
              CameraControl.authenticate true (mkSys o tr)
              = (false, mkSys (CameraControl.set_session_id (Some "") o)
                          (tr ++ [Popen argv outcome]))))
  /\ (forall force_auth (s : Sys CameraControl.t),
        fst (CameraControl.authenticate force_auth s) = false ->
        given (CameraControl.session_id
                 (self (snd (CameraControl.authenticate force_auth s)))) = None
        /\ CameraControl.last_auth_time
             (self (snd (CameraControl.authenticate force_auth s)))
           = CameraControl.last_auth_time (self s))
  /\ (forall command_name params (s : Sys CameraControlAPI.t),
        exists evs,
          trace (snd (CameraControlAPI.execute command_name params s))
          = (trace s ++ evs)%list
          /\ api_settled (self s) evs
               (self (snd (CameraControlAPI.execute command_name params s))))
  /\ (forall (m : method) (s : Sys CameraControl.t),
        exists evs,
          trace (snd (call m s)) = (trace s ++ evs)%list
          /\ settled (self s) evs (self (snd (call m s)))).
Proof.
  split; [| split; [| split; [| split; [| split]]]].
  - intros o tr base Hb url outcome H.
    exact (who_am_i_failure o tr base Hb H).
  - intros force s Hf.
    destruct (api_authenticate_effect force s) as (evs & _ & _ & _ & Hfalse & _).
    cbv zeta in Hfalse. rewrite (Hfalse Hf). split; reflexivity.
  - intros o tr. exact (run_auth_script_failure o tr).
  - intros force_auth s Hf.
    destruct (authenticate_effect force_auth s) as (evs & _ & _ & Hcase).
    cbv zeta in Hcase.
    destruct Hcase as [(Ht & _) | [(_ & Hg & Hl & _) | (Ht & _)]];
      [congruence | tauto | congruence].
  - exact execute_settled.
  - intros m s. rewrite call_retry. apply with_retry_settled.
Qed.

Lemma failed_authentication_witness :
  CameraControlAPI._base_url (api_with_session "tok1" 0)
  = Ok "http://169.254.50.183:80/Nexus.cgi"
  /\ @CameraControlAPI.authenticate (auth_denied 500) true
       (mkSys (api_with_session "tok1" 0) [])
     = (Ok false,
        mkSys (CameraControlAPI.set_session PNone 0 (api_with_session "tok1" 0))
          [Urlopen "http://169.254.50.183:80/Nexus.cgi?action=SERVERWhoAmI" 5
             (UrlHTTPError 401 "Unauthorized")]).
Proof.
  split; [reflexivity |].
  exact (proj1 (@failed_authentication (auth_denied 500))
           (api_with_session "tok1" 0) [] "http://169.254.50.183:80/Nexus.cgi" eq_refl
           (or_introl (ex_intro _ 401 (ex_intro _ "Unauthorized" eq_refl)))).
Defined.

(** C9, counterexample to the claim as worded: the subprocess backend with
    a session issued at time 100, asked at time 500, whose authentication
    script exits with status 1.  [authenticate] fails and clears the token,
    and the issue time is still 100, not reset.  And a dispatch that fails
    twice around a successful forced authentication ends with the new
    token [tok2], issued at time 10: neither the previous session nor an
    unauthenticated one. *)
Lemma failed_script_keeps_issue_time :
  let s := mkSys (camera_with_session "tok1" 100) [] in
  let r := @CameraControl.authenticate (auth_denied 500) false s in
  let s' := mkSys (camera_with_session "tok1" 0) [] in
  let r' := @CameraControl.move_camera_to_absolute_pos always_failing
              (PInt 90) (PInt 10) (PInt 180) (PInt 180) s' in
  (fst r = false
   /\ CameraControl.session_id (self (snd r)) = None
   /\ CameraControl.last_auth_time (self (snd r)) = 100%Q
   /\ ~ (CameraControl.last_auth_time (self (snd r)) == 0)%Q)
  /\ (fst r' = Some false
      /\ CameraControl.session_id (self (snd r')) = Some "tok2"
      /\ CameraControl.last_auth_time (self (snd r')) = 10%Q).
Proof.
  vm_compute. repeat split; try reflexivity. discriminate.
Qed.


(* ================================================================== *)
(** * Further properties of the code *)
(* ================================================================== *)

(** ** [parse_param_pairs] *)








(** ** Integers as text *)


(** ** Coercion of the other parameter types *)

(** X3.  For a parameter of type [int] the text is read by [int] and written
    back in canonical decimal form: white space around it, a [+] sign,
    leading zeros and underscores between digits disappear.  What [int]
    has read, [str] writes: the digit limit of the interpreter is met when
    the text is read, never when the number is written back.  The text
    that [str] gives for an [int], as [execute] produces it, comes back
    unchanged.  A run of more digits than the limit is rejected with the
    invalid-value error, and so is a number padded with a separator (FS)
    that [str.strip] takes for white space and [int] does not. *)
Theorem coerce_int (pname : string) (spec : ParameterSpec)
    (Hint : p_type spec = Some TInt) :
  (forall value n,
     py_int value = Some n ->
     coerce_param_value pname value spec = Ok (PyStr.of_Z n)
     /\ str_of (PInt n) = Ok (PyStr.of_Z n))
  /\ (forall n text,
        str_of (PInt n) = Ok text ->
        py_int text = Some n /\ coerce_param_value pname text spec = Ok text)
  /\ (forall digits,
        all_digits digits = true ->
        PyStr.exceeds_max_str_digits digits = true ->
        coerce_param_value pname digits spec
        = Raise (InvalidParameterValue pname (CannotConvert digits "int")))
  /\ coerce_param_value pname " +007 " spec = Ok "7"
  /\ coerce_param_value pname "1_000" spec = Ok "1000"
  /\ coerce_param_value pname "-0" spec = Ok "0"
  /\ coerce_param_value pname (String (ascii_of_N 28) "7") spec
     = Raise (InvalidParameterValue pname
                (CannotConvert (String (ascii_of_N 28) "7") "int")).
Proof.
  assert (H : forall value n,
             py_int value = Some n ->
             coerce_param_value pname value spec = Ok (PyStr.of_Z n)).
  { intros value n E. unfold coerce_param_value. rewrite Hint.
    cbn [convert]. rewrite E. reflexivity. }
  assert (H' : forall value,
             py_int value = None ->
             coerce_param_value pname value spec
             = Raise (InvalidParameterValue pname (CannotConvert value "int"))).
  { intros value E. unfold coerce_param_value. rewrite Hint.
    cbn [convert]. rewrite E. reflexivity. }
  split; [| split; [| split]].
  - intros value n E. split; [exact (H value n E) |].
    unfold str_of. now rewrite (IntFacts.py_int_within value n E).
  - intros n text E. unfold str_of in E.
    destruct (exceeds_str_limit (PInt n)) eqn:X; [discriminate |].
    injection E as <-. cbn [py_str py_repr].
    pose proof (IntFacts.py_int_of_Z n X) as R. split; [exact R | exact (H _ _ R)].
  - intros digits Hd X. apply H'. exact (proj1 (IntFacts.py_int_too_long digits Hd X)).
  - split; [exact (H " +007 " 7 eq_refl) |].
    split; [exact (H "1_000" 1000 eq_refl) |].
    split; [exact (H "-0" 0 eq_refl) | exact (H' (String (ascii_of_N 28) "7") eq_refl)].
Qed.

Lemma coerce_int_witness :
  p_type (param "Azimuth_Speed" TInt "Desired azimuth speed setting.") = Some TInt
  /\ py_int " 1_2_3 " = Some 123
  /\ coerce_param_value "Azimuth_Speed" " 1_2_3 "
       (param "Azimuth_Speed" TInt "Desired azimuth speed setting.")
     = Ok "123".
Proof.
  split; [reflexivity |]. split; [reflexivity |].
  exact (proj1 (proj1 (coerce_int "Azimuth_Speed"
                         (param "Azimuth_Speed" TInt "Desired azimuth speed setting.")
                         eq_refl)
                  " 1_2_3 " 123 eq_refl)).
Defined.

(** X4.  Coercing is idempotent for every parameter type but [float]: a value
    that [coerce_param_value] returned is returned unchanged when it is
    coerced again.  (For [bool] the result is ["1"] or ["0"], both accepted
    inputs; for [int] it is a canonical decimal; a parameter of type [str],
    or without a type, is returned as given.) *)
Theorem coerce_idempotent (pname value wire : string) (spec : ParameterSpec)
    (Hty : p_type spec <> Some TFloat)
    (Hcoerced : coerce_param_value pname value spec = Ok wire) :
  coerce_param_value pname wire spec = Ok wire
  /\ (p_type spec = None \/ p_type spec = Some TStr -> wire = value)
  /\ (p_type spec = Some TBool -> wire = "1" \/ wire = "0").
Proof.
  unfold coerce_param_value in *.
  destruct (p_type spec) as [[| | |] |] eqn:T; try congruence; cbn [convert] in *.
  - (* int *)
    destruct (py_int value) as [n |] eqn:E; [| discriminate].
    cbn [option_map py_str py_repr] in Hcoerced. injection Hcoerced as <-.
    rewrite (IntFacts.py_int_of_Z n (IntFacts.py_int_within value n E)).
    cbn [option_map py_str py_repr].
    repeat split; intros; try discriminate. destruct H; discriminate.
  - (* str *)
    cbn [py_str] in *. injection Hcoerced as <-.
    repeat split; intros; try discriminate; reflexivity.
  - (* bool *)
    destruct (PyStr.mem (PyStr.lower value) truthy_inputs).
    + injection Hcoerced as <-. repeat split; intros; auto. destruct H; discriminate.
    + destruct (PyStr.mem (PyStr.lower value) falsy_inputs); [| discriminate].
      injection Hcoerced as <-. repeat split; intros; auto. destruct H; discriminate.
  - (* no type *)
    cbn [py_str] in *. injection Hcoerced as <-.
    repeat split; intros; try discriminate; reflexivity.
Qed.

Lemma coerce_idempotent_witness :
  coerce_param_value "Azimuth_Speed" " +007 "
    (param "Azimuth_Speed" TInt "Desired azimuth speed setting.") = Ok "7"
  /\ coerce_param_value "Azimuth_Speed" "7"
       (param "Azimuth_Speed" TInt "Desired azimuth speed setting.") = Ok "7".
Proof.
  split; [reflexivity |].
  exact (proj1 (coerce_idempotent "Azimuth_Speed" " +007 " "7"
                  (param "Azimuth_Speed" TInt "Desired azimuth speed setting.")
                  ltac:(discriminate) eq_refl)).
Defined.


(** ** Keys of the query *)

Lemma dict_update_keys {V : Type} (other : dict V) : forall d : dict V,
  exists added, dict_keys (dict_update d other) = (dict_keys d ++ added)%list.
Proof.
  unfold dict_update.
  induction other as [| [k v] rest IH]; intros d; cbn [fold_left fst snd].
  - exists []. now rewrite app_nil_r.
  - destruct (IH (dict_set k v d)) as [added E]. rewrite E, dict_keys_set.
    destruct (dict_mem k d).
    + now exists added.
    + exists (k :: added). now rewrite <- app_assoc.
Qed.

Lemma dict_update_nodup {V : Type} (other : dict V) : forall d : dict V,
  NoDup (dict_keys d) -> NoDup (dict_keys (dict_update d other)).
Proof.
  unfold dict_update.
  induction other as [| [k v] rest IH]; intros d H; cbn [fold_left fst snd];
    [exact H |].
  apply IH. now apply dict_set_nodup.
Qed.

(** X5.  Whatever the static and dynamic parameters are, the query that
    [build_query] returns has no key twice and begins with the keys
    [session] and [action], in that order: a parameter that uses one of
    these names replaces the value and leaves the key where it is. *)
Theorem build_query_keys (command : ParsedCommand.t) (session : pyval)
    (dynamic_params : dict pyval) (include_token_params : bool) :
  let query := build_query command session dynamic_params include_token_params in
  NoDup (dict_keys query)
  /\ (exists others, dict_keys query = "session" :: "action" :: others)
  /\ (dict_mem "session" (ParsedCommand.static_params command) = false ->
      dict_mem "session" dynamic_params = false ->
      dict_get "session" query = Some session)
  /\ (dict_mem "action" (ParsedCommand.static_params command) = false ->
      dict_mem "action" dynamic_params = false ->
      dict_get "action" query = Some (PStr (ParsedCommand.action command))).
Proof.
  intros query. subst query. unfold build_query.
  set (base := [("session", session); ("action", PStr (ParsedCommand.action command))]).
  set (q1 := dict_update base (ParsedCommand.static_params command)).
  set (q2 := dict_update q1 dynamic_params).
  assert (Hbase : NoDup (dict_keys base)) by (unfold base; cbn; nodup_strings).
  assert (H1 : NoDup (dict_keys q1)) by now apply dict_update_nodup.
  assert (H2 : NoDup (dict_keys q2)) by now apply dict_update_nodup.
  destruct (dict_update_keys (ParsedCommand.static_params command) base) as [a1 E1].
  destruct (dict_update_keys dynamic_params q1) as [a2 E2].
  destruct (dict_update_keys TOKEN_OVERRIDE_PARAMS q2) as [a3 E3].
  fold q1 in E1. fold q2 in E2.
  assert (Hget : forall k, dict_mem k (ParsedCommand.static_params command) = false ->
                           dict_mem k dynamic_params = false ->
                           dict_get k TOKEN_OVERRIDE_PARAMS = None ->
                           dict_get k (if include_token_params
                                       then dict_update q2 TOKEN_OVERRIDE_PARAMS else q2)
                           = dict_get k base).
  { intros k Hs Hd Ht. unfold dict_mem in Hs, Hd.
    destruct (dict_get k (ParsedCommand.static_params command)) eqn:Gs; [discriminate |].
    destruct (dict_get k dynamic_params) eqn:Gd; [discriminate |].
    assert (G2 : dict_get k q2 = dict_get k base).
    { unfold q2, q1. now rewrite !dict_get_update_absent. }
    destruct include_token_params; [| exact G2].
    now rewrite dict_get_update_absent. }
  split; [| split; [| split]].
  - destruct include_token_params; [now apply dict_update_nodup | exact H2].
  - destruct include_token_params.
    + rewrite E3, E2, E1. unfold base. cbn. eexists. reflexivity.
    + rewrite E2, E1. unfold base. cbn. eexists. reflexivity.
  - intros Hs Hd. now rewrite (Hget "session" Hs Hd eq_refl).
  - intros Hs Hd. now rewrite (Hget "action" Hs Hd eq_refl).
Qed.

(** ** The registered commands *)

Lemma dict_get_some_in {V : Type} (k : string) (d : dict V) (v : V) :
  dict_get k d = Some v -> In k (dict_keys d).
Proof.
  intros H. destruct (in_dec string_dec k (dict_keys d)) as [Hin | Hn]; [exact Hin |].
  apply dict_get_in_keys in Hn. congruence.
Qed.

Lemma dict_keys_app {V : Type} (a b : dict V) :
  dict_keys (a ++ b)%list = (dict_keys a ++ dict_keys b)%list.
Proof. apply map_app. Qed.

(** Merging a dictionary whose keys are new appends it. *)
Lemma dict_update_disjoint {V : Type} (other : dict V) : forall d : dict V,
  NoDup (dict_keys d ++ dict_keys other)%list -> dict_update d other = (d ++ other)%list.
Proof.
  unfold dict_update.
  induction other as [| [k v] rest IH]; intros d H; cbn [fold_left fst snd].
  - now rewrite app_nil_r.
  - cbn [dict_keys map fst] in H.
    assert (Hk : dict_get k d = None).
    { apply dict_get_in_keys. intros Hin.
      apply NoDup_remove_2 in H. apply H, in_or_app. now left. }
    rewrite (dict_set_fresh k v d Hk), IH.
    + now rewrite <- app_assoc.
    + rewrite dict_keys_app. cbn [dict_keys map fst]. now rewrite <- app_assoc.
Qed.

Section PlainParameters.
Variables (command_name : string) (params : dict pyval).

(** The loop of [execute] over parameters that are all required and have
    no default: on success every one of them was supplied, and they are
    stored in the order of declaration. *)
Lemma resolve_loop_keys (specs : list ParameterSpec) : forall coerced out,
  Forall (fun spec => p_default spec = None /\ p_required spec <> Some false) specs ->
  NoDup (dict_keys coerced ++ map p_name specs)%list ->
  CameraControlAPI.resolve_loop command_name specs params coerced = Ok out ->
  dict_keys out = (dict_keys coerced ++ map p_name specs)%list.
Proof.
  induction specs as [| spec rest IH]; intros coerced out Hplain Hnd H;
    cbn [CameraControlAPI.resolve_loop map] in *.
  - injection H as <-. now rewrite app_nil_r.
  - inversion Hplain as [| ? ? [Hdef Hreq] Hrest]; subst.
    destruct (dict_get (p_name spec) params) as [value |].
    + rendered H.
      destruct (coerce_param_value _ _ _) as [wire |]; [| discriminate].
      assert (Hfresh : dict_get (p_name spec) coerced = None).
      { apply dict_get_in_keys. intros Hin.
        apply NoDup_remove_2 in Hnd. apply Hnd, in_or_app. now left. }
      rewrite (dict_set_fresh _ _ _ Hfresh) in H.
      rewrite (IH _ _ Hrest) with (2 := H);
        rewrite dict_keys_app; cbn [dict_keys map fst]; rewrite <- app_assoc;
        [reflexivity | exact Hnd].
    + rewrite Hdef in H.
      destruct (p_required spec) as [[] |]; cbn [andb] in H; try discriminate.
      congruence.
Qed.

End PlainParameters.

(** What [constants.py] keeps to in every command it registers. *)
Lemma registry_well_formed (command_name : string) (parsed_command : ParsedCommand.t) :
  load_command command_name = Ok parsed_command ->
  Forall (fun spec => p_default spec = None /\ p_required spec <> Some false)
    (ParsedCommand.param_specs parsed_command)
  /\ NoDup (["session"; "action"]
              ++ dict_keys (ParsedCommand.static_params parsed_command)
              ++ map p_name (ParsedCommand.param_specs parsed_command)
              ++ ["tokenoverride"; "_"])%list.
Proof.
  unfold load_command, load_command_from. cbn [dict_get CAMERA_COMMANDS].
  intros H.
  repeat match type of H with
         | context [if ?b then _ else _] => destruct b
         end;
    try discriminate; injection H as <-; cbn;
    (split; [repeat constructor; discriminate | nodup_strings]).
Qed.

Lemma registered_command_facts (command_name : string)
    (parsed_command : ParsedCommand.t) (params coerced : dict pyval) (session : pyval)
    (Hcommand : load_command command_name = Ok parsed_command)
    (Hparams : CameraControlAPI.resolve_params parsed_command command_name params
               = Ok coerced) :
  dict_keys coerced = map p_name (ParsedCommand.param_specs parsed_command)
  /\ (forall k, In k (dict_keys params) <-> In k (dict_keys coerced))
  /\ (forall k v, dict_get k coerced = Some v ->
        exists value wire spec,
          dict_get k params = Some value
          /\ In spec (ParsedCommand.param_specs parsed_command) /\ p_name spec = k
          /\ coerce_param_value k (py_str value) spec = Ok wire
          /\ v = PStr wire)
  /\ build_query parsed_command session coerced true
     = ([("session", session); ("action", PStr (ParsedCommand.action parsed_command))]
          ++ ParsedCommand.static_params parsed_command
          ++ coerced
          ++ [("tokenoverride", PStr "1"); ("_", PStr "0")])%list.
Proof.
  destruct (registry_well_formed command_name parsed_command Hcommand) as [Hplain Hnd].
  set (specs := ParsedCommand.param_specs parsed_command) in *.
  set (static := ParsedCommand.static_params parsed_command) in *.
  assert (Hnames : NoDup (map p_name specs)).
  { change (NoDup (["session"; "action"] ++ dict_keys static ++ map p_name specs
                     ++ ["tokenoverride"; "_"])%list) in Hnd.
    apply NoDup_app_remove_l, NoDup_app_remove_l, NoDup_app_remove_r in Hnd. exact Hnd. }
  unfold CameraControlAPI.resolve_params in Hparams. fold specs in Hparams.
  destruct (CameraControlAPI.resolve_loop command_name specs params []) as [out |] eqn:L;
    [| discriminate].
  destruct (filter _ _) eqn:F; [| discriminate]. injection Hparams as <-.
  pose proof (resolve_loop_keys command_name params specs [] out Hplain Hnames L) as K.
  cbn [dict_keys map app] in K. fold (dict_keys out) in K.
  assert (Hentry : forall k v, dict_get k out = Some v ->
            exists value wire spec,
              dict_get k params = Some value
              /\ In spec specs /\ p_name spec = k
              /\ coerce_param_value k (py_str value) spec = Ok wire
              /\ v = PStr wire).
  { intros k v Hv. pose proof (dict_get_some_in k out v Hv) as Hin.
    rewrite K in Hin. apply in_map_iff in Hin. destruct Hin as (spec & <- & Hspec).
    pose proof (resolve_loop_entry command_name params specs [] out spec
                  Hnames Hspec L) as E.
    destruct (dict_get (p_name spec) params) as [value |].
    - destruct E as (wire & C & G). exists value, wire, spec.
      repeat split; try assumption. congruence.
    - destruct (Forall_forall (fun spec => p_default spec = None
                                           /\ p_required spec <> Some false) specs)
        as [Hall _].
      destruct (Hall Hplain spec Hspec) as [Hdef _]. rewrite Hdef in E.
      cbn [dict_get] in E. congruence. }
  split; [exact K |]. split; [| split; [exact Hentry |]].
  - intros k. rewrite K. split.
    + intros Hk.
      destruct (PyStr.mem k (map p_name specs)) eqn:M; [now apply mem_In |].
      assert (In k []) as [].
      rewrite <- F. apply filter_In. split; [exact Hk | now rewrite M].
    + intros Hk. rewrite <- K in Hk.
      destruct (dict_get k out) as [v |] eqn:G.
      * destruct (Hentry k v G) as (value & _ & _ & Hp & _).
        exact (dict_get_some_in k params value Hp).
      * apply dict_get_in_keys in G. contradiction.
  - unfold build_query. fold static.
    change (NoDup (["session"; "action"] ++ dict_keys static ++ map p_name specs
                     ++ ["tokenoverride"; "_"])%list) in Hnd.
    rewrite <- K in Hnd.
    set (base := [("session", session);
                  ("action", PStr (ParsedCommand.action parsed_command))]) in *.
    change ["session"; "action"] with (dict_keys base) in Hnd.
    change ["tokenoverride"; "_"] with (dict_keys TOKEN_OVERRIDE_PARAMS) in Hnd.
    rewrite (dict_update_disjoint static base).
    2:{ rewrite !app_assoc in Hnd.
        apply NoDup_app_remove_r, NoDup_app_remove_r in Hnd. exact Hnd. }
    rewrite (dict_update_disjoint out (base ++ static)%list).
    2:{ rewrite dict_keys_app. rewrite !app_assoc in Hnd.
        apply NoDup_app_remove_r in Hnd. exact Hnd. }
    rewrite (dict_update_disjoint TOKEN_OVERRIDE_PARAMS ((base ++ static) ++ out)%list).
    2:{ rewrite !dict_keys_app. rewrite !app_assoc in Hnd. exact Hnd. }
    now rewrite <- !app_assoc.
Qed.

(** X6.  For every command of [CAMERA_COMMANDS] and every set of parameters
    that [execute] accepts for it: the accepted parameters are exactly the
    declared ones (every declared parameter is required and none has a
    default), each as a text, in the order of declaration; and the query
    lists [session], [action], the static parameters, the parameters and
    the two override parameters, in this order, none replacing another. *)
Theorem registered_command_query (command_name : string)
    (parsed_command : ParsedCommand.t) (params coerced : dict pyval) (session : pyval)
    (Hcommand : load_command command_name = Ok parsed_command)
    (Hparams : CameraControlAPI.resolve_params parsed_command command_name params
               = Ok coerced) :
  dict_keys coerced = map p_name (ParsedCommand.param_specs parsed_command)
  /\ (forall k, In k (dict_keys params) <-> In k (dict_keys coerced))
  /\ (forall k v, dict_get k coerced = Some v ->
        exists value wire spec,
          dict_get k params = Some value
          /\ In spec (ParsedCommand.param_specs parsed_command) /\ p_name spec = k
          /\ coerce_param_value k (py_str value) spec = Ok wire
          /\ v = PStr wire)
  /\ build_query parsed_command session coerced true
     = ([("session", session); ("action", PStr (ParsedCommand.action parsed_command))]
          ++ ParsedCommand.static_params parsed_command
          ++ coerced
          ++ [("tokenoverride", PStr "1"); ("_", PStr "0")])%list.
Proof.
  exact (registered_command_facts command_name parsed_command params coerced session
           Hcommand Hparams).
Qed.

Lemma registered_command_query_witness :
  load_command "center" = Ok center_command
  /\ build_query center_command (PStr "tok1")
       [("ScreenX", PStr "1.5"); ("ScreenY", PStr "2")] true
     = [("session", PStr "tok1"); ("action", PStr "PTAzimuthElevationOnScreenSet");
        ("Active_cam", PStr "0"); ("Cam_type", PStr "4"); ("Cam_id", PStr "0");
        ("ScreenX", PStr "1.5"); ("ScreenY", PStr "2");
        ("tokenoverride", PStr "1"); ("_", PStr "0")].
Proof.
  split; [reflexivity |].
  exact (proj2 (proj2 (proj2
           (registered_command_query "center" center_command
              [("ScreenY", PInt 2); ("ScreenX", PFloat (PyFloat.Fin false (3 * 2 ^ 51) (-52)))]
              [("ScreenX", PStr "1.5"); ("ScreenY", PStr "2")] (PStr "tok1")
              eq_refl ltac:(vm_compute; reflexivity))))).
Defined.


(** ** The text of a float is not the text of an integer *)

Module FloatText.

Lemma has_char_cons (c d : ascii) (r : string) :
  PyStr.has_char c (String d r) = Ascii.eqb c d || PyStr.has_char c r.
Proof.
  unfold PyStr.has_char. cbn [PyStr.find_char].
  destruct (Ascii.eqb c d); [reflexivity |]. now destruct (PyStr.find_char c r).
Qed.

Lemma has_char_app (c : ascii) (a b : string) :
  PyStr.has_char c (a ++ b) = PyStr.has_char c a || PyStr.has_char c b.
Proof.
  induction a as [| d a IH]; [reflexivity |].
  cbn [append]. rewrite !has_char_cons, IH. apply orb_assoc.
Qed.

(** A character that is neither a digit nor an underscore spoils a digit
    part wherever it stands. *)
Lemma digitpart_foreign (c : ascii) (s : string) :
  PyStr.is_digit c = false -> Ascii.eqb c "_" = false ->
  PyStr.has_char c s = true -> forall prev, PyStr.digitpart prev s = None.
Proof.
  intros Hd Hu. induction s as [| d r IH]; [discriminate |].
  rewrite has_char_cons. intros H prev. cbn [PyStr.digitpart].
  destruct (Ascii.eqb c d) eqn:E.
  - apply Ascii.eqb_eq in E. subst d. now rewrite Hd, Hu.
  - cbn [orb] in H.
    destruct (PyStr.is_digit d); [now rewrite (IH H) |].
    destruct (Ascii.eqb d "_"); [| reflexivity].
    destruct prev; [| reflexivity].
    destruct r as [| e r]; [reflexivity |].
    destruct (PyStr.is_digit e); [now apply IH | reflexivity].
Qed.

Lemma has_char_lstrip (c : ascii) (s : string) :
  PyStr.is_c_space c = false ->
  PyStr.has_char c s = true -> PyStr.has_char c (PyStr.c_lstrip s) = true.
Proof.
  intros Hs. induction s as [| d r IH]; [discriminate |].
  cbn [PyStr.c_lstrip]. intros H.
  destruct (PyStr.is_c_space d) eqn:Sd; [| exact H].
  apply IH. rewrite has_char_cons in H.
  destruct (Ascii.eqb c d) eqn:E; [| exact H].
  apply Ascii.eqb_eq in E. congruence.
Qed.

Lemma has_char_rstrip (c : ascii) (s : string) :
  PyStr.is_c_space c = false ->
  PyStr.has_char c s = true -> PyStr.has_char c (PyStr.c_rstrip s) = true.
Proof.
  intros Hs. induction s as [| d r IH]; [discriminate |].
  rewrite has_char_cons. cbn [PyStr.c_rstrip]. intros H.
  destruct (Ascii.eqb c d) eqn:E.
  - apply Ascii.eqb_eq in E. subst d.
    destruct (PyStr.c_rstrip r); [rewrite Hs |]; rewrite has_char_cons;
      now rewrite Ascii.eqb_refl.
  - cbn [orb] in H. specialize (IH H).
    destruct (PyStr.c_rstrip r); [discriminate |].
    rewrite has_char_cons, IH. apply orb_true_r.
Qed.

Lemma int_digits_foreign (c : ascii) (s : string) :
  PyStr.is_digit c = false -> Ascii.eqb c "_" = false ->
  PyStr.has_char c s = true -> int_digits s = None.
Proof.
  intros Hd Hu H. unfold int_digits. now rewrite (digitpart_foreign c s Hd Hu H).
Qed.

(** [int(s)] raises when [s] has a character that is no digit, white
    space, underscore or sign. *)
Lemma py_int_foreign (c : ascii) (s : string) :
  PyStr.is_digit c = false -> PyStr.is_c_space c = false ->
  Ascii.eqb c "_" = false -> Ascii.eqb c "+" = false -> Ascii.eqb c "-" = false ->
  PyStr.has_char c s = true -> py_int s = None.
Proof.
  intros Hd Hs Hu Hplus Hminus H.
  assert (H' : PyStr.has_char c (PyStr.c_strip s) = true)
    by now apply has_char_rstrip, has_char_lstrip.
  unfold py_int.
  pose proof (int_digits_foreign c (PyStr.c_strip s) Hd Hu H') as Hall.
  destruct (PyStr.c_strip s) as [| d r] eqn:E; [exact Hall |].
  assert (Hrest : Ascii.eqb c d = false -> int_digits r = None).
  { intros Hcd. rewrite has_char_cons, Hcd in H'.
    now apply (int_digits_foreign c). }
  destruct (Ascii.eqb d "+") eqn:Ep.
  { apply Ascii.eqb_eq in Ep. subst d. exact (Hrest Hplus). }
  destruct (Ascii.eqb d "-") eqn:Em.
  { apply Ascii.eqb_eq in Em. subst d. now rewrite (Hrest Hminus). }
  destruct d as [[] [] [] [] [] [] [] []]; try discriminate; exact Hall.
Qed.

Lemma has_e_scientific (c : ascii) (r : string) (x : Z) :
  PyStr.has_char "e" (PyFloat.scientific (String c r) x) = true.
Proof.
  destruct r as [| d r]; cbn [PyFloat.scientific].
  - rewrite has_char_cons. unfold PyFloat.exponent. rewrite has_char_cons.
    apply orb_true_r.
  - rewrite has_char_app. unfold PyFloat.exponent. rewrite (has_char_cons "e" "e").
    apply orb_true_r.
Qed.

(** [int(repr(x))] raises for every float [x]: the text has a decimal
    point, an exponent mark, or is [nan] or [inf]. *)
Lemma py_int_repr (x : PyFloat.t) : py_int (PyFloat.repr x) = None.
Proof.
  destruct x as [| neg | neg m e]; cbn [PyFloat.repr].
  - reflexivity.
  - now destruct neg.
  - destruct (m =? 0); [now destruct neg |].
    destruct (PyFloat.shortest neg m e 1 16) as [d x].
    destruct ((x <? -4) || (16 <=? x)).
    + destruct (PyFloat.strip_zeros (PyStr.of_Z d)) as [| c r].
      * now destruct neg.
      * apply (py_int_foreign "e"); try reflexivity.
        rewrite has_char_app, has_e_scientific. apply orb_true_r.
    + destruct (PyFloat.fixed _ x) as [ip fp].
      apply (py_int_foreign "."); try reflexivity.
      destruct fp; rewrite !has_char_app; cbn; rewrite ?orb_true_r; reflexivity.
Qed.

End FloatText.


(** ** One command of the HTTP backend, request by request *)

Section HttpCommand.
Context {P : Platform}.
Import CameraControlAPI.

Lemma execute_authenticated (command_name : string) (params : dict pyval)
    (s s1 : Sys CameraControlAPI.t) (parsed_command : ParsedCommand.t)
    (coerced : dict pyval) (base : string) :
  authenticate false s = (Ok true, s1) ->
  load_command command_name = Ok parsed_command ->
  resolve_params parsed_command command_name params = Ok coerced ->
  _base_url (self s1) = Ok base ->
  execute command_name params s
  = issue_request base (build_query parsed_command (session_id (self s1)) coerced true)
      (request_timeout (self s1)) s1.
Proof.
  intros Ha Hl Hr Hb. unfold execute, bind. rewrite Ha, Hl, Hr. unfold get_self.
  cbv beta iota zeta. now rewrite Hb.
Qed.

Lemma who_am_i_success (o : CameraControlAPI.t) (tr : list event) (base payload : string)
    (data token : pyval) :
  _base_url o = Ok base ->
  let url := base ++ "?action=SERVERWhoAmI" in
  let whoami := Urlopen url (request_timeout o) (UrlPayload payload) in
  urlopen tr url (request_timeout o) = UrlPayload payload ->
  json_loads payload = Some data ->
  py_get2 data "SERVERWhoAmI" "Id" = Some token ->
  truthy token = true ->
  who_am_i (mkSys o tr)
  = (Ok true,
     mkSys (set_session token (clock (tr ++ [whoami])) o)
       ((tr ++ [whoami]) ++ [Time (clock (tr ++ [whoami]))])).
Proof.
  intros Hb url whoami Hu Hj Hid Ht.
  unfold who_am_i. unfold_sys. cbn [self trace]. rewrite Hb. cbn [self trace].
  fold url. rewrite Hu, Hj, Hid, Ht. reflexivity.
Qed.

(** X7.  With a usable session [execute] reads the clock and sends one request:
    the command, with the token it holds.  The session is not touched,
    whatever the answer. *)
Theorem execute_with_usable_session (command_name : string) (params : dict pyval)
    (o : CameraControlAPI.t) (tr : list event) (parsed_command : ParsedCommand.t)
    (coerced : dict pyval) (base : string)
    (Htoken : truthy (session_id o) = true)
    (Hfresh : (clock tr - _last_auth o <= session_timeout o)%Q)
    (Hcommand : load_command command_name = Ok parsed_command)
    (Hparams : resolve_params parsed_command command_name params = Ok coerced)
    (Hbase : _base_url o = Ok base) :
  let query := build_query parsed_command (session_id o) coerced true in
  let url := base ++ "?" ++ urlencode query in
  let tr1 := (tr ++ [Time (clock tr)])%list in
  let outcome := urlopen tr1 url (request_timeout o) in
  execute command_name params (mkSys o tr)
  = issue_request base query (request_timeout o) (mkSys o tr1)
  /\ snd (execute command_name params (mkSys o tr))
     = mkSys o (tr ++ [Time (clock tr); Urlopen url (request_timeout o) outcome])
  /\ dict_get "session" query = Some (session_id o).
Proof.
  intros query url tr1 outcome.
  assert (E : execute command_name params (mkSys o tr)
              = issue_request base query (request_timeout o) (mkSys o tr1)).
  { apply (execute_authenticated command_name params (mkSys o tr) (mkSys o tr1)
             parsed_command coerced base); try assumption.
    now apply api_authenticate_noop. }
  split; [exact E |]. split.
  - rewrite E.
    destruct (issue_request_effect base query (request_timeout o) (mkSys o tr1)) as [Hs _].
    cbv zeta in Hs. rewrite Hs. cbn [self trace]. unfold tr1.
    now rewrite <- app_assoc.
  - destruct (registered_command_facts command_name parsed_command params coerced
                (session_id o) Hcommand Hparams) as (_ & _ & _ & Hq).
    unfold query. rewrite Hq. reflexivity.
Qed.

(** X8.  Without a usable session (no token, or a token older than the
    timeout) [execute] first asks [SERVERWhoAmI]; when the camera answers
    with a token, the command is sent with that new token, never with the
    old one, and the session holds the new token and the time read after
    the answer.  Two requests are made in all. *)
Theorem execute_with_new_token (command_name : string) (params : dict pyval)
    (o : CameraControlAPI.t) (tr : list event) (s0 : Sys CameraControlAPI.t)
    (parsed_command : ParsedCommand.t) (coerced : dict pyval)
    (base payload : string) (data token : pyval)
    (Hstale : session_usable false (mkSys o tr) = (false, s0))
    (Hbase : _base_url o = Ok base)
    (Hreply : urlopen (trace s0) (base ++ "?action=SERVERWhoAmI") (request_timeout o)
              = UrlPayload payload)
    (Hjson : json_loads payload = Some data)
    (Hid : py_get2 data "SERVERWhoAmI" "Id" = Some token)
    (Htoken : truthy token = true)
    (Hcommand : load_command command_name = Ok parsed_command)
    (Hparams : resolve_params parsed_command command_name params = Ok coerced) :
  let whoami := Urlopen (base ++ "?action=SERVERWhoAmI") (request_timeout o)
                  (UrlPayload payload) in
  let issued := clock (trace s0 ++ [whoami]) in
  let tr1 := (trace s0 ++ [whoami; Time issued])%list in
  let query := build_query parsed_command token coerced true in
  let url := base ++ "?" ++ urlencode query in
  let outcome := urlopen tr1 url (request_timeout o) in
  execute command_name params (mkSys o tr)
  = issue_request base query (request_timeout o) (mkSys (set_session token issued o) tr1)
  /\ snd (execute command_name params (mkSys o tr))
     = mkSys (set_session token issued o)
         (trace s0 ++ [whoami; Time issued; Urlopen url (request_timeout o) outcome])
  /\ dict_get "session" query = Some token
  /\ (trace s0 = tr \/ trace s0 = (tr ++ [Time (clock tr)])%list).
Proof.
  intros whoami issued tr1 query url outcome.
  assert (Hs0 : self s0 = o
                /\ (trace s0 = tr \/ trace s0 = (tr ++ [Time (clock tr)])%list)).
  { revert Hstale. unfold session_usable, _session_expired. unfold_sys. cbn [self trace].
    destruct (truthy (session_id o)); cbn [self trace]; intros H;
      apply (f_equal snd) in H; cbn [snd] in H; subst s0; cbn [self trace]; auto. }
  destruct Hs0 as [Hself Htr]. destruct s0 as [o0 tr0]. cbn [self trace] in *. subst o0.
  assert (Ha : authenticate false (mkSys o tr)
               = (Ok true, mkSys (set_session token issued o) tr1)).
  { unfold authenticate, bind. rewrite Hstale.
    rewrite (who_am_i_success o tr0 base payload data token Hbase Hreply Hjson Hid Htoken).
    fold whoami. fold issued. unfold tr1. now rewrite <- app_assoc. }
  assert (E : execute command_name params (mkSys o tr)
              = issue_request base query (request_timeout o)
                  (mkSys (set_session token issued o) tr1)).
  { exact (execute_authenticated command_name params (mkSys o tr)
             (mkSys (set_session token issued o) tr1) parsed_command coerced base
             Ha Hcommand Hparams Hbase). }
  split; [exact E |]. split; [| split; [| exact Htr]].
  - rewrite E.
    destruct (issue_request_effect base query (request_timeout o)
                (mkSys (set_session token issued o) tr1)) as [Hs _].
    cbv zeta in Hs. rewrite Hs. cbn [self trace]. unfold tr1.
    now rewrite <- app_assoc.
  - destruct (registered_command_facts command_name parsed_command params coerced
                token Hcommand Hparams) as (_ & _ & _ & Hq).
    unfold query. rewrite Hq. reflexivity.
Qed.

End HttpCommand.

Lemma execute_with_usable_session_witness :
  load_command "get_position"
  = Ok {| ParsedCommand.name := "get_position";
          ParsedCommand.action := "PTAzimuthElevationGet";
          ParsedCommand.description := "Retrieve the current azimuth/elevation angles.";
          ParsedCommand.static_params := [];
          ParsedCommand.param_specs := [] |}
  /\ snd (@CameraControlAPI.execute (camera_online 100 position_text) "get_position" []
            (mkSys (api_with_session "tok1" 0) []))
     = mkSys (api_with_session "tok1" 0)
         [Time 100;
          Urlopen ("http://169.254.50.183:80/Nexus.cgi?"
                     ++ "session=tok1&action=PTAzimuthElevationGet&tokenoverride=1&_=0")
            5 (UrlPayload position_text)].
Proof.
  split; [reflexivity |].
  exact (proj1 (proj2 (@execute_with_usable_session (camera_online 100 position_text)
                         "get_position" [] (api_with_session "tok1" 0) [] _ []
                         "http://169.254.50.183:80/Nexus.cgi"
                         eq_refl ltac:(apply Qle_bool_iff; reflexivity)
                         eq_refl eq_refl eq_refl))).
Defined.

Lemma execute_with_new_token_witness :
  @CameraControlAPI.session_usable (camera_online 500 position_text) false
    (mkSys (api_with_session "tok1" 0) [])
  = (false, mkSys (api_with_session "tok1" 0) [Time 500])
  /\ snd (@CameraControlAPI.execute (camera_online 500 position_text) "get_position" []
            (mkSys (api_with_session "tok1" 0) []))
     = mkSys (CameraControlAPI.set_session (PStr "tok9") 500 (api_with_session "tok1" 0))
         [Time 500;
          Urlopen "http://169.254.50.183:80/Nexus.cgi?action=SERVERWhoAmI" 5
            (UrlPayload whoami_text);
          Time 500;
          Urlopen ("http://169.254.50.183:80/Nexus.cgi?"
                     ++ "session=tok9&action=PTAzimuthElevationGet&tokenoverride=1&_=0")
            5 (UrlPayload position_text)].
Proof.
  assert (Hstale : @CameraControlAPI.session_usable (camera_online 500 position_text) false
                     (mkSys (api_with_session "tok1" 0) [])
                   = (false, mkSys (api_with_session "tok1" 0) [Time 500]))
    by (vm_compute; reflexivity).
  split; [exact Hstale |].
  exact (proj1 (proj2 (@execute_with_new_token (camera_online 500 position_text)
                         "get_position" [] (api_with_session "tok1" 0) [] _ _ []
                         "http://169.254.50.183:80/Nexus.cgi" whoami_text whoami_value
                         (PStr "tok9") Hstale eq_refl eq_refl eq_refl eq_refl eq_refl
                         eq_refl eq_refl))).
Defined.


(** ** Validation comes after authentication and before the request *)

Ltac discriminate_any :=
  match goal with
  | H : _ = _ |- _ => discriminate H
  end.

Ltac same_error :=
  match goal with
  | H : Raise _ = Raise _ |- _ => injection H as <-; reflexivity
  end.

Section HttpValidation.
Context {P : Platform}.
Import CameraControlAPI.

Lemma load_command_raises (command_name : string) (e : error) :
  load_command command_name = Raise e -> class_of e = ValueError.
Proof.
  unfold load_command, load_command_from.
  destruct (dict_get command_name CAMERA_COMMANDS); [discriminate |].
  intros H. now injection H as <-.
Qed.

Lemma resolve_params_value_error (parsed_command : ParsedCommand.t)
    (command_name : string) (params : dict pyval) (e : error) :
  resolve_params parsed_command command_name params = Raise e -> class_of e = ValueError.
Proof.
  intros H. apply resolve_params_raises in H.
  destruct H as [[n ->] | [(n & detail & ->) | [[extras ->] | ->]]]; reflexivity.
Qed.

(** X9.  [execute] authenticates first and checks the command and its
    parameters afterwards.  When the command is unknown, or a parameter is
    missing, invalid or not declared, no command is sent: nothing happens
    after [authenticate()], which may have made its own request; the error
    is a [ValueError] when authentication succeeded, and the
    [RuntimeError] of a failed authentication otherwise. *)
Theorem execute_rejects_before_sending (command_name : string) (params : dict pyval)
    (s : Sys CameraControlAPI.t) (e : error)
    (Hrejected : load_command command_name = Raise e
                 \/ exists parsed_command,
                      load_command command_name = Ok parsed_command
                      /\ resolve_params parsed_command command_name params = Raise e) :
  let a := authenticate false s in
  let r := execute command_name params s in
  snd r = snd a
  /\ class_of e = ValueError
  /\ (fst a = Ok true -> fst r = Raise e)
  /\ (fst a = Ok false -> fst r = Raise AuthenticationFailed)
  /\ (forall e', fst a = Raise e' -> fst r = Raise e').
Proof.
  cbv zeta. unfold execute, bind.
  destruct (authenticate false s) as [[[] | e'] s1]; cbn [fst snd].
  - destruct Hrejected as [Hl | (parsed_command & Hl & Hr)]; rewrite Hl; [| rewrite Hr];
      cbn [fst snd ret];
      (split; [reflexivity |]);
      (split; [first [exact (load_command_raises _ _ Hl)
                     | exact (resolve_params_value_error _ _ _ _ Hr)] |]);
      repeat split; intros; first [reflexivity | discriminate_any | same_error].
  - split; [reflexivity |]. split.
    + destruct Hrejected as [Hl | (parsed_command & Hl & Hr)];
        [exact (load_command_raises _ _ Hl)
        | exact (resolve_params_value_error _ _ _ _ Hr)].
    + repeat split; intros; first [reflexivity | discriminate_any | same_error].
  - split; [reflexivity |]. split.
    + destruct Hrejected as [Hl | (parsed_command & Hl & Hr)];
        [exact (load_command_raises _ _ Hl)
        | exact (resolve_params_value_error _ _ _ _ Hr)].
    + repeat split; intros; first [reflexivity | discriminate_any | same_error].
Qed.

End HttpValidation.

Lemma execute_rejects_before_sending_witness :
  load_command "zoom_in" = Raise (UnknownCommand "zoom_in"
                                    ["auto_focus"; "center"; "get_position"; "get_speed";
                                     "get_zoom"; "get_zoom_fov"; "set_speed"; "set_zoom"])
  /\ snd (@CameraControlAPI.execute (camera_online 100 position_text) "zoom_in" []
            (mkSys (api_with_session "tok1" 0) []))
     = mkSys (api_with_session "tok1" 0) [Time 100].
Proof.
  split; [reflexivity |].
  exact (proj1 (@execute_rejects_before_sending (camera_online 100 position_text)
                  "zoom_in" [] (mkSys (api_with_session "tok1" 0) []) _
                  (or_introl eq_refl))).
Defined.

(** ** Switching camera *)

Section SwitchCamera.
Context {P : Platform}.
Import CameraControlAPI.

(** X10.  [set_camera] makes no request and forgets the session, also when it is
    called without arguments: the next [authenticate()] asks the camera,
    without so much as reading the clock, so a token issued by the previous
    camera is never sent to the new one.  A [host] replaces the override;
    the empty text switches the override off, and [None] leaves it. *)
Theorem set_camera_forgets_session (alias host_override : option string)
    (s : Sys CameraControlAPI.t) :
  let s' := snd (set_camera alias host_override s) in
  trace s' = trace s
  /\ session_id (self s') = PNone
  /\ _last_auth (self s') = 0%Q
  /\ camera_alias (self s')
     = match alias with Some a => a | None => camera_alias (self s) end
  /\ _host_override (self s')
     = match host_override with Some h => Some h | None => _host_override (self s) end
  /\ port (self s') = port (self s)
  /\ (forall force, authenticate force s' = who_am_i s')
  /\ (host_override = Some "" ->
      CameraControlAPI.host (self s')
      = match dict_get (camera_alias (self s')) CAMERA_HOSTS with
        | Some ip => Ok ip
        | None => Raise (UnknownCamera (camera_alias (self s')) ["FLIR1"; "FLIR2"])
        end).
Proof.
  destruct s as [o tr]. unfold set_camera, invalidate_session. unfold_sys.
  destruct alias as [a |], host_override as [h |]; cbn [self trace fst snd];
    (repeat split; try reflexivity);
    try (intros force; unfold authenticate, session_usable; unfold_sys;
         cbn [self trace session_id set_session];
         destruct force; reflexivity);
    try discriminate;
    intros E; injection E as ->; reflexivity.
Qed.

(** X11.  After a switch to an alias that [CAMERA_HOSTS] does not know, with no
    host override in force, every call fails where it stands: [execute]
    raises the unknown-alias [ValueError], the wrappers answer [False] or
    [None], and nothing is sent or recorded. *)
Theorem unknown_alias_fails_locally (alias : string) (s : Sys CameraControlAPI.t)
    (Hunknown : dict_get alias CAMERA_HOSTS = None)
    (Hoverride : given (_host_override (self s)) = None) :
  let s' := snd (set_camera (Some alias) None s) in
  let unknown := UnknownCamera alias ["FLIR1"; "FLIR2"] in
  (forall command_name params, execute command_name params s' = (Raise unknown, s'))
  /\ (forall w, perform w s' = (Ok false, s'))
  /\ get_zoom s' = (Ok None, s')
  /\ get_speed s' = (Ok None, s')
  /\ get_position s' = (Ok None, s')
  /\ message unknown = "Unknown camera alias '" ++ alias ++ "'. Known aliases: FLIR1, FLIR2".
Proof.
  intros s' unknown.
  assert (Ha : forall force, authenticate force s' = (Raise unknown, s')).
  { intros force. subst s'. destruct s as [o tr]. cbn [self] in Hoverride.
    unfold set_camera, invalidate_session, authenticate, session_usable, who_am_i.
    unfold_sys. unfold _base_url, CameraControlAPI.host.
    destruct force;
      cbn [self trace fst snd session_id _host_override camera_alias
           set_session set_camera_alias];
      change (truthy PNone) with false; cbv beta iota;
      cbn [self trace fst snd session_id _host_override camera_alias
           set_session set_camera_alias];
      rewrite Hoverride, Hunknown; reflexivity. }
  assert (He : forall command_name params,
             execute command_name params s' = (Raise unknown, s')).
  { intros. unfold execute, bind. now rewrite Ha. }
  split; [exact He |].
  split; [intros []; cbn [perform]; unfold set_zoom, set_speed, center, auto_focus, bind;
          now rewrite He |].
  unfold get_zoom, get_speed, get_position, bind. rewrite !He.
  repeat split; reflexivity.
Qed.

End SwitchCamera.

Lemma unknown_alias_fails_locally_witness :
  snd (@CameraControlAPI.get_position (camera_online 100 position_text)
         (snd (CameraControlAPI.set_camera (Some "FLIR3") None
                 (mkSys (api_with_session "tok1" 0) []))))
  = mkSys (CameraControlAPI.set_camera_alias "FLIR3"
             (CameraControlAPI.init DEFAULT_CAMERA None NEXUS_DEFAULT_PORT 120 5)) [].
Proof.
  pose proof (@unknown_alias_fails_locally (camera_online 100 position_text) "FLIR3"
                (mkSys (api_with_session "tok1" 0) []) eq_refl eq_refl) as H.
  cbv zeta in H. destruct H as (_ & _ & _ & _ & H & _).
  rewrite H. reflexivity.
Defined.


(** ** The wrappers that answer with a [bool] *)

Section Setters.
Context {P : Platform}.
Import CameraControlAPI.

Lemma perform_execute (w : setter) (s : Sys CameraControlAPI.t) :
  perform w s
  = (match fst (execute (setter_command w) (setter_params w) s) with
     | Ok _ => Ok true
     | Raise e => if handled e then Ok false else Raise e
     end,
     snd (execute (setter_command w) (setter_params w) s)).
Proof.
  destruct w; cbn [perform setter_command setter_params];
    unfold set_zoom, set_speed, center, auto_focus, bind;
    match goal with
    | |- context [execute ?c ?p s] => destruct (execute c p s) as [[v | e] s']
    end; cbn [fst snd]; try reflexivity; destruct (handled e); reflexivity.
Qed.


(** X13.  A wrapper answers [False], and sends no command, when [authenticate()]
    answers [False] or when [execute] rejects the arguments. *)
Theorem setter_fails_without_sending (w : setter) (s : Sys CameraControlAPI.t) (e : error)
    (Hrejected : fst (authenticate false s) = Ok false
                 \/ (fst (authenticate false s) = Ok true
                     /\ exists parsed_command,
                          load_command (setter_command w) = Ok parsed_command
                          /\ resolve_params parsed_command (setter_command w)
                               (setter_params w) = Raise e)) :
  perform w s = (Ok false, snd (authenticate false s)).
Proof.
  rewrite perform_execute. unfold execute, bind.
  destruct (authenticate false s) as [a s1]. cbn [fst snd] in *.
  destruct Hrejected as [-> | [-> (parsed_command & Hl & Hr)]]; [reflexivity |].
  rewrite Hl, Hr. cbn [fst snd ret].
  unfold handled. now rewrite (resolve_params_value_error _ _ _ _ Hr).
Qed.

(** X14.  [set_speed] takes integers only: a [float] speed, even a whole one
    such as [2.0], is written with a decimal point (or an exponent) by
    [str], which [int] does not read.  The call answers [False] and no
    command is sent. *)
Theorem set_speed_rejects_floats (azimuth_speed elevation_speed : pyval)
    (x : PyFloat.t) (s s1 : Sys CameraControlAPI.t)
    (Hauth : authenticate false s = (Ok true, s1))
    (Hfloat : azimuth_speed = PFloat x
              \/ ((exists n, azimuth_speed = PInt n) /\ elevation_speed = PFloat x)) :
  set_speed azimuth_speed elevation_speed s = (Ok false, s1).
Proof.
  change (set_speed azimuth_speed elevation_speed s)
    with (perform (Speed azimuth_speed elevation_speed) s).
  assert (Hr : exists e parsed_command,
             load_command "set_speed" = Ok parsed_command
             /\ resolve_params parsed_command "set_speed"
                  [("Azimuth_Speed", azimuth_speed); ("Elevation_Speed", elevation_speed)]
                = Raise e).
  { assert (Hx : str_of (PFloat x) = Ok (PyFloat.repr x)) by reflexivity.
    destruct Hfloat as [-> | [[n ->] ->]];
      [| destruct (str_of_cases (PInt n)) as [[X E] | [X E]]];
      eexists; eexists; (split; [reflexivity |]);
      unfold resolve_params;
      cbn [ParsedCommand.param_specs c_params c_action c_description c_static_params
           resolve_loop p_name p_required p_default param
           dict_get String.eqb Ascii.eqb Bool.eqb].
    - rewrite Hx.
      unfold coerce_param_value at 1. cbn [p_type param convert].
      rewrite FloatText.py_int_repr. reflexivity.
    - rewrite E. cbn [py_str py_repr].
      unfold coerce_param_value at 1. cbn [p_type param convert].
      rewrite (IntFacts.py_int_of_Z n X).
      cbn [option_map py_str py_repr]. rewrite Hx.
      unfold coerce_param_value at 1. cbn [p_type param convert].
      rewrite FloatText.py_int_repr. reflexivity.
    - rewrite E. reflexivity. }
  destruct Hr as (e & parsed_command & Hl & Hr).
  rewrite perform_execute. cbn [setter_command setter_params].
  unfold execute, bind. rewrite Hauth, Hl, Hr. cbn [fst snd ret].
  unfold handled. now rewrite (resolve_params_value_error _ _ _ _ Hr).
Qed.

End Setters.


Lemma setter_fails_without_sending_witness :
  @CameraControlAPI.center (camera_online 100 position_text) (PStr "left") (PInt 2)
    (mkSys (api_with_session "tok1" 0) [])
  = (Ok false, mkSys (api_with_session "tok1" 0) [Time 100]).
Proof.
  refine (eq_trans
            (@setter_fails_without_sending (camera_online 100 position_text)
               (CenterOn (PStr "left") (PInt 2)) (mkSys (api_with_session "tok1" 0) [])
               (InvalidParameterValue "ScreenX" (CannotConvert "left" "float")) _) _).
  - right. split; [vm_compute; reflexivity |].
    exists center_command. split; [reflexivity | vm_compute; reflexivity].
  - vm_compute. reflexivity.
Defined.

Lemma set_speed_rejects_floats_witness :
  @CameraControlAPI.set_speed (camera_online 100 position_text)
    (PFloat float_two) (PInt 3) (mkSys (api_with_session "tok1" 0) [])
  = (Ok false, mkSys (api_with_session "tok1" 0) [Time 100]).
Proof.
  exact (@set_speed_rejects_floats (camera_online 100 position_text)
           (PFloat float_two) (PInt 3) float_two
           (mkSys (api_with_session "tok1" 0) [])
           (mkSys (api_with_session "tok1" 0) [Time 100])
           ltac:(vm_compute; reflexivity) (or_introl eq_refl)).
Defined.


(** ** The wrappers that return readings *)

Section Getters.
Context {P : Platform}.
Import CameraControlAPI.

(** X15.  The readers of the HTTP backend against the parsers of the script
    based one, on the same JSON document [data] (for the scripts, printed
    after any banner text): whenever [get_zoom] or [get_speed] returns,
    it returns what the script based method returns; where the script
    based method swallows an exception and returns [None] (a document that
    is not an object, a reading that [float] rejects), the wrapper raises
    instead.  [get_position] returns the pair of [float]s of the two
    values that [get_degree_pos] returns as they are, and [None] when one
    of them is [None]. *)
Theorem readers_agree_with_scripts (s s2 : Sys CameraControlAPI.t) (data : pyval)
    (text : string) (i : nat)
    (Hfind : PyStr.find_char "{" text = Some i)
    (Hjson : json_loads (PyStr.drop i text) = Some data) :
  (execute "get_zoom" [] s = (Ok data, s2) ->
   exists r, get_zoom s = (r, s2)
             /\ zoom_output text = Some (match r with Ok v => v | Raise _ => None end))
  /\ (execute "get_speed" [] s = (Ok data, s2) ->
      exists r, get_speed s = (r, s2)
                /\ speed_output text = Some (match r with Ok v => v | Raise _ => None end))
  /\ (execute "get_position" [] s = (Ok data, s2) ->
      exists r, get_position s = (r, s2)
        /\ match r with
           | Ok (Some (a, e)) =>
               exists azimuth elevation,
                 degree_output text = Some (CameraControl.Position azimuth elevation)
                 /\ py_float azimuth = Some a /\ py_float elevation = Some e
           | Ok None =>
               exists azimuth elevation,
                 degree_output text = Some (CameraControl.Position azimuth elevation)
                 /\ (azimuth = PNone \/ elevation = PNone)
           | Raise _ => True
           end).
Proof.
  unfold get_zoom, get_speed, get_position, zoom_output, speed_output, degree_output, bind.
  rewrite Hfind, Hjson.
  unfold get_or_raise, float_or_raise, py_get2, py_get.
  split; [| split]; intros ->; eexists; (split; [reflexivity |]); cbn [ret fst snd rbind].
  - destruct data as [| | | | | | kvs]; try reflexivity.
    destruct (dict_get "DLTVFOVMagnificationGet" kvs) as [payload |];
      cbn [rbind truthy]; [| reflexivity].
    destruct payload as [| [] | n | [| neg | neg m e] | p | [| x xs] | [| kv inner]];
      try reflexivity;
      try (unfold truthy; cbn [negb rbind];
           match goal with
           | |- context [if ?b then _ else _] => destruct b
           end; reflexivity).
    unfold truthy. cbn [negb rbind].
    destruct (dict_get "Magnification" (kv :: inner)) as [[] |]; cbn [rbind];
      try reflexivity;
      match goal with
      | |- context [py_float ?v] => destruct (py_float v)
      end; reflexivity.
  - destruct data as [| | | | | | kvs]; try reflexivity.
    destruct (dict_get "PTSpeedGet" kvs) as [payload |];
      cbn [rbind truthy]; [| reflexivity].
    destruct payload as [| [] | n | [| neg | neg m e] | p | [| x xs] | [| kv inner]];
      try reflexivity;
      try (unfold truthy; cbn [negb rbind];
           match goal with
           | |- context [if ?b then _ else _] => destruct b
           end; reflexivity).
    unfold truthy. cbn [negb rbind].
    destruct (dict_get "Azimuth_Speed" (kv :: inner)) as [az |],
             (dict_get "Elevation_Speed" (kv :: inner)) as [el |]; cbn [rbind].
    + destruct az, el; cbn [rbind]; try reflexivity;
        repeat match goal with
               | |- context [py_float ?v] => destruct (py_float v); cbn [rbind]
               end; reflexivity.
    + destruct az; cbn [rbind]; try reflexivity.
    + destruct el; cbn [rbind]; try reflexivity.
    + reflexivity.
  - destruct data as [| | | | | | kvs]; try exact I.
    destruct (dict_get "PTAzimuthElevationGet" kvs) as [payload |];
      cbn [rbind truthy].
    2:{ do 2 eexists. split; [reflexivity | now left]. }
    destruct payload as [| [] | n | [| neg | neg m e] | p | [| x xs] | [| kv inner]];
      try (unfold truthy; cbn [negb rbind];
           try match goal with
               | |- context [if ?b then _ else _] => destruct b
               end;
           first [exact I | do 2 eexists; split; [reflexivity | now left]]).
    unfold truthy. cbn [negb rbind].
    destruct (dict_get "Azimuth" (kv :: inner)) as [az |],
             (dict_get "Elevation" (kv :: inner)) as [el |]; cbn [rbind].
    + destruct az, el; cbn [rbind];
        try (do 2 eexists; split; [reflexivity | auto; fail]);
        repeat match goal with
               | |- context [py_float ?v] => destruct (py_float v) eqn:?; cbn [rbind]
               end;
        try exact I;
        do 2 eexists; (split; [reflexivity |]); split; assumption.
    + destruct az; cbn [rbind]; do 2 eexists; split; try reflexivity; auto.
    + destruct el; cbn [rbind]; do 2 eexists; split; try reflexivity; auto.
    + do 2 eexists. split; [reflexivity | now left].
Qed.

End Getters.

Lemma readers_agree_with_scripts_witness :
  let s := mkSys (api_with_session "tok1" 0) [] in
  PyStr.find_char "{" ("connecting... " ++ position_text) = Some 14%nat
  /\ fst (@CameraControlAPI.execute (camera_online 100 position_text) "get_position" [] s)
     = Ok position_value
  /\ exists r,
       fst (@CameraControlAPI.get_position (camera_online 100 position_text) s) = r
       /\ r = Ok (Some (PyFloat.of_Z 90, PyFloat.of_Z (-3))).
Proof.
  intros s. split; [reflexivity |]. split; [vm_compute; reflexivity |].
  destruct (proj2 (proj2 (@readers_agree_with_scripts (camera_online 100 position_text)
                            s _ position_value ("connecting... " ++ position_text) 14%nat
                            eq_refl eq_refl))
              ltac:(vm_compute; reflexivity)) as (r & Hr & _).
  exists r. split; [now rewrite Hr |].
  apply (f_equal fst) in Hr. cbn [fst] in Hr. rewrite <- Hr. vm_compute. reflexivity.
Defined.


(** ** The methods of the subprocess backend, case by case *)

Section ScriptCases.
Context {P : Platform}.
Import CameraControl.

Lemma call_after_authenticate (m : method) (s s1 : Sys CameraControl.t) :
  authenticate false s = (true, s1) ->
  call m s
  = retry_loop (script_command m) (script_output m) (on_failure m) (on_exhaustion m)
      (seq 0 2) s1.
Proof.
  intros Ha. rewrite call_retry. unfold with_retry, bind. now rewrite Ha.
Qed.

(** X16.  A first run that completes with an output the method accepts settles
    the call: its value is returned after that one run, with no second run
    and no authentication exchange, and the session is as
    [authenticate()] left it. *)
Theorem first_run_settles (m : method) (s s1 : Sys CameraControl.t)
    (argv : list string) (output_str : string) (v : returns m)
    (Hauth : authenticate false s = (true, s1))
    (Hcommand : script_command m (self s1) = Some argv)
    (Hrun : run (trace s1) argv = RunCompleted output_str)
    (Houtput : script_output m output_str = Some v) :
  call m s = (v, mkSys (self s1) (trace s1 ++ [Run argv (RunCompleted output_str)])).
Proof.
  rewrite (call_after_authenticate m s s1 Hauth).
  destruct s1 as [o tr]. cbn [self trace] in *.
  change (seq 0 2) with [0%nat; 1%nat].
  rewrite (retry_loop_pass _ _ _ _ _ _ _ _ _ Hcommand). cbv zeta.
  now rewrite Hrun, Houtput.
Qed.

(** X17.  The method gives up at once, with its failure value, when the initial
    [authenticate()] fails (no script is run), when the command line cannot
    be built (an argument that has no [float] format: no script is run
    either), and when the script cannot be started or fails otherwise than
    by its exit status (one run, no retry, no authentication). *)
Theorem gives_up_at_once (m : method) (s s1 : Sys CameraControl.t) :
  (authenticate false s = (false, s1) -> call m s = (on_failure m, s1))
  /\ (authenticate false s = (true, s1) ->
      script_command m (self s1) = None ->
      call m s = (on_failure m, s1))
  /\ (forall argv detail,
        authenticate false s = (true, s1) ->
        script_command m (self s1) = Some argv ->
        run (trace s1) argv = RunRaises detail ->
        call m s = (on_failure m,
                    mkSys (self s1) (trace s1 ++ [Run argv (RunRaises detail)]))).
Proof.
  split; [| split].
  - intros Ha. rewrite call_retry. unfold with_retry, bind. now rewrite Ha.
  - intros Ha Hc. rewrite (call_after_authenticate m s s1 Ha).
    change (seq 0 2) with [0%nat; 1%nat].
    now rewrite (retry_loop_skipped _ _ _ _ _ _ _ Hc).
  - intros argv detail Ha Hc Hr. rewrite (call_after_authenticate m s s1 Ha).
    destruct s1 as [o tr]. cbn [self trace] in *.
    change (seq 0 2) with [0%nat; 1%nat].
    rewrite (retry_loop_pass _ _ _ _ _ _ _ _ _ Hc). cbv zeta. now rewrite Hr.
Qed.

(** X18.  A first run that completes with an output that has no [{].  The
    methods that read the output ([get_degree_pos], [get_zoom],
    [get_speed]) go on to the second and last run, with the same command
    line and token: no authentication is forced in between, and none after
    the second run, however it ends.  They return the value read from the
    second output, the bare [None] of a loop that ran out when that output
    is not accepted either, and their failure value when the second run
    fails.  [set_zoom] and [move_camera_to_absolute_pos] do not read the
    output: the same first run makes them return [True] at once. *)
Theorem second_run_after_unreadable_output (m : method) (s s1 : Sys CameraControl.t)
    (argv : list string) (output_str : string)
    (Hauth : authenticate false s = (true, s1))
    (Hcommand : script_command m (self s1) = Some argv)
    (Hrun : run (trace s1) argv = RunCompleted output_str)
    (Hjson : PyStr.find_char "{" output_str = None) :
  let first := Run argv (RunCompleted output_str) in
  let second := run (trace s1 ++ [first]) argv in
  (m = GetDegreePos \/ m = GetZoom \/ m = GetSpeed ->
   call m s
   = (match second with
      | RunCompleted output2 =>
          match script_output m output2 with
          | Some v => v
          | None => on_exhaustion m
          end
      | RunCalledProcessError _ _ | RunRaises _ => on_failure m
      end,
      mkSys (self s1) (trace s1 ++ [first; Run argv second])))
  /\ (forall zoom,
        m = SetZoom zoom ->
        set_zoom zoom s = (Some true, mkSys (self s1) (trace s1 ++ [first])))
  /\ (forall target_az target_el speed_az speed_el,
        m = MoveCameraToAbsolutePos target_az target_el speed_az speed_el ->
        move_camera_to_absolute_pos target_az target_el speed_az speed_el s
        = (Some true, mkSys (self s1) (trace s1 ++ [first]))).
Proof.
  intros first second.
  assert (Hcall : call m s
                  = retry_loop (script_command m) (script_output m) (on_failure m)
                      (on_exhaustion m) [0%nat; 1%nat] s1)
    by exact (call_after_authenticate m s s1 Hauth).
  destruct s1 as [o tr]. cbn [self trace] in *.
  rewrite (retry_loop_pass _ _ _ _ _ _ _ _ _ Hcommand) in Hcall. cbv zeta in Hcall.
  rewrite Hrun in Hcall. fold first in Hcall.
  split; [| split].
  - intros Hm.
    assert (Houtput : script_output m output_str = None).
    { destruct Hm as [-> | [-> | ->]]; cbn [script_output];
        unfold degree_output, zoom_output, speed_output; now rewrite Hjson. }
    rewrite Hcall, Houtput.
    rewrite (retry_loop_pass _ _ _ _ _ _ _ _ _ Hcommand). cbv zeta.
    fold second. cbn [Nat.eqb retry_loop ret].
    rewrite <- app_assoc. cbn [app].
    destruct second as [output2 | |]; try reflexivity.
    destruct (script_output m output2); reflexivity.
  - intros zoom ->. exact Hcall.
  - intros target_az target_el speed_az speed_el ->. exact Hcall.
Qed.

(** X19.  When the first run fails by its exit status and the forced
    authentication fails too (the script exits with a non-zero status or
    cannot be run), the method gives up after that one run and that one
    exchange, and the session is left without token, so that the next call
    begins with a new authentication. *)
Theorem forced_authentication_fails (m : method) (s s1 : Sys CameraControl.t)
    (argv : list string) (rc : Z) (err : string)
    (Hauth : authenticate false s = (true, s1))
    (Hcommand : script_command m (self s1) = Some argv)
    (Hrun : run (trace s1) argv = RunCalledProcessError rc err) :
  let o := self s1 in
  let first := Run argv (RunCalledProcessError rc err) in
  let auth_argv := [AUTHENTICATE_SCRIPT o; camera_ip o] in
  let outcome := popen (trace s1 ++ [first]) auth_argv in
  (exists rc' out err', outcome = PopenExit rc' out err' /\ rc' <> 0)
  \/ (exists detail, outcome = PopenRaises detail) ->
  call m s
  = (on_failure m,
     mkSys (set_session_id None o) (trace s1 ++ [first; Popen auth_argv outcome]))
  /\ forall tr', fst (session_usable false (mkSys (set_session_id None o) tr')) = false.
Proof.
  intros o first auth_argv outcome Hfail. split.
  - rewrite (call_after_authenticate m s s1 Hauth).
    destruct s1 as [o1 tr]. cbn [self trace] in *. subst o.
    change (seq 0 2) with [0%nat; 1%nat].
    rewrite (retry_loop_pass _ _ _ _ _ _ _ _ _ Hcommand). cbv zeta.
    rewrite Hrun. cbn [Nat.eqb]. fold first.
    destruct (run_auth_script_failure o1 (tr ++ [first])) as [Hf _].
    cbv zeta in Hf. rewrite (Hf Hfail). cbn [fst snd].
    fold auth_argv. fold outcome. now rewrite <- app_assoc.
  - intros tr'. reflexivity.
Qed.

End ScriptCases.

Lemma first_run_settles_witness :
  @CameraControl.authenticate scripts_ok false (mkSys (camera_with_session "tok1" 0) [])
  = (true, mkSys (camera_with_session "tok1" 0) [Time 10])
  /\ @CameraControl.get_degree_pos scripts_ok (mkSys (camera_with_session "tok1" 0) [])
     = (CameraControl.Position (PInt 90) (PInt (-3)),
        mkSys (camera_with_session "tok1" 0)
          [Time 10;
           Run ["get_degree.sh"; "169.254.50.183"; "tok1"]
             (RunCompleted ("connecting... " ++ position_text))]).
Proof.
  assert (Ha : @CameraControl.authenticate scripts_ok false
                 (mkSys (camera_with_session "tok1" 0) [])
               = (true, mkSys (camera_with_session "tok1" 0) [Time 10]))
    by (vm_compute; reflexivity).
  split; [exact Ha |].
  exact (@first_run_settles scripts_ok GetDegreePos _ _
           ["get_degree.sh"; "169.254.50.183"; "tok1"]
           ("connecting... " ++ position_text)
           (CameraControl.Position (PInt 90) (PInt (-3)))
           Ha eq_refl eq_refl ltac:(vm_compute; reflexivity)).
Defined.

Lemma gives_up_at_once_witness :
  @CameraControl.get_zoom (auth_denied 500) (mkSys (camera_with_session "tok1" 0) [])
  = (None,
     mkSys (CameraControl.set_session_id None (camera_with_session "tok1" 0))
       [Time 500; Popen ["authenticate.sh"; "169.254.50.183"] (PopenExit 1 "" "denied")]).
Proof.
  exact (proj1 (@gives_up_at_once (auth_denied 500) GetZoom
                  (mkSys (camera_with_session "tok1" 0) []) _)
           ltac:(vm_compute; reflexivity)).
Defined.

Lemma second_run_after_unreadable_output_witness :
  @CameraControl.authenticate banner_only false (mkSys (camera_with_session "tok1" 0) [])
  = (true, mkSys (camera_with_session "tok1" 0) [Time 10])
  /\ @CameraControl.get_speed banner_only (mkSys (camera_with_session "tok1" 0) [])
     = (None,
        mkSys (camera_with_session "tok1" 0)
          [Time 10;
           Run ["get_speed.sh"; "169.254.50.183"; "tok1"] (RunCompleted "connecting...");
           Run ["get_speed.sh"; "169.254.50.183"; "tok1"] (RunCompleted "connecting...")])
  /\ @CameraControl.set_zoom banner_only (PInt 2) (mkSys (camera_with_session "tok1" 0) [])
     = (Some true,
        mkSys (camera_with_session "tok1" 0)
          [Time 10;
           Run ["set_zoom.sh"; "169.254.50.183"; "tok1"; "2.00"]
             (RunCompleted "connecting...")]).
Proof.
  assert (Ha : @CameraControl.authenticate banner_only false
                 (mkSys (camera_with_session "tok1" 0) [])
               = (true, mkSys (camera_with_session "tok1" 0) [Time 10]))
    by (vm_compute; reflexivity).
  split; [exact Ha |]. split.
  - pose proof (@second_run_after_unreadable_output banner_only GetSpeed _ _
                  ["get_speed.sh"; "169.254.50.183"; "tok1"] "connecting..."
                  Ha eq_refl eq_refl eq_refl) as H.
    cbv zeta in H. destruct H as [H _].
    exact (H (or_intror (or_intror eq_refl))).
  - assert (Hc : script_command (SetZoom (PInt 2)) (camera_with_session "tok1" 0)
                 = Some ["set_zoom.sh"; "169.254.50.183"; "tok1"; "2.00"])
      by (vm_compute; reflexivity).
    pose proof (@second_run_after_unreadable_output banner_only (SetZoom (PInt 2)) _ _
                  ["set_zoom.sh"; "169.254.50.183"; "tok1"; "2.00"] "connecting..."
                  Ha Hc eq_refl eq_refl) as H.
    cbv zeta in H. destruct H as [_ [H _]].
    exact (H (PInt 2) eq_refl).
Defined.

Lemma forced_authentication_fails_witness :
  @CameraControl.authenticate scripts_denied false
    (mkSys (camera_with_session "tok1" 0) [])
  = (true, mkSys (camera_with_session "tok1" 0) [Time 10])
  /\ @CameraControl.set_zoom scripts_denied (PInt 2)
       (mkSys (camera_with_session "tok1" 0) [])
     = (Some false,
        mkSys (CameraControl.set_session_id None (camera_with_session "tok1" 0))
          [Time 10;
           Run ["set_zoom.sh"; "169.254.50.183"; "tok1"; "2.00"]
             (RunCalledProcessError 1 "session expired");
           Popen ["authenticate.sh"; "169.254.50.183"] (PopenExit 1 "" "denied")]).
Proof.
  assert (Ha : @CameraControl.authenticate scripts_denied false
                 (mkSys (camera_with_session "tok1" 0) [])
               = (true, mkSys (camera_with_session "tok1" 0) [Time 10]))
    by (vm_compute; reflexivity).
  split; [exact Ha |].
  assert (Hc : script_command (SetZoom (PInt 2)) (camera_with_session "tok1" 0)
               = Some ["set_zoom.sh"; "169.254.50.183"; "tok1"; "2.00"])
    by (vm_compute; reflexivity).
  assert (Hr : @run scripts_denied [Time 10]
                 ["set_zoom.sh"; "169.254.50.183"; "tok1"; "2.00"]
               = RunCalledProcessError 1 "session expired") by reflexivity.
  pose proof (@forced_authentication_fails scripts_denied (SetZoom (PInt 2)) _ _
                ["set_zoom.sh"; "169.254.50.183"; "tok1"; "2.00"] 1 "session expired"
                Ha Hc Hr) as H.
  cbv zeta in H.
  destruct H as [E _].
  - left. exists 1, "", "denied". split; [reflexivity | discriminate].
  - refine (eq_trans E _). vm_compute. reflexivity.
Defined.


(** ** Switching the address of the subprocess backend *)

Section SwitchAddress.
Context {P : Platform}.
Import CameraControl.

(** X20.  [set_camera_ip] refuses the empty address with a [ValueError] and
    changes nothing; the address already in use changes nothing either, so
    the session is kept; a new address forgets the session, and the next
    [authenticate()] starts, without reading the clock, by running the
    authentication script against the new address.  No script is run by
    [set_camera_ip] itself. *)
Theorem set_camera_ip_switches (ip_address : string) (s : Sys CameraControl.t) :
  let r := set_camera_ip ip_address s in
  trace (snd r) = trace s
  /\ (ip_address = "" ->
      r = (Raise (Uncaught ValueError "Camera IP address cannot be empty."), s))
  /\ (ip_address <> "" -> ip_address = camera_ip (self s) -> r = (Ok tt, s))
  /\ (ip_address <> "" -> ip_address <> camera_ip (self s) ->
      fst r = Ok tt
      /\ self (snd r)
         = set_last_auth_time 0
             (set_session_id None (set_camera_ip_field ip_address (self s)))
      /\ exists rest,
           trace (snd (authenticate false (snd r)))
           = (trace s
                ++ Popen [AUTHENTICATE_SCRIPT (self s); ip_address]
                     (popen (trace s) [AUTHENTICATE_SCRIPT (self s); ip_address])
                :: rest)%list).
Proof.
  destruct s as [o tr]. unfold set_camera_ip. unfold_sys. cbn [self trace].
  unfold truthy.
  destruct (String.eqb ip_address "") eqn:E; cbn [negb].
  - apply String.eqb_eq in E. subst ip_address.
    split; [reflexivity |]. split; [reflexivity |].
    split; intros H; congruence.
  - apply String.eqb_neq in E. cbv beta iota zeta. cbn [self trace].
    destruct (String.eqb ip_address (camera_ip o)) eqn:E2; cbn [negb fst snd self trace].
    + apply String.eqb_eq in E2.
      split; [reflexivity |]. split; [congruence |]. split; [reflexivity |].
      intros _ H. congruence.
    + apply String.eqb_neq in E2.
      split; [reflexivity |]. split; [congruence |]. split; [congruence |].
      intros _ _. split; [reflexivity |]. split; [reflexivity |].
      unfold authenticate, session_usable, run_auth_script. unfold_sys.
      cbn [self trace given session_id set_last_auth_time set_session_id
           set_camera_ip_field AUTHENTICATE_SCRIPT camera_ip].
      destruct (popen tr [AUTHENTICATE_SCRIPT o; ip_address]) as [rc out err | detail];
        cbn [self trace fst snd].
      * destruct (negb (rc =? 0)); cbn [self trace fst snd];
          [eexists; reflexivity |].
        destruct (negb (truthy (PStr (PyStr.strip out)))); cbn [self trace fst snd];
          [eexists; reflexivity |].
        rewrite <- app_assoc. eexists. reflexivity.
      * eexists. reflexivity.
Qed.

End SwitchAddress.

Lemma set_camera_ip_switches_witness :
  fst (CameraControl.set_camera_ip "169.254.80.109"
         (mkSys (camera_with_session "tok1" 0) []))
  = Ok tt
  /\ CameraControl.session_id
       (self (snd (CameraControl.set_camera_ip "169.254.80.109"
                     (mkSys (camera_with_session "tok1" 0) []))))
     = None.
Proof.
  destruct (proj2 (proj2 (proj2 (@set_camera_ip_switches scripts_ok "169.254.80.109"
                                   (mkSys (camera_with_session "tok1" 0) []))))
              ltac:(discriminate) ltac:(discriminate)) as (Hr & Hs & _).
  split; [exact Hr |]. now rewrite Hs.
Defined.


(** ** [wait_for_host] *)

Section WaitForHostFacts.
Context {N : Network}.
Variables (host : string) (port : Z) (delay : Q).
Local Open Scope list_scope.

Lemma probes_app (p : probe -> bool) (a b : Probes) :
  probes p (a ++ b) = (probes p a + probes p b)%nat.
Proof. unfold probes. now rewrite filter_app, length_app. Qed.

(** After a refused attempt: the sleep, then the attempts that remain. *)
Ltac after_refusal IH first :=
  let c := fresh "cls" in
  let x := fresh "detail" in
  let c' := fresh "cls" in
  let x' := fresh "detail" in
  cbn [self trace];
  match goal with
  | |- context [sleep ?l ?d] =>
      destruct (sleep l d) as [| c x];
      [ match goal with
        | |- context [wait_for_host_loop _ _ _ _ ?s1] =>
            destruct (IH s1) as (made & Hs & Hsl & Hr);
            cbn [self trace] in Hs;
            exists ([first; Sleep d Slept] ++ made);
            split; [rewrite Hs; f_equal; now rewrite <- !app_assoc |];
            rewrite !probes_app;
            change (probes is_connect [first; Sleep d Slept]) with 1%nat;
            change (probes is_sleep [first; Sleep d Slept]) with 1%nat;
            split; [lia |];
            destruct (fst (wait_for_host_loop _ _ _ _ s1)) as [[] | e];
            [ destruct Hr as ((before & ->) & Hle & Heq);
              split; [exists ([first; Sleep d Slept] ++ before);
                      now rewrite <- app_assoc |];
              split; lia
            | lia
            | destruct Hr as (Hle & c' & x' & before & -> & Hm);
              split; [lia |];
              exists c', x', ([first; Sleep d Slept] ++ before);
              split; [reflexivity |];
              destruct Hm as [-> | ->]; [left | right]; now rewrite <- app_assoc ]
        end
      | exists [first; Sleep d (SleepRaises c x)];
        cbn [fst snd]; split; [f_equal; now rewrite <- app_assoc |];
        split; [cbn; lia |]; split; [cbn; lia |];
        exists c, x, [first]; split; [reflexivity | now right] ]
  end.

Lemma wait_for_host_loop_probes (attempts : nat) : forall s : Sys Probes,
  exists made : Probes,
    snd (wait_for_host_loop host port delay attempts s)
    = mkSys (self s ++ made) (trace s)
    /\ (probes is_sleep made <= probes is_connect made)%nat
    /\ match fst (wait_for_host_loop host port delay attempts s) with
       | Ok true =>
           (exists before,
              made = before ++ [Connect host port delay (ConnectReturns 0)])
           /\ (probes is_connect made <= attempts)%nat
           /\ probes is_connect made = S (probes is_sleep made)
       | Ok false =>
           probes is_connect made = attempts /\ probes is_sleep made = attempts
       | Raise e =>
           (probes is_connect made <= attempts)%nat
           /\ exists cls detail before,
                e = Uncaught cls detail
                /\ (made = before ++ [Connect host port delay (ConnectRaises cls detail)]
                    \/ made = before ++ [Sleep delay (SleepRaises cls detail)])
       end.
Proof.
  induction attempts as [| n IH]; intros s; cbn [wait_for_host_loop].
  - exists []. cbn. rewrite app_nil_r. destruct s. auto.
  - unfold bind, socket_connect_ex, time_sleep, ret. cbn [self trace].
    destruct (connect_ex (self s) host port delay) as [[| p | p] | detail | cls detail].
    + exists [Connect host port delay (ConnectReturns 0)].
      cbn [fst snd]. split; [reflexivity |]. split; [cbn; lia |].
      split; [exists []; reflexivity |]. split; [cbn; lia | reflexivity].
    + after_refusal IH (Connect host port delay (ConnectReturns (Z.pos p))).
    + after_refusal IH (Connect host port delay (ConnectReturns (Z.neg p))).
    + after_refusal IH (Connect host port delay (ConnectOSError detail)).
    + exists [Connect host port delay (ConnectRaises cls detail)].
      cbn [fst snd]. split; [reflexivity |]. split; [cbn; lia |].
      split; [cbn; lia |]. exists cls, detail, []. split; [reflexivity | now left].
Qed.

(** X21.  [wait_for_host] probes nothing when [retries] is not positive.
    Otherwise it tries to connect at most [retries] times, sleeping
    [delay] after every attempt that is refused, the last one included.
    It returns right after the first connection that succeeds; it raises
    its own [RuntimeError] after exactly [retries] attempts and as many
    sleeps; any other exception is that of the probe made last.  It never
    touches the HTTP trace. *)
Theorem wait_for_host_probes (retries : Z) (s : Sys Probes) :
  let r := wait_for_host host port retries delay s in
  let unreachable :=
    Uncaught RuntimeError
      ("Camera at " ++ host ++ ":" ++ PyStr.of_Z port ++ " not reachable after "
         ++ PyStr.of_Z retries ++ " attempts.")%string in
  exists made : Probes,
    snd r = mkSys (self s ++ made) (trace s)
    /\ (probes is_connect made <= Z.to_nat retries)%nat
    /\ (probes is_sleep made <= probes is_connect made)%nat
    /\ (retries <= 0 -> made = [] /\ fst r = Ok tt)
    /\ (0 < retries ->
        (fst r = Ok tt
         /\ (exists before,
               made = (before ++ [Connect host port delay (ConnectReturns 0)]))
         /\ probes is_connect made = S (probes is_sleep made))
        \/ (fst r = Raise unreachable
            /\ probes is_connect made = Z.to_nat retries
            /\ probes is_sleep made = Z.to_nat retries)
        \/ (exists cls detail before,
              fst r = Raise (Uncaught cls detail)
              /\ (made = (before ++ [Connect host port delay (ConnectRaises cls detail)])
                  \/ made = (before ++ [Sleep delay (SleepRaises cls detail)])))).
Proof.
  cbv zeta. unfold wait_for_host.
  destruct (retries <=? 0) eqn:R.
  - apply Z.leb_le in R. exists []. cbn [ret fst snd]. rewrite app_nil_r.
    destruct s. repeat split; try reflexivity; try (cbn; lia).
  - apply Z.leb_gt in R. unfold bind.
    destruct (wait_for_host_loop_probes (Z.to_nat retries) s) as (made & Hs & Hsl & Hr).
    destruct (wait_for_host_loop host port delay (Z.to_nat retries) s) as [[[] | e] s1];
      cbn [fst snd ret] in *; exists made; (split; [exact Hs |]).
    + destruct Hr as (Hb & Hle & Heq).
      split; [exact Hle |]. split; [lia |]. split; [lia |].
      intros _. left. auto.
    + destruct Hr as [Hc Hz].
      split; [lia |]. split; [lia |]. split; [lia |].
      intros _. right. left. auto.
    + destruct Hr as (Hle & cls & detail & before & -> & Hm).
      split; [exact Hle |]. split; [exact Hsl |]. split; [lia |].
      intros _. right. right. exists cls, detail, before. auto.
Qed.

Lemma wait_for_host_loop_up (k : nat) : forall (attempts : nat) (s : Sys Probes),
  (k < attempts)%nat ->
  (forall l, (probes is_connect l < probes is_connect (self s) + k)%nat ->
             refused (connect_ex l host port delay) = true) ->
  (forall l, probes is_connect l = (probes is_connect (self s) + k)%nat ->
             connect_ex l host port delay = ConnectReturns 0) ->
  (forall l, sleep l delay = Slept) ->
  exists made : Probes,
    wait_for_host_loop host port delay attempts s
    = (Ok true, mkSys (self s ++ made) (trace s))
    /\ probes is_connect made = S k /\ probes is_sleep made = k.
Proof.
  induction k as [| k IH]; intros attempts s Hlt Hrefused Hup Hsleep;
    (destruct attempts as [| n]; [lia |]); cbn [wait_for_host_loop];
    unfold bind, socket_connect_ex, time_sleep, ret; cbn [self trace].
  - rewrite (Hup (self s)) by lia.
    exists [Connect host port delay (ConnectReturns 0)]. repeat split.
  - pose proof (Hrefused (self s) ltac:(lia)) as Hc.
    destruct (connect_ex (self s) host port delay) as [[| p | p] | detail | cls detail];
      try discriminate Hc; cbn [self trace]; rewrite Hsleep;
      match goal with
      | |- context [Connect host port delay ?c] => set (first := Connect host port delay c)
      end;
      (assert (Hcount : probes is_connect ((self s ++ [first]) ++ [Sleep delay Slept])
                        = S (probes is_connect (self s)))
         by (rewrite !probes_app; cbn; lia));
      (destruct (IH n (mkSys ((self s ++ [first]) ++ [Sleep delay Slept]) (trace s)))
         as (made & E & Hconn & Hsl);
       [ lia
       | intros l Hl; apply Hrefused; cbn [self] in Hl; rewrite Hcount in Hl; lia
       | intros l Hl; apply Hup; cbn [self] in Hl; rewrite Hcount in Hl; lia
       | exact Hsleep
       | exists ([first; Sleep delay Slept] ++ made);
         rewrite !probes_app, Hconn, Hsl;
         split; [| split; reflexivity];
         rewrite E; cbn [self trace]; now rewrite <- !app_assoc ]).
Qed.

(** X22.  When the host accepts the connection after [k] refusals, with
    [k < retries], [wait_for_host] returns after [k + 1] attempts and [k]
    sleeps: it does not sleep once the host is up. *)
Theorem wait_for_host_returns_when_up (retries : Z) (k : nat) (s : Sys Probes)
    (Hk : (k < Z.to_nat retries)%nat)
    (Hrefused : forall l, (probes is_connect l < probes is_connect (self s) + k)%nat ->
                          refused (connect_ex l host port delay) = true)
    (Hup : forall l, probes is_connect l = (probes is_connect (self s) + k)%nat ->
                     connect_ex l host port delay = ConnectReturns 0)
    (Hsleep : forall l, sleep l delay = Slept) :
  exists made : Probes,
    wait_for_host host port retries delay s = (Ok tt, mkSys (self s ++ made) (trace s))
    /\ probes is_connect made = S k
    /\ probes is_sleep made = k.
Proof.
  unfold wait_for_host.
  destruct (retries <=? 0) eqn:R; [apply Z.leb_le in R; lia |].
  destruct (wait_for_host_loop_up k (Z.to_nat retries) s Hk Hrefused Hup Hsleep)
    as (made & E & Hc & Hs).
  exists made. unfold bind. rewrite E. auto.
Qed.

Lemma wait_for_host_loop_down (attempts : nat) : forall s : Sys Probes,
  (forall l, refused (connect_ex l host port delay) = true) ->
  (forall l, sleep l delay = Slept) ->
  exists made : Probes,
    wait_for_host_loop host port delay attempts s
    = (Ok false, mkSys (self s ++ made) (trace s))
    /\ probes is_connect made = attempts /\ probes is_sleep made = attempts
    /\ (attempts <> O -> exists before, made = (before ++ [Sleep delay Slept])).
Proof.
  induction attempts as [| n IH]; intros s Hrefused Hsleep; cbn [wait_for_host_loop].
  - exists []. rewrite app_nil_r. destruct s. repeat split. congruence.
  - unfold bind, socket_connect_ex, time_sleep, ret; cbn [self trace].
    pose proof (Hrefused (self s)) as Hc.
    destruct (connect_ex (self s) host port delay) as [[| p | p] | detail | cls detail];
      try discriminate Hc; cbn [self trace]; rewrite Hsleep;
      match goal with
      | |- context [Connect host port delay ?c] => set (first := Connect host port delay c)
      end;
      destruct (IH (mkSys ((self s ++ [first]) ++ [Sleep delay Slept]) (trace s))
                  Hrefused Hsleep) as (made & E & Hconn & Hsl & Hlast);
      cbn [self trace] in E;
      exists ([first; Sleep delay Slept] ++ made);
      rewrite !probes_app, Hconn, Hsl;
      (split; [rewrite E; now rewrite <- !app_assoc |]);
      (split; [reflexivity |]); (split; [reflexivity |]);
      intros _; (destruct n as [| n'];
      [ destruct made as [| x made]; [exists [first]; reflexivity |];
        unfold probes in Hconn, Hsl; cbn in Hconn, Hsl;
        destruct x; cbn in Hconn, Hsl; discriminate
      | destruct (Hlast ltac:(discriminate)) as [before ->];
        exists ([first; Sleep delay Slept] ++ before); now rewrite <- app_assoc ]).
Qed.

(** X23.  When every attempt is refused, [wait_for_host] raises its
    [RuntimeError] after [retries] attempts and [retries] sleeps: it also
    sleeps after the last attempt, when there is nothing left to wait
    for. *)
Theorem wait_for_host_gives_up (retries : Z) (s : Sys Probes)
    (Hretries : 0 < retries)
    (Hrefused : forall l, refused (connect_ex l host port delay) = true)
    (Hsleep : forall l, sleep l delay = Slept) :
  exists made : Probes,
    wait_for_host host port retries delay s
    = (Raise (Uncaught RuntimeError
                ("Camera at " ++ host ++ ":" ++ PyStr.of_Z port ++ " not reachable after "
                   ++ PyStr.of_Z retries ++ " attempts.")%string),
       mkSys (self s ++ made) (trace s))
    /\ probes is_connect made = Z.to_nat retries
    /\ probes is_sleep made = Z.to_nat retries
    /\ exists before, made = (before ++ [Sleep delay Slept]).
Proof.
  unfold wait_for_host.
  destruct (retries <=? 0) eqn:R; [apply Z.leb_le in R; lia |].
  destruct (wait_for_host_loop_down (Z.to_nat retries) s Hrefused Hsleep)
    as (made & E & Hc & Hs & Hlast).
  exists made. unfold bind. rewrite E. cbn [ret].
  repeat split; try assumption. apply Hlast. lia.
Qed.

End WaitForHostFacts.

Lemma wait_for_host_returns_when_up_witness :
  exists made : Probes,
    @wait_for_host (up_after 2) "169.254.50.183" 80 5 1 (mkSys [] [])
    = (Ok tt, mkSys made [])
    /\ probes is_connect made = 3%nat
    /\ probes is_sleep made = 2%nat.
Proof.
  refine (@wait_for_host_returns_when_up (up_after 2) "169.254.50.183" 80 1 5 2
            (mkSys [] []) _ _ _ _).
  - cbn. lia.
  - intros l Hl. change (probes is_connect l < 2)%nat in Hl.
    change (refused (if Nat.leb 2 (probes is_connect l)
                     then ConnectReturns 0 else ConnectOSError "timed out") = true).
    destruct (Nat.leb 2 (probes is_connect l)) eqn:L; [| reflexivity].
    apply Nat.leb_le in L. lia.
  - intros l Hl. change (probes is_connect l = 2%nat) in Hl.
    change ((if Nat.leb 2 (probes is_connect l)
             then ConnectReturns 0 else ConnectOSError "timed out") = ConnectReturns 0).
    now rewrite Hl.
  - reflexivity.
Defined.

Lemma wait_for_host_gives_up_witness :
  exists made : Probes,
    @wait_for_host no_route "169.254.50.183" 80 3 1 (mkSys [] [])
    = (Raise (Uncaught RuntimeError
                "Camera at 169.254.50.183:80 not reachable after 3 attempts."),
       mkSys made [])
    /\ probes is_connect made = 3%nat
    /\ probes is_sleep made = 3%nat
    /\ exists before, made = (before ++ [Sleep 1 Slept])%list.
Proof.
  exact (@wait_for_host_gives_up no_route "169.254.50.183" 80 1 3 (mkSys [] [])
           eq_refl (fun _ => eq_refl) (fun _ => eq_refl)).
Defined.


(** ** Which host is addressed *)

(** X24.  [resolve_host] never fails on what the argument parser lets through
    (no [--camera], or one of the aliases of [CAMERA_HOSTS]): an explicit
    host wins, then the alias, then the default camera; an empty alias
    counts as none.  The [host] property of [CameraControlAPI] resolves the
    same way, except that it has no default: with the empty alias and no
    override it raises. *)
Theorem host_resolution :
  (forall h alias, h <> "" -> resolve_host (Some h) alias = Ok h)
  /\ (forall alias ip,
        dict_get alias CAMERA_HOSTS = Some ip ->
        resolve_host None (Some alias) = Ok ip /\ resolve_host (Some "") (Some alias) = Ok ip)
  /\ resolve_host None None = Ok FLIR2_IP
  /\ resolve_host None (Some "") = Ok FLIR2_IP
  /\ (forall alias,
        alias <> "" -> dict_get alias CAMERA_HOSTS = None ->
        resolve_host None (Some alias) = Raise (UnknownCamera alias ["FLIR1"; "FLIR2"]))
  /\ (forall o,
        CameraControlAPI.camera_alias o <> "" ->
        CameraControlAPI.host o
        = resolve_host (CameraControlAPI._host_override o)
            (Some (CameraControlAPI.camera_alias o)))
  /\ (forall o,
        CameraControlAPI.camera_alias o = "" ->
        given (CameraControlAPI._host_override o) = None ->
        CameraControlAPI.host o = Raise (UnknownCamera "" ["FLIR1"; "FLIR2"])
        /\ resolve_host (CameraControlAPI._host_override o)
             (Some (CameraControlAPI.camera_alias o)) = Ok FLIR2_IP).
Proof.
  split; [| split; [| split; [| split; [| split; [| split]]]]].
  - intros h alias Hh. unfold resolve_host, given.
    apply truthy_str in Hh. now rewrite Hh.
  - intros alias ip H.
    assert (Ha : alias <> "") by (intros ->; discriminate).
    apply truthy_str in Ha. unfold resolve_host, given. cbn [truthy_str].
    rewrite Ha. change (truthy (PStr "")) with false. cbv iota. now rewrite H.
  - reflexivity.
  - reflexivity.
  - intros alias Ha H. apply truthy_str in Ha. unfold resolve_host, given.
    rewrite Ha. now rewrite H.
  - intros o Ha. apply truthy_str in Ha. unfold CameraControlAPI.host, resolve_host.
    destruct (given (CameraControlAPI._host_override o)); [reflexivity |].
    unfold given. rewrite Ha.
    now destruct (dict_get (CameraControlAPI.camera_alias o) CAMERA_HOSTS).
  - intros o Ha Ho. unfold CameraControlAPI.host, resolve_host. rewrite Ho, Ha.
    split; reflexivity.
Qed.

(** ** [main] *)

Lemma parse_param_pairs_loop_raises (pairs : list string) : forall parsed e,
  parse_param_pairs_loop pairs parsed = Raise e -> exists raw b, e = BadParameterPair raw b.
Proof.
  induction pairs as [| raw rest IH]; intros parsed e; cbn [parse_param_pairs_loop];
    [discriminate |].
  destruct (PyStr.split_once "=" raw) as [[key value] |].
  - destruct (String.eqb (PyStr.strip key) ""); [| apply IH].
    intros H. injection H as <-. eauto.
  - intros H. injection H as <-. eauto.
Qed.

(** The loop of [main] over parameters without default, as the registry
    has them. *)
Lemma main_resolve_loop_raises (command : ParsedCommand.t) (specs : list ParameterSpec) :
  Forall (fun spec => p_default spec = None /\ p_required spec <> Some false) specs ->
  forall provided coerced e,
    main_resolve_loop command specs provided coerced = Raise e ->
    (exists n, e = ParserError (MissingParameter n (ParsedCommand.name command)))
    \/ (exists n detail, e = InvalidParameterValue n detail).
Proof.
  intros Hplain.
  induction Hplain as [| spec rest [Hdef _] _ IH]; intros provided coerced e;
    cbn [main_resolve_loop]; [discriminate |].
  destruct (dict_get (p_name spec) provided) as [value |].
  - destruct (coerce_param_value (p_name spec) value spec) as [wire | e'] eqn:C;
      cbn [rbind]; [apply IH |].
    intros H. injection H as <-. right.
    destruct (coerce_raises_invalid _ _ _ _ C) as [detail ->]. eauto.
  - rewrite Hdef. destruct (_ && _).
    + intros H. injection H as <-. left. eauto.
    + apply IH.
Qed.

Section MainFacts.
Context {P : Platform} {N : Network}.

Lemma issue_request_outcome {O : Type} (url_base : string) (query : dict pyval)
    (timeout : Q) (s : Sys O) :
  let url := url_base ++ "?" ++ urlencode query in
  let outcome := urlopen (trace s) url timeout in
  issue_request url_base query timeout s
  = (match outcome with
     | UrlHTTPError code reason => Raise (HTTPErrorFromCamera code reason)
     | UrlURLError reason => Raise (FailedToReachCamera reason)
     | UrlRaises cls detail => Raise (Uncaught cls detail)
     | UrlPayload payload =>
         match json_loads payload with
         | Some data => Ok data
         | None => Ok (PDict [("raw", PStr payload)])
         end
     end,
     mkSys (self s) (trace s ++ [Urlopen url timeout outcome])).
Proof.
  intros url outcome. unfold issue_request. unfold_sys. fold url. fold outcome.
  destruct outcome as [payload | | |]; try reflexivity.
  destruct (json_loads payload); reflexivity.
Qed.

(** X25.  [main] checks everything before it touches the network: an unknown
    command, an unknown camera, a malformed [key=value] pair, a missing,
    invalid or undeclared parameter all end the run with no probe and no
    request made.  Only some of them are reported through the argument
    parser ([SystemExit]): a malformed pair and a value that does not
    coerce leave [main] as the [ValueError] they are. *)
Theorem main_rejects_before_any_traffic (args : Namespace) (s : Sys Probes) :
  (forall e,
     load_command (args_command args) = Raise e ->
     main args s = (Raise (ParserError e), s))
  /\ (forall command e,
        load_command (args_command args) = Ok command ->
        resolve_host (args_host args) (args_camera args) = Raise e ->
        main args s = (Raise (ParserError e), s))
  /\ (forall command host e,
        load_command (args_command args) = Ok command ->
        resolve_host (args_host args) (args_camera args) = Ok host ->
        main_resolve_params command (args_params args) = Raise e ->
        main args s = (Raise e, s)
        /\ (((exists raw b, e = BadParameterPair raw b)
             \/ (exists n detail, e = InvalidParameterValue n detail))
            /\ class_of e = ValueError
            \/ ((exists n, e = ParserError (MissingParameter n (ParsedCommand.name command)))
                \/ (exists extras,
                      e = ParserError
                            (UnexpectedParameter (ParsedCommand.name command) extras)))
               /\ class_of e = SystemExit)).
Proof.
  split; [| split].
  - intros e H. unfold main. rewrite H. cbn [or_parser_error].
    now rewrite (load_command_raises _ _ H).
  - intros command e Hl H. unfold main. rewrite Hl, H. cbn [or_parser_error].
    unfold resolve_host in H.
    destruct (given (args_host args)); [discriminate |].
    destruct (dict_get _ CAMERA_HOSTS); [discriminate |].
    injection H as <-. reflexivity.
  - intros command host e Hl Hh H. split.
    + unfold main. rewrite Hl, Hh. cbn [or_parser_error]. now rewrite H.
    + unfold main_resolve_params in H.
      destruct (parse_param_pairs (args_params args)) as [provided | e1] eqn:Hp;
        cbn [rbind] in H.
      * destruct (main_resolve_loop command _ provided []) as [[left coerced] | e2] eqn:L;
          cbn [rbind] in H.
        -- destruct left; [discriminate |]. injection H as <-.
           right. split; [right; eauto | reflexivity].
        -- injection H as <-.
           destruct (main_resolve_loop_raises _ _
                       (proj1 (registry_well_formed _ _ Hl)) _ _ _ L)
             as [[n ->] | (n & detail & ->)].
           ++ right. split; [left; eauto | reflexivity].
           ++ left. split; [right; eauto | reflexivity].
      * injection H as <-.
        destruct (parse_param_pairs_loop_raises _ _ _ Hp) as (raw & b & ->).
        left. split; [left; eauto | reflexivity].
Qed.

Lemma main_request (args : Namespace) (s : Sys Probes)
    (command : ParsedCommand.t) (host : string) (coerced : dict pyval) :
  load_command (args_command args) = Ok command ->
  resolve_host (args_host args) (args_camera args) = Ok host ->
  main_resolve_params command (args_params args) = Ok coerced ->
  args_retries args <= 0 ->
  let base_url := "http://" ++ host ++ ":" ++ PyStr.of_Z (args_port args) ++ args_path args in
  let query := build_query command (PStr (args_session args)) coerced
                 (negb (args_no_token_override args)) in
  let url := base_url ++ "?" ++ urlencode query in
  snd (main args s)
  = mkSys (self s)
      (trace s ++ [Urlopen url (args_timeout args)
                     (urlopen (trace s) url (args_timeout args))]).
Proof.
  intros Hcommand Hhost Hparams Hretries base_url query url.
  unfold main. rewrite Hcommand, Hhost. cbn [or_parser_error]. rewrite Hparams.
  cbv zeta. fold base_url. fold query.
  assert (Hr : (0 <? args_retries args) = false) by (apply Z.ltb_ge; lia).
  rewrite Hr. unfold bind at 1. cbn [ret]. unfold bind.
  rewrite (issue_request_outcome base_url query (args_timeout args) s).
  cbv zeta. fold url.
  destruct (urlopen (trace s) url (args_timeout args)) as [payload | | | cls detail];
    cbn [class_of ret snd]; try reflexivity.
  - destruct (json_loads payload) as [response |]; cbn [ret snd].
    + destruct (args_raw args); [reflexivity |]. now destruct (has_raw response).
    + destruct (args_raw args); reflexivity.
  - now destruct cls.
Qed.


(** X27.  With [--retries] and a host that refuses every connection, [main]
    ends with the [RuntimeError] of [wait_for_host], which it does not
    catch: the run does not return the exit status 1 that a failed request
    gives, and no request is made. *)
Theorem main_waits_before_the_request (args : Namespace) (s : Sys Probes)
    (command : ParsedCommand.t) (host : string) (coerced : dict pyval)
    (Hcommand : load_command (args_command args) = Ok command)
    (Hhost : resolve_host (args_host args) (args_camera args) = Ok host)
    (Hparams : main_resolve_params command (args_params args) = Ok coerced)
    (Hretries : 0 < args_retries args)
    (Hrefused : forall l,
        refused (connect_ex l host (args_port args) (args_retry_delay args)) = true)
    (Hsleep : forall l, sleep l (args_retry_delay args) = Slept) :
  exists made : Probes,
    main args s
    = (Raise (Uncaught RuntimeError
                ("Camera at " ++ host ++ ":" ++ PyStr.of_Z (args_port args)
                   ++ " not reachable after " ++ PyStr.of_Z (args_retries args)
                   ++ " attempts.")),
       mkSys (self s ++ made)%list (trace s))
    /\ probes is_connect made = Z.to_nat (args_retries args)
    /\ probes is_sleep made = Z.to_nat (args_retries args).
Proof.
  destruct (wait_for_host_loop_down host (args_port args) (args_retry_delay args)
              (Z.to_nat (args_retries args)) s Hrefused Hsleep)
    as (made & E & Hc & Hs & _).
  exists made. split; [| split; assumption].
  unfold main. rewrite Hcommand, Hhost. cbn [or_parser_error]. rewrite Hparams.
  cbv zeta.
  assert (Hr : (0 <? args_retries args) = true) by (apply Z.ltb_lt; lia).
  rewrite Hr. unfold wait_for_host.
  assert (Hr' : (args_retries args <=? 0) = false) by (apply Z.leb_gt; lia).
  rewrite Hr'. unfold bind. rewrite E. reflexivity.
Qed.

(** X28.  The command line and [execute] send the same request: for the same
    command and parameters, the same host and port, the standard path and
    the token that the client holds, the URL that [main] requests is the
    URL that [execute] requests. *)
Theorem cli_and_api_send_the_same_request (args : Namespace) (s : Sys Probes)
    (o : CameraControlAPI.t) (tr : list event)
    (command : ParsedCommand.t) (provided : dict string) (coerced : dict pyval)
    (host : string)
    (Hcommand : load_command (args_command args) = Ok command)
    (Hpairs : parse_param_pairs (args_params args) = Ok provided)
    (Hparams : main_resolve_params command (args_params args) = Ok coerced)
    (Hhost : resolve_host (args_host args) (args_camera args) = Ok host)
    (Hretries : args_retries args <= 0)
    (Hpath : args_path args = NEXUS_CGI_PATH)
    (Hoverride : args_no_token_override args = false)
    (Hsame_host : CameraControlAPI.host o = Ok host)
    (Hsame_port : CameraControlAPI.port o = args_port args)
    (Hsession : CameraControlAPI.session_id o = PStr (args_session args))
    (Htoken : args_session args <> "")
    (Hfresh : (clock tr - CameraControlAPI._last_auth o
               <= CameraControlAPI.session_timeout o)%Q) :
  CameraControlAPI.resolve_params command (args_command args) (as_values provided)
  = Ok coerced
  /\ exists url,
       trace (snd (main args s))
       = (trace s ++ [Urlopen url (args_timeout args)
                        (urlopen (trace s) url (args_timeout args))])%list
       /\ trace (snd (CameraControlAPI.execute (args_command args) (as_values provided)
                        (mkSys o tr)))
          = (tr ++ [Time (clock tr);
                    Urlopen url (CameraControlAPI.request_timeout o)
                      (urlopen (tr ++ [Time (clock tr)]) url
                         (CameraControlAPI.request_timeout o))])%list.
Proof.
  assert (Hname : ParsedCommand.name command = args_command args).
  { unfold load_command, load_command_from in Hcommand.
    destruct (dict_get (args_command args) CAMERA_COMMANDS); [| discriminate].
    now injection Hcommand as <-. }
  destruct (registry_well_formed _ _ Hcommand) as [_ Hnd].
  assert (Hnames : NoDup (map p_name (ParsedCommand.param_specs command))).
  { apply NoDup_app_remove_l, NoDup_app_remove_l, NoDup_app_remove_r in Hnd. exact Hnd. }
  pose proof (main_matches_execute command (args_params args) provided Hnames Hpairs) as M.
  rewrite Hname in M.
  assert (Hapi : CameraControlAPI.resolve_params command (args_command args)
                   (as_values provided) = Ok coerced).
  { destruct (CameraControlAPI.resolve_params command (args_command args)
                (as_values provided)) as [out | e].
    - congruence.
    - destruct e; rewrite Hparams in M; discriminate. }
  split; [exact Hapi |].
  set (base := "http://" ++ host ++ ":" ++ PyStr.of_Z (args_port args) ++ NEXUS_CGI_PATH).
  set (query := build_query command (PStr (args_session args)) coerced true).
  exists (base ++ "?" ++ urlencode query). split.
  - rewrite (main_request args s command host coerced Hcommand Hhost Hparams Hretries).
    cbn [trace]. rewrite Hpath, Hoverride. reflexivity.
  - assert (Hbase : CameraControlAPI._base_url o = Ok base).
    { unfold CameraControlAPI._base_url. now rewrite Hsame_host, Hsame_port. }
    assert (Htruthy : truthy (CameraControlAPI.session_id o) = true).
    { rewrite Hsession. now apply truthy_str. }
    rewrite (execute_authenticated (args_command args) (as_values provided)
               (mkSys o tr) (mkSys o (tr ++ [Time (clock tr)])) command coerced base
               (api_authenticate_noop o tr Htruthy Hfresh) Hcommand Hapi Hbase).
    cbn [self trace]. rewrite Hsession. fold query.
    rewrite (issue_request_outcome base query (CameraControlAPI.request_timeout o)
               (mkSys o (tr ++ [Time (clock tr)]))).
    cbv zeta. cbn [snd self trace]. now rewrite <- app_assoc.
Qed.

End MainFacts.


(** ** Further concrete runs *)


Lemma build_query_keys_witness :
  dict_get "session"
    (build_query center_command (PStr "tok1") [("ScreenX", PStr "1.5")] true)
  = Some (PStr "tok1").
Proof.
  exact (proj1 (proj2 (proj2 (build_query_keys center_command (PStr "tok1")
                                [("ScreenX", PStr "1.5")] true)))
           eq_refl eq_refl).
Defined.

Lemma set_camera_forgets_session_witness :
  CameraControlAPI.host
    (self (snd (CameraControlAPI.set_camera (Some "FLIR1") (Some "")
                  (mkSys (api_with_session "tok1" 0) []))))
  = Ok FLIR1_IP.
Proof.
  pose proof (@set_camera_forgets_session (camera_online 100 position_text)
                (Some "FLIR1") (Some "") (mkSys (api_with_session "tok1" 0) [])) as H.
  cbv zeta in H. destruct H as (_ & _ & _ & _ & _ & _ & _ & H).
  rewrite (H eq_refl). reflexivity.
Defined.

Lemma wait_for_host_probes_witness :
  @wait_for_host no_route "169.254.50.183" 80 0 1 (mkSys [] []) = (Ok tt, mkSys [] []).
Proof.
  destruct (@wait_for_host_probes no_route "169.254.50.183" 80 1 0 (mkSys [] []))
    as (made & Hs & _ & _ & H0 & _).
  cbv zeta in Hs, H0. destruct (H0 ltac:(lia)) as [-> Hr].
  rewrite (surjective_pairing (wait_for_host _ _ _ _ _)). now rewrite Hs, Hr.
Defined.

Lemma host_resolution_witness :
  resolve_host None (Some "FLIR1") = Ok FLIR1_IP.
Proof.
  exact (proj1 (proj1 (proj2 host_resolution) "FLIR1" FLIR1_IP eq_refl)).
Defined.

Lemma main_rejects_before_any_traffic_witness :
  @main (camera_online 100 position_text) no_route
    {| args_command := "center"; args_session := "tok1";
       args_camera := None; args_host := None;
       args_port := 80; args_path := "/Nexus.cgi";
       args_timeout := 5; args_retries := 3; args_retry_delay := 1;
       args_no_token_override := false; args_print_url := false; args_raw := false;
       args_params := ["ScreenX=left"; "ScreenY=2"] |}
    (mkSys [] [])
  = (Raise (InvalidParameterValue "ScreenX" (CannotConvert "left" "float")), mkSys [] []).
Proof.
  match goal with
  | |- main ?a _ = _ =>
      refine (proj1 (proj2 (proj2 (@main_rejects_before_any_traffic
                                     (camera_online 100 position_text) no_route a
                                     (mkSys [] [])))
                       center_command FLIR2_IP _ eq_refl eq_refl _))
  end.
  vm_compute. reflexivity.
Defined.


Lemma main_waits_before_the_request_witness :
  exists made : Probes,
    @main (camera_online 100 position_text) no_route (center_args 3) (mkSys [] [])
    = (Raise (Uncaught RuntimeError
                "Camera at 169.254.50.183:80 not reachable after 3 attempts."),
       mkSys made [])
    /\ probes is_connect made = 3%nat
    /\ probes is_sleep made = 3%nat.
Proof.
  assert (Hp : main_resolve_params center_command (args_params (center_args 3))
               = Ok [("ScreenX", PStr "1.5"); ("ScreenY", PStr "2")])
    by (vm_compute; reflexivity).
  exact (@main_waits_before_the_request (camera_online 100 position_text) no_route
           (center_args 3) (mkSys [] []) center_command FLIR2_IP _
           eq_refl eq_refl Hp eq_refl (fun _ => eq_refl) (fun _ => eq_refl)).
Defined.

Lemma cli_and_api_send_the_same_request_witness :
  CameraControlAPI.resolve_params center_command "center"
    (as_values [("ScreenX", "1.5"); ("ScreenY", "2")])
  = Ok [("ScreenX", PStr "1.5"); ("ScreenY", PStr "2")].
Proof.
  assert (Hp : main_resolve_params center_command (args_params (center_args 0))
               = Ok [("ScreenX", PStr "1.5"); ("ScreenY", PStr "2")])
    by (vm_compute; reflexivity).
  refine (proj1 (@cli_and_api_send_the_same_request (camera_online 100 position_text)
                   no_route (center_args 0) (mkSys [] []) (api_with_session "tok1" 0) []
                   center_command [("ScreenX", "1.5"); ("ScreenY", "2")] _ FLIR2_IP
                   eq_refl eq_refl Hp eq_refl _ eq_refl eq_refl eq_refl eq_refl eq_refl
                   _ _)).
  - cbn. lia.
  - discriminate.
  - apply Qle_bool_iff. reflexivity.
Defined.
